(** * A shallow embedding of the go-digicert-tlm client

    The Go package [digicert] is a typed binding over the DigiCert Trust
    Lifecycle Manager REST API.  This development embeds its request and
    response plumbing ([client.go], [errors.go]) and every service method
    ([certificates.go], [business_units.go], [certificate_owners.go],
    [enrollments.go], [profiles.go]) and proves the properties recorded
    for it.

    Conventions.
    - Go [string] and [[]byte] are both byte sequences and are both
      [string] here, so the conversion [string(data)] is the identity.
    - Go [int] is [Z]; the package only compares and prints integers.
    - A Go [error] is [option errorValue]; [None] is the nil interface.
    - A pointer to a struct is the struct it points to; a pointer whose
      being nil matters, the options of a list method or a request
      struct handed to the encoder, is an [option].
    - An [interface{}] argument is an [option] of a value whose type
      carries the JSON codec, [None] being the nil interface.
    - What the Go standard library does (URL parsing and resolution,
      JSON coding, the HTTP round trip) is a parameter of the
      development, the class [StdLib] and the codec classes; what the
      package itself does with headers, query values and strings is
      modelled concretely. *)

From stdpp Require Import base strings gmap list sorting pretty.
From Stdlib Require Import ZArith Ascii.

Local Open Scope Z_scope.

(** ** Errors *)

Module APIError.
(** [type APIError struct] of errors.go; [StatusCode] has tag [json:"-"]. *)
Record t : Type := mk {
  StatusCode : Z;
  Code : string;
  Message : string;
  Details : list string;
  RequestID : string
}.
Definition zero : t := mk 0 "" "" [] "".
Definition with_StatusCode (e : t) (n : Z) : t :=
  mk n (Code e) (Message e) (Details e) (RequestID e).
End APIError.

Module HTTPError.
(** [type HTTPError struct] of errors.go. *)
Record t : Type := mk {
  StatusCode : Z;
  Message : string
}.
End HTTPError.

(** The dynamic values an [error] interface holds in this program: the
    package's two error types, the wrapper [fmt.Errorf] builds for [%w],
    a plain [fmt.Errorf] message, and the errors of the standard library
    ([*url.Error], [*json.SyntaxError], transport errors, ...), which are
    identified by their package and message. *)
Inductive errorValue : Type :=
  | Err_APIError (e : APIError.t)
  | Err_HTTPError (e : HTTPError.t)
  | Err_wrap (msg : string) (inner : errorValue)
  | Err_fmt (msg : string)
  | Err_std (pkg msg : string).

Definition error : Type := option errorValue.
Definition nil_error : error := None.

(** A Go result pair [(x, err)] of which exactly one side is set. *)
Inductive Result (A : Type) : Type :=
  | Ok (a : A)
  | Err (e : errorValue).
Arguments Ok {A} a.
Arguments Err {A} e.

Definition is_Ok {A} (r : Result A) : bool :=
  match r with Ok _ => true | Err _ => false end.

(** ** Package strings *)

Module GoStrings.

(** [strip prefix s] is [Some rest] when [s = prefix ++ rest]. *)
Fixpoint strip (prefix s : string) : option string :=
  match prefix, s with
  | EmptyString, _ => Some s
  | String a p, String b r => if Ascii.eqb a b then strip p r else None
  | String _ _, EmptyString => None
  end.

Definition HasPrefix (s prefix : string) : bool :=
  match strip prefix s with Some _ => true | None => false end.

(** [if HasPrefix(s, prefix) { return s[len(prefix):] }; return s] *)
Definition TrimPrefix (s prefix : string) : string :=
  match strip prefix s with Some r => r | None => s end.

(** [s] ends with [suffix]: [s] is [suffix], or its tail ends with it. *)
Fixpoint HasSuffix (s suffix : string) : bool :=
  String.eqb s suffix ||
  match s with
  | EmptyString => false
  | String _ r => HasSuffix r suffix
  end.

Definition TrimSuffix (s suffix : string) : string :=
  if HasSuffix s suffix
  then String.substring 0 (String.length s - String.length suffix) s
  else s.

(** [strings.Cut(s, sep)] for a one-byte separator. *)
Fixpoint Cut (s : string) (sep : ascii) : string * string * bool :=
  match s with
  | EmptyString => (EmptyString, EmptyString, false)
  | String a r =>
      if Ascii.eqb a sep then (EmptyString, r, true)
      else let '(before, after, found) := Cut r sep in
           (String a before, after, found)
  end.

Fixpoint ContainsByte (s : string) (c : ascii) : bool :=
  match s with
  | EmptyString => false
  | String a r => Ascii.eqb a c || ContainsByte r c
  end.

(** The pieces of [s] between occurrences of [sep]; never empty. *)
Fixpoint Split (s : string) (sep : ascii) : list string :=
  match s with
  | EmptyString => [EmptyString]
  | String a r =>
      if Ascii.eqb a sep then EmptyString :: Split r sep
      else match Split r sep with
           | [] => [String a EmptyString]
           | w :: ws => String a w :: ws
           end
  end.

Fixpoint Join (elems : list string) (sep : string) : string :=
  match elems with
  | [] => ""
  | [x] => x
  | x :: rest => x +:+ sep +:+ Join rest sep
  end.

End GoStrings.

(** ** Package fmt: the verbs the package uses *)

Module GoFmt.
(** [%d] on an [int]. *)
Definition d (n : Z) : string := pretty n.
(** [%t] on a [bool]. *)
Definition t (b : bool) : string := if b then "true" else "false".
End GoFmt.

(** ** Bytes and their classes *)

Module GoByte.

Definition code (c : ascii) : N := Ascii.N_of_ascii c.

Definition between (lo hi c : ascii) : bool :=
  ((code lo <=? code c) && (code c <=? code hi))%N.

Definition isLower (c : ascii) : bool := between "a" "z" c.
Definition isUpper (c : ascii) : bool := between "A" "Z" c.
Definition isDigit (c : ascii) : bool := between "0" "9" c.
Definition isAlnum (c : ascii) : bool := isLower c || isUpper c || isDigit c.

Definition toUpper (c : ascii) : ascii :=
  if isLower c then Ascii.ascii_of_N (code c - 32) else c.
Definition toLower (c : ascii) : ascii :=
  if isUpper c then Ascii.ascii_of_N (code c + 32) else c.

(** The token bytes of RFC 7230, the table behind [validMethod] of
    net/http and [validHeaderFieldByte] of net/textproto. *)
Definition isToken (c : ascii) : bool :=
  isAlnum c || GoStrings.ContainsByte "!#$%&'*+-.^_`|~" c.

Definition hexDigit (n : N) : ascii :=
  match String.get (N.to_nat n) "0123456789ABCDEF" with
  | Some c => c
  | None => "0"%char
  end.

Definition unhex (c : ascii) : option N :=
  if isDigit c then Some (code c - code "0")%N
  else if between "a" "f" c then Some (code c - code "a" + 10)%N
  else if between "A" "F" c then Some (code c - code "A" + 10)%N
  else None.

Fixpoint all (p : ascii → bool) (s : string) : bool :=
  match s with
  | EmptyString => true
  | String a r => p a && all p r
  end.

End GoByte.


(** ** Package net/url: the URL record and query values *)

Module GoURL.

(** [type URL struct]; [User] is the userinfo, [None] when absent. *)
Record URL : Type := mkURL {
  Scheme : string;
  Opaque : string;
  User : option (string * option string);
  Host : string;
  Path : string;
  RawPath : string;
  OmitHost : bool;
  ForceQuery : bool;
  RawQuery : string;
  Fragment : string;
  RawFragment : string
}.

Definition with_Path (u : URL) (p : string) : URL :=
  mkURL (Scheme u) (Opaque u) (User u) (Host u) p (RawPath u)
        (OmitHost u) (ForceQuery u) (RawQuery u) (Fragment u) (RawFragment u).

Definition with_Host (u : URL) (h : string) : URL :=
  mkURL (Scheme u) (Opaque u) (User u) h (Path u) (RawPath u)
        (OmitHost u) (ForceQuery u) (RawQuery u) (Fragment u) (RawFragment u).

Definition with_RawQuery (u : URL) (q : string) : URL :=
  mkURL (Scheme u) (Opaque u) (User u) (Host u) (Path u) (RawPath u)
        (OmitHost u) (ForceQuery u) q (Fragment u) (RawFragment u).

(** [type Values map[string][]string] *)
Abbreviation Values := (gmap string (list string)).

Definition values (v : Values) (key : string) : list string :=
  default [] (v !! key).

(** [v[key] = append(v[key], value)] *)
Definition Add (v : Values) (key value : string) : Values :=
  <[key := values v key ++ [value]]> v.

Definition Get (v : Values) (key : string) : string :=
  match values v key with
  | [] => ""
  | x :: _ => x
  end.

Definition Has (v : Values) (key : string) : bool :=
  match v !! key with Some _ => true | None => false end.

(** [shouldEscape(c, encodeQueryComponent)]: everything but the
    unreserved bytes is escaped. *)
Definition shouldEscape (c : ascii) : bool :=
  negb (GoByte.isAlnum c || GoStrings.ContainsByte "-_.~" c).

Fixpoint QueryEscape (s : string) : string :=
  match s with
  | EmptyString => EmptyString
  | String c r =>
      if Ascii.eqb c " " then String "+" (QueryEscape r)
      else if shouldEscape c then
        String "%" (String (GoByte.hexDigit (GoByte.code c / 16))
                   (String (GoByte.hexDigit (GoByte.code c mod 16))
                           (QueryEscape r)))
      else String c (QueryEscape r)
  end.

(** [QueryUnescape]: [None] is the [EscapeError]. *)
Fixpoint QueryUnescape (s : string) : option string :=
  match s with
  | EmptyString => Some EmptyString
  | String c r =>
      if Ascii.eqb c "%" then
        match r with
        | String h (String l r') =>
            match GoByte.unhex h, GoByte.unhex l, QueryUnescape r' with
            | Some hi, Some lo, Some t =>
                Some (String (Ascii.ascii_of_N (hi * 16 + lo)) t)
            | _, _, _ => None
            end
        | _ => None
        end
      else if Ascii.eqb c "+" then String " " <$> QueryUnescape r
      else String c <$> QueryUnescape r
  end.

(** One turn of the loop of [parseQuery] on the piece [key] cut at [&]. *)
Definition parseQuery_step (m : Values) (key : string) : Values :=
  if GoStrings.ContainsByte key ";" then m
  else if String.eqb key "" then m
  else
    let '(k, value, _) := GoStrings.Cut key "=" in
    match QueryUnescape k, QueryUnescape value with
    | Some k', Some value' => Add m k' value'
    | _, _ => m
    end.

(** [func (u *URL) Query() Values]: [ParseQuery(u.RawQuery)] with its
    error dropped. *)
Definition ParseQuery (query : string) : Values :=
  foldl parseQuery_step ∅ (GoStrings.Split query "&").

Definition Query (u : URL) : Values := ParseQuery (RawQuery u).

(** The [key=value] pieces [Encode] writes for one key. *)
Definition encode_key (v : Values) (k : string) : list string :=
  (λ x, QueryEscape k +:+ "=" +:+ QueryEscape x) <$> values v k.

Definition sorted_keys (v : Values) : list string :=
  merge_sort String.le (map_to_list v).*1.

Definition encode_pieces (v : Values) : list string :=
  sorted_keys v ≫= encode_key v.

(** [func (v Values) Encode() string]: keys in byte order, pieces
    joined by [&]. *)
Definition Encode (v : Values) : string :=
  GoStrings.Join (encode_pieces v) "&".

End GoURL.

(** ** Package net/http: headers, requests, responses *)

(** [context.Context]; the interface value may be nil. *)
Inductive Context : Type :=
  | ctx_nil
  | ctx_Background
  | ctx_derived (id : nat).

Module GoHTTP.

Definition MethodGet : string := "GET".
Definition MethodPost : string := "POST".
Definition MethodPut : string := "PUT".
Definition MethodDelete : string := "DELETE".

Definition StatusOK : Z := 200.
Definition StatusNotModified : Z := 304.
Definition StatusBadRequest : Z := 400.
Definition StatusUnauthorized : Z := 401.
Definition StatusForbidden : Z := 403.
Definition StatusNotFound : Z := 404.
Definition StatusInternalServerError : Z := 500.

(** [type Header map[string][]string] *)
Abbreviation Header := (gmap string (list string)).

(** The second loop of [canonicalMIMEHeaderKey]: upper case at the
    start and after each dash, lower case elsewhere. *)
Fixpoint canonical (upper : bool) (s : string) : string :=
  match s with
  | EmptyString => EmptyString
  | String c r =>
      let c' := if upper then GoByte.toUpper c else GoByte.toLower c in
      String c' (canonical (Ascii.eqb c' "-") r)
  end.

(** [textproto.CanonicalMIMEHeaderKey]: a key with a byte that is not
    a token byte is returned unchanged. *)
Definition CanonicalMIMEHeaderKey (s : string) : string :=
  if GoByte.all GoByte.isToken s then canonical true s else s.

Definition Set_ (h : Header) (key value : string) : Header :=
  <[CanonicalMIMEHeaderKey key := [value]]> h.

Definition Get (h : Header) (key : string) : string :=
  match default [] (h !! CanonicalMIMEHeaderKey key) with
  | [] => ""
  | x :: _ => x
  end.

Definition Has (h : Header) (key : string) : bool :=
  match h !! CanonicalMIMEHeaderKey key with Some _ => true | None => false end.

(** [validMethod]: not empty, and token bytes only. *)
Definition validMethod (method : string) : bool :=
  negb (String.eqb method "") && GoByte.all GoByte.isToken method.

(** Position of the last [c] in [s], counted from 1; 0 when absent. *)
Fixpoint lastIndex (s : string) (c : ascii) (pos : nat) : nat :=
  match s with
  | EmptyString => O
  | String a r =>
      match lastIndex r c (S pos) with
      | O => if Ascii.eqb a c then S pos else O
      | n => n
      end
  end.

(** [removeEmptyPort]: a host ending in a bare colon loses it. *)
Definition removeEmptyPort (host : string) : string :=
  if (lastIndex host "]" O <? lastIndex host ":" O)%nat
  then GoStrings.TrimSuffix host ":"
  else host.

End GoHTTP.

Module Request.
(** [http.Request], the fields this package reads or writes. [Body]
    is [None] for a nil body. *)
Record t : Type := mk {
  Ctx : Context;
  Method : string;
  URL : GoURL.URL;
  Header : GoHTTP.Header;
  Body : option string;
  Host : string
}.

Definition with_Header (r : t) (h : GoHTTP.Header) : t :=
  mk (Ctx r) (Method r) (URL r) h (Body r) (Host r).

Definition with_URL (r : t) (u : GoURL.URL) : t :=
  mk (Ctx r) (Method r) u (Header r) (Body r) (Host r).
End Request.

Module HTTPResponse.
(** [http.Response]. Reading [Body] to its end with [io.ReadAll]
    yields the bytes [Content] and the error [ReadErr]. *)
Record t : Type := mk {
  StatusCode : Z;
  Header : GoHTTP.Header;
  Content : string;
  ReadErr : error
}.
End HTTPResponse.

Definition io_ReadAll (resp : HTTPResponse.t) : string * error :=
  (HTTPResponse.Content resp, HTTPResponse.ReadErr resp).

Module HTTPClient.
(** [http.Client]: the identity of its transport and its timeout in
    nanoseconds. *)
Record t : Type := mk {
  Transport : nat;
  Timeout : Z
}.
End HTTPClient.

(** ** The standard library as a parameter *)

(** What net/url and net/http compute.  [http_Client_Do client sent req]
    is the outcome of [client.Do(req)] when the requests [sent] went out
    before: a transport error, or the response received. *)
Class StdLib : Type := {
  url_Parse : string → Result GoURL.URL;
  url_ResolveReference : GoURL.URL → GoURL.URL → GoURL.URL;
  url_String : GoURL.URL → string;
  http_Client_Do :
    HTTPClient.t → list Request.t → Request.t → Result HTTPResponse.t
}.

(** [json.NewEncoder(buf)] with [SetEscapeHTML(false)], then
    [Encode(v)]: the bytes written, final newline included, or the
    encoder's error. *)
Class JSONEncoder (T : Type) : Type :=
  json_Encode : T → Result string.

(** [json.Unmarshal(data, &v)]: the value the target holds afterwards
    and the error returned. *)
Class JSONDecoder (T : Type) : Type :=
  json_Unmarshal : string → T → T * error.

(** The zero value of a Go type, what [var x T] declares. *)
Class Zero (T : Type) : Type :=
  zero : T.

(** A nil pointer encodes as [null]. *)
#[global] Instance pointer_JSONEncoder {T} `{JSONEncoder T} :
  JSONEncoder (option T) :=
  λ p, match p with
       | Some x => json_Encode x
       | None => Ok (String.append "null" (String "010" EmptyString))
       end.

(** The type of a nil [interface{}]: no value, hence no codec to run. *)
#[global] Instance Empty_JSONEncoder : JSONEncoder Empty_set :=
  λ x, match x with end.
#[global] Instance Empty_JSONDecoder : JSONDecoder Empty_set :=
  λ _ x, match x with end.

Definition nil_interface : option Empty_set := None.

(** ** client.go: the client and its state *)

Definition DefaultBaseURL : string := "https://one.digicert.com".
Definition APIVersion : string := "v1".
Definition UserAgent : string := "go-digicert/1.0".

Module Client.
(** [type Client struct].  The service fields point back to the client
    they belong to and hold nothing else, so a service method is a
    function of the client state itself. *)
Record t : Type := mk {
  client : HTTPClient.t;
  BaseURL : GoURL.URL;
  UserAgent : string;
  apiKey : string
}.

Definition with_client (c : t) (h : HTTPClient.t) : t :=
  mk h (BaseURL c) (UserAgent c) (apiKey c).
Definition with_BaseURL (c : t) (u : GoURL.URL) : t :=
  mk (client c) u (UserAgent c) (apiKey c).
Definition with_UserAgent (c : t) (s : string) : t :=
  mk (client c) (BaseURL c) s (apiKey c).
End Client.

Module Response.
(** [type Response struct { *http.Response; Body []byte }]; [Body]
    is [None] while the slice is nil. *)
Record t : Type := mk {
  Response : HTTPResponse.t;
  Body : option string
}.
End Response.

(** [type PaginationParams struct].  client.go declares [Page] and
    [PageSize]; [BusinessUnitsService.List] and
    [CertificatesService.Search] read [Offset] and [Limit] of the same
    embedded struct, which the tests set as well, so the record carries
    the four fields. *)
Module PaginationParams.
Record t : Type := mk {
  Page : Z;
  PageSize : Z;
  Offset : Z;
  Limit : Z
}.
End PaginationParams.

(** The world a call runs in: the client the services point to, the
    requests handed to [http.Client.Do] so far, oldest first, and the
    lines written to standard output. *)
Record State : Type := mkState {
  the_client : Client.t;
  wire : list Request.t;
  stdout : list string
}.

Definition M (A : Type) : Type := State → A * State.

#[global] Instance M_ret : MRet M := λ A a st, (a, st).
#[global] Instance M_bind : MBind M :=
  λ A B f m st, let '(a, st') := m st in f a st'.

Definition get_client : M Client.t := λ st, (the_client st, st).

Definition set_client (c : Client.t) : M unit :=
  λ st, (tt, mkState c (wire st) (stdout st)).

Definition fmt_Println (line : string) : M unit :=
  λ st, (tt, mkState (the_client st) (wire st) (stdout st ++ [line])).

(** ** errors.go *)

(** [func (e *APIError) Error() string] *)
Definition APIError_Error (e : APIError.t) : string :=
  if negb (String.eqb (APIError.Code e) "") then
    "digicert: " +:+ APIError.Message e +:+ " (code: " +:+ APIError.Code e
      +:+ ", status: " +:+ GoFmt.d (APIError.StatusCode e) +:+ ")"
  else
    "digicert: " +:+ APIError.Message e
      +:+ " (status: " +:+ GoFmt.d (APIError.StatusCode e) +:+ ")".

(** [func (e *HTTPError) Error() string] *)
Definition HTTPError_Error (e : HTTPError.t) : string :=
  "digicert: HTTP " +:+ GoFmt.d (HTTPError.StatusCode e) +:+ ": "
    +:+ HTTPError.Message e.

(** The type assertions of [err] to [*APIError] and to [*HTTPError] look
    at the dynamic type of [err] itself; a wrapped error is not
    unwrapped. *)
Definition IsNotFound (err : error) : bool :=
  match err with
  | Some (Err_APIError apiErr) => APIError.StatusCode apiErr =? 404
  | Some (Err_HTTPError httpErr) => HTTPError.StatusCode httpErr =? 404
  | _ => false
  end.

Definition IsUnauthorized (err : error) : bool :=
  match err with
  | Some (Err_APIError apiErr) => APIError.StatusCode apiErr =? 401
  | Some (Err_HTTPError httpErr) => HTTPError.StatusCode httpErr =? 401
  | _ => false
  end.

Definition IsForbidden (err : error) : bool :=
  match err with
  | Some (Err_APIError apiErr) => APIError.StatusCode apiErr =? 403
  | Some (Err_HTTPError httpErr) => HTTPError.StatusCode httpErr =? 403
  | _ => false
  end.

(** ** client.go: construction, requests and responses *)

Section ClientCode.
Context `{StdLib}.
Context `{!JSONDecoder APIError.t}.

(** [http.NewRequestWithContext(ctx, method, url, body)]: the checks
    it makes, in its order, and the request it returns, whose header
    map is fresh. *)
Definition http_NewRequestWithContext
    (ctx : Context) (method url : string) (body : option string)
    : Result Request.t :=
  let method := if String.eqb method "" then "GET" else method in
  if negb (GoHTTP.validMethod method) then
    Err (Err_fmt ("net/http: invalid method " +:+ method))
  else
    match ctx with
    | ctx_nil => Err (Err_std "errors" "net/http: nil Context")
    | _ =>
        match url_Parse url with
        | Err err => Err err
        | Ok u =>
            let u := GoURL.with_Host u (GoHTTP.removeEmptyPort (GoURL.Host u)) in
            Ok (Request.mk ctx method u ∅ body (GoURL.Host u))
        end
    end.

Definition ClientOption : Type := Client.t → Result Client.t.

Definition WithHTTPClient (httpClient : option HTTPClient.t) : ClientOption :=
  λ c, match httpClient with
       | None => Err (Err_fmt "HTTP client cannot be nil")
       | Some h => Ok (Client.with_client c h)
       end.

Definition WithBaseURL (baseURL : string) : ClientOption :=
  λ c, match url_Parse baseURL with
       | Err err => Err (Err_wrap "invalid base URL: " err)
       | Ok u => Ok (Client.with_BaseURL c u)
       end.

Definition WithUserAgent (userAgent : string) : ClientOption :=
  λ c, Ok (Client.with_UserAgent c userAgent).

(** [for _, opt := range opts { if err := opt(c); err != nil { return nil, err } }] *)
Fixpoint apply_options (opts : list ClientOption) (c : Client.t)
    : Result Client.t :=
  match opts with
  | [] => Ok c
  | opt :: rest =>
      match opt c with
      | Err err => Err err
      | Ok c' => apply_options rest c'
      end
  end.

(** [&http.Client{Timeout: 30 * time.Second}] *)
Definition default_http_Client : HTTPClient.t :=
  HTTPClient.mk 0 (30 * 1000000000).

Definition NewClient (apiKey : string) (opts : list ClientOption)
    : Result Client.t :=
  if String.eqb apiKey "" then Err (Err_fmt "API key is required")
  else
    match url_Parse DefaultBaseURL with
    | Err err => Err err
    | Ok baseURL =>
        apply_options opts
          (Client.mk default_http_Client baseURL UserAgent apiKey)
    end.

(** [func (c *Client) NewRequest(ctx, method, urlStr, body)].
    [c.BaseURL] is a pointer: the assignment to [c.BaseURL.Path]
    changes the URL the client holds, so it is a write to the state. *)
Definition NewRequest {T} `{!JSONEncoder T}
    (ctx : Context) (method urlStr : string) (body : option T)
    : M (Result Request.t) :=
  c ← get_client;
  (if negb (GoStrings.HasSuffix (GoURL.Path (Client.BaseURL c)) "/") then
     set_client
       (Client.with_BaseURL c
          (GoURL.with_Path (Client.BaseURL c)
             (GoURL.Path (Client.BaseURL c) +:+ "/")))
   else mret tt);;
  c ← get_client;
  match url_Parse ("mpki/api/" +:+ APIVersion +:+ "/"
                     +:+ GoStrings.TrimPrefix urlStr "/") with
  | Err err => mret (Err err)
  | Ok rel =>
      let u := url_ResolveReference (Client.BaseURL c) rel in
      let buf : Result (option string) :=
        match body with
        | Some b =>
            match json_Encode b with
            | Ok text => Ok (Some text)
            | Err err => Err err
            end
        | None => Ok None
        end in
      match buf with
      | Err err => mret (Err err)
      | Ok buf =>
          match http_NewRequestWithContext ctx method (url_String u) buf with
          | Err err => mret (Err err)
          | Ok req =>
              let h := Request.Header req in
              let h := match body with
                       | Some _ => GoHTTP.Set_ h "Content-Type" "application/json"
                       | None => h
                       end in
              let h := GoHTTP.Set_ h "Accept" "application/json" in
              let h := GoHTTP.Set_ h "User-Agent" (Client.UserAgent c) in
              let h := GoHTTP.Set_ h "X-API-Key" (Client.apiKey c) in
              mret (Ok (Request.with_Header req h))
          end
      end
  end.

(** [func (c *Client) checkError(resp, data) error] *)
Definition checkError (resp : HTTPResponse.t) (data : string) : error :=
  let '(apiError, err) := json_Unmarshal data APIError.zero in
  match err with
  | Some _ =>
      Some (Err_HTTPError
              (HTTPError.mk (HTTPResponse.StatusCode resp) data))
  | None =>
      Some (Err_APIError
              (APIError.with_StatusCode apiError (HTTPResponse.StatusCode resp)))
  end.

(** [c.client.Do(req)]: the request goes out, and the transport
    answers. *)
Definition client_Do (req : Request.t) : M (Result HTTPResponse.t) :=
  λ st,
    (http_Client_Do (Client.client (the_client st)) (wire st) req,
     mkState (the_client st) (wire st ++ [req]) (stdout st)).

(** [func (c *Client) Do(ctx, req, v)], returning the response and
    the error; the third
    component is what the target [v] holds when [Do] returns. *)
Definition Do {T} `{!JSONDecoder T}
    (ctx : Context) (req : Request.t) (v : option T)
    : M (option Response.t * error * option T) :=
  r ← client_Do req;
  match r with
  | Err err => mret (None, Some err, v)
  | Ok resp =>
      let response := Response.mk resp None in
      let '(data, err) := io_ReadAll resp in
      match err with
      | Some _ => mret (Some response, err, v)
      | None =>
          let response := Response.mk resp (Some data) in
          if (HTTPResponse.StatusCode resp <? 200)
             || (300 <=? HTTPResponse.StatusCode resp) then
            mret (Some response, checkError resp data, v)
          else
            match v with
            | Some target =>
                if (0 <? String.length data)%nat then
                  let '(target', err) := json_Unmarshal data target in
                  match err with
                  | Some e =>
                      mret (Some response,
                            Some (Err_wrap "failed to decode response: " e),
                            Some target')
                  | None => mret (Some response, None, Some target')
                  end
                else mret (Some response, None, v)
            | None => mret (Some response, None, v)
            end
      end
  end.

End ClientCode.

(** ** The vendor's record shapes *)

(** The request and response structs mirror the vendor's JSON schema and
    are only ever encoded, or decoded into: each is a type with its
    codec, and the response types come with their zero value. *)
Class Schema : Type := {
  CertificateRequest : Type;
  CertificateRequest_enc :: JSONEncoder CertificateRequest;
  RevokeRequest : Type;
  RevokeRequest_enc :: JSONEncoder RevokeRequest;
  RenewRequest : Type;
  RenewRequest_enc :: JSONEncoder RenewRequest;
  BusinessUnitRequest : Type;
  BusinessUnitRequest_enc :: JSONEncoder BusinessUnitRequest;
  BusinessUnitAdminRequest : Type;
  BusinessUnitAdminRequest_enc :: JSONEncoder BusinessUnitAdminRequest;
  CertificateOwnerRequest : Type;
  CertificateOwnerRequest_enc :: JSONEncoder CertificateOwnerRequest;
  EnrollmentRequest : Type;
  EnrollmentRequest_enc :: JSONEncoder EnrollmentRequest;
  RedeemEnrollmentRequest : Type;
  RedeemEnrollmentRequest_enc :: JSONEncoder RedeemEnrollmentRequest;
  ManualEnrollmentRequest : Type;
  ManualEnrollmentRequest_enc :: JSONEncoder ManualEnrollmentRequest;
  (** [struct { OwnerIDs []string `json:"owner_ids"` }] *)
  OwnerIDs_enc : JSONEncoder (list string);

  Certificate : Type;
  Certificate_zero :: Zero Certificate;
  Certificate_dec :: JSONDecoder Certificate;
  CertificateResponse : Type;
  CertificateResponse_zero :: Zero CertificateResponse;
  CertificateResponse_dec :: JSONDecoder CertificateResponse;
  CertificateSearchResponse : Type;
  CertificateSearchResponse_zero :: Zero CertificateSearchResponse;
  CertificateSearchResponse_dec :: JSONDecoder CertificateSearchResponse;
  AdditionalFormatsResponse : Type;
  AdditionalFormatsResponse_zero :: Zero AdditionalFormatsResponse;
  AdditionalFormatsResponse_dec :: JSONDecoder AdditionalFormatsResponse;
  BusinessUnit : Type;
  BusinessUnit_zero :: Zero BusinessUnit;
  BusinessUnit_dec :: JSONDecoder BusinessUnit;
  BusinessUnitListResponse : Type;
  BusinessUnitListResponse_zero :: Zero BusinessUnitListResponse;
  BusinessUnitListResponse_dec :: JSONDecoder BusinessUnitListResponse;
  LicensedSeats : Type;
  LicensedSeats_zero :: Zero LicensedSeats;
  LicensedSeats_dec :: JSONDecoder LicensedSeats;
  BusinessUnitAdmin : Type;
  BusinessUnitAdmin_zero :: Zero BusinessUnitAdmin;
  BusinessUnitAdmin_dec :: JSONDecoder BusinessUnitAdmin;
  BusinessUnitAdmins_dec :: JSONDecoder (list BusinessUnitAdmin);
  CertificateOwner : Type;
  CertificateOwner_zero :: Zero CertificateOwner;
  CertificateOwner_dec :: JSONDecoder CertificateOwner;
  CertificateOwnerListResponse : Type;
  CertificateOwnerListResponse_zero :: Zero CertificateOwnerListResponse;
  CertificateOwnerListResponse_dec :: JSONDecoder CertificateOwnerListResponse;
  Enrollment : Type;
  Enrollment_zero :: Zero Enrollment;
  Enrollment_dec :: JSONDecoder Enrollment;
  EnrollmentResponse : Type;
  EnrollmentResponse_zero :: Zero EnrollmentResponse;
  EnrollmentResponse_dec :: JSONDecoder EnrollmentResponse;
  EnrollmentStatusResponse : Type;
  EnrollmentStatusResponse_zero :: Zero EnrollmentStatusResponse;
  EnrollmentStatusResponse_dec :: JSONDecoder EnrollmentStatusResponse;
  EnrollmentDetailsResponse : Type;
  EnrollmentDetailsResponse_zero :: Zero EnrollmentDetailsResponse;
  EnrollmentDetailsResponse_dec :: JSONDecoder EnrollmentDetailsResponse;
  Profile : Type;
  Profile_zero :: Zero Profile;
  Profile_dec :: JSONDecoder Profile;
  ProfileListResponse : Type;
  ProfileListResponse_zero :: Zero ProfileListResponse;
  ProfileListResponse_dec :: JSONDecoder ProfileListResponse;
  ProfileTemplateListResponse : Type;
  ProfileTemplateListResponse_zero :: Zero ProfileTemplateListResponse;
  ProfileTemplateListResponse_dec :: JSONDecoder ProfileTemplateListResponse
}.

(** The anonymous request struct of [AssignToCertificate]. *)
Module OwnerIDsBody.
Record t : Type := mk { OwnerIDs : list string }.
End OwnerIDsBody.

#[global] Instance OwnerIDsBody_enc `{Schema} : JSONEncoder OwnerIDsBody.t :=
  λ b, OwnerIDs_enc (OwnerIDsBody.OwnerIDs b).

(** ** The option structs of the list methods *)

Module CertificateSearchOptions.
Record t : Type := mk {
  Pagination : PaginationParams.t;
  CommonName : string;
  SerialNumber : string;
  Status : string;
  ProfileID : string;
  Tags : list string;
  SortBy : string;
  SortOrder : string
}.
Definition Offset (o : t) : Z := PaginationParams.Offset (Pagination o).
Definition Limit (o : t) : Z := PaginationParams.Limit (Pagination o).
End CertificateSearchOptions.

Module BusinessUnitListOptions.
Record t : Type := mk {
  Pagination : PaginationParams.t;
  Name : string;
  ParentID : string;
  IsActive : option bool;
  SortBy : string;
  SortOrder : string
}.
Definition Offset (o : t) : Z := PaginationParams.Offset (Pagination o).
Definition Limit (o : t) : Z := PaginationParams.Limit (Pagination o).
End BusinessUnitListOptions.

Module CertificateOwnerListOptions.
Record t : Type := mk {
  Pagination : PaginationParams.t;
  Email : string;
  FirstName : string;
  LastName : string;
  IsActive : option bool;
  SortBy : string;
  SortOrder : string
}.
Definition Page (o : t) : Z := PaginationParams.Page (Pagination o).
Definition PageSize (o : t) : Z := PaginationParams.PageSize (Pagination o).
End CertificateOwnerListOptions.

Module EnrollmentDetailsOptions.
Record t : Type := mk {
  Pagination : PaginationParams.t;
  Status : string;
  ProfileID : string;
  SortBy : string;
  SortOrder : string
}.
Definition Page (o : t) : Z := PaginationParams.Page (Pagination o).
Definition PageSize (o : t) : Z := PaginationParams.PageSize (Pagination o).
End EnrollmentDetailsOptions.

Module ProfileListOptions.
Record t : Type := mk {
  Pagination : PaginationParams.t;
  Name : string;
  Type_ : string;
  Status : string;
  EnrollmentMethod : string;
  SortBy : string;
  SortOrder : string
}.
Definition Page (o : t) : Z := PaginationParams.Page (Pagination o).
Definition PageSize (o : t) : Z := PaginationParams.PageSize (Pagination o).
End ProfileListOptions.

(** ** The service methods *)

Section Services.
Context `{StdLib} `{Schema}.
Context `{!JSONDecoder APIError.t}.

(** *** certificates.go *)

(** [CertificatesService.Issue] of certificates.go: creates a new
    certificate. *)
Definition CertificatesService_Issue (ctx : Context) (req : option CertificateRequest)
    : M (option CertificateResponse * option Response.t * error) :=
  let u := "certificate" in
  r ← NewRequest ctx GoHTTP.MethodPost u (Some req);
  match r with
  | Err err => mret (None, None, Some err)
  | Ok httpReq =>
      let cert : CertificateResponse := zero in
      '(resp, err, cert) ← Do ctx httpReq (Some cert);
      match err with
      | Some _ => mret (None, resp, err)
      | None => mret (cert, resp, None)
      end
  end.

(** [CertificatesService.Get] of certificates.go: retrieves a certificate
    by serial number. *)
Definition CertificatesService_Get (ctx : Context) (serialNumber : string)
    : M (option Certificate * option Response.t * error) :=
  let u := "certificate/" +:+ serialNumber in
  r ← NewRequest ctx GoHTTP.MethodGet u nil_interface;
  match r with
  | Err err => mret (None, None, Some err)
  | Ok httpReq =>
      let cert : Certificate := zero in
      '(resp, err, cert) ← Do ctx httpReq (Some cert);
      match err with
      | Some _ => mret (None, resp, err)
      | None => mret (cert, resp, None)
      end
  end.

(** [CertificatesService.GetCertificate] of certificates.go: retrieves a
    certificate by ID. *)
Definition CertificatesService_GetCertificate (ctx : Context) (certificateID : string)
    : M (option Certificate * option Response.t * error) :=
  let u := "certificate-by-id/" +:+ certificateID in
  r ← NewRequest ctx GoHTTP.MethodGet u nil_interface;
  match r with
  | Err err => mret (None, None, Some err)
  | Ok httpReq =>
      let cert : Certificate := zero in
      '(resp, err, cert) ← Do ctx httpReq (Some cert);
      match err with
      | Some _ => mret (None, resp, err)
      | None => mret (cert, resp, None)
      end
  end.

(** The block of [CertificatesService.Search] under [if opts != nil], from the
    values [q] of the request's URL to the values it encodes. *)
Definition CertificatesService_Search_query
    (opts : CertificateSearchOptions.t) (q : GoURL.Values) : GoURL.Values :=
  let q := if negb (String.eqb (CertificateSearchOptions.CommonName opts) "")
           then GoURL.Add q "common_name" (CertificateSearchOptions.CommonName opts) else q in
  let q := if negb (String.eqb (CertificateSearchOptions.SerialNumber opts) "")
           then GoURL.Add q "serial_number" (CertificateSearchOptions.SerialNumber opts) else q in
  let q := if negb (String.eqb (CertificateSearchOptions.Status opts) "")
           then GoURL.Add q "status" (CertificateSearchOptions.Status opts) else q in
  let q := if negb (String.eqb (CertificateSearchOptions.ProfileID opts) "")
           then GoURL.Add q "profile_id" (CertificateSearchOptions.ProfileID opts) else q in
  let q := foldl (λ q tag, GoURL.Add q "tags" tag) q (CertificateSearchOptions.Tags opts) in
  let q := if 0 <? CertificateSearchOptions.Offset opts
           then GoURL.Add q "offset" (GoFmt.d (CertificateSearchOptions.Offset opts)) else q in
  let q := if 0 <? CertificateSearchOptions.Limit opts
           then GoURL.Add q "limit" (GoFmt.d (CertificateSearchOptions.Limit opts)) else q in
  q.

(** [CertificatesService.Search] of certificates.go: searches for
    certificates; it prints the URL it is about to request. *)
Definition CertificatesService_Search (ctx : Context) (opts : option CertificateSearchOptions.t)
    : M (option CertificateSearchResponse * option Response.t * error) :=
  let u := "certificate-search" in
  r ← NewRequest ctx GoHTTP.MethodGet u nil_interface;
  match r with
  | Err err => mret (None, None, Some err)
  | Ok httpReq =>
      let httpReq :=
        match opts with
        | Some opts =>
            let q := GoURL.Query (Request.URL httpReq) in
            let q := CertificatesService_Search_query opts q in
            Request.with_URL httpReq
              (GoURL.with_RawQuery (Request.URL httpReq) (GoURL.Encode q))
        | None => httpReq
        end in
      fmt_Println (url_String (Request.URL httpReq));;
      let result : CertificateSearchResponse := zero in
      '(resp, err, result) ← Do ctx httpReq (Some result);
      match err with
      | Some _ => mret (None, resp, err)
      | None => mret (result, resp, None)
      end
  end.

(** [CertificatesService.Revoke] of certificates.go: revokes a certificate.  [req] is a
    pointer, so the body handed to [NewRequest] is never the nil
    interface. *)
Definition CertificatesService_Revoke (ctx : Context) (serialNumber : string)
    (req : option RevokeRequest)
    : M (option Response.t * error) :=
  let u := "certificate/" +:+ serialNumber +:+ "/revoke" in
  r ← NewRequest ctx GoHTTP.MethodPut u (Some req);
  match r with
  | Err err => mret (None, Some err)
  | Ok httpReq =>
      '(resp, err, _) ← Do ctx httpReq nil_interface;
      mret (resp, err)
  end.

(** [CertificatesService.Unrevoke] of certificates.go: unrevokes a
    certificate. *)
Definition CertificatesService_Unrevoke (ctx : Context) (serialNumber : string)
    : M (option Response.t * error) :=
  let u := "certificate/" +:+ serialNumber +:+ "/revoke" in
  r ← NewRequest ctx GoHTTP.MethodDelete u nil_interface;
  match r with
  | Err err => mret (None, Some err)
  | Ok httpReq =>
      '(resp, err, _) ← Do ctx httpReq nil_interface;
      mret (resp, err)
  end.

(** [CertificatesService.Renew] of certificates.go: renews a certificate. *)
Definition CertificatesService_Renew (ctx : Context) (serialNumber : string) (req : option RenewRequest)
    : M (option CertificateResponse * option Response.t * error) :=
  let u := "certificate/" +:+ serialNumber +:+ "/renew" in
  r ← NewRequest ctx GoHTTP.MethodPost u (Some req);
  match r with
  | Err err => mret (None, None, Some err)
  | Ok httpReq =>
      let cert : CertificateResponse := zero in
      '(resp, err, cert) ← Do ctx httpReq (Some cert);
      match err with
      | Some _ => mret (None, resp, err)
      | None => mret (cert, resp, None)
      end
  end.

(** [CertificatesService.GetAdditionalFormats] of certificates.go:
    retrieves additional certificate formats. *)
Definition CertificatesService_GetAdditionalFormats (ctx : Context) (serialNumber : string)
    : M (option AdditionalFormatsResponse * option Response.t * error) :=
  let u := "certificate/" +:+ serialNumber +:+ "/additional-formats" in
  r ← NewRequest ctx GoHTTP.MethodGet u nil_interface;
  match r with
  | Err err => mret (None, None, Some err)
  | Ok httpReq =>
      let formats : AdditionalFormatsResponse := zero in
      '(resp, err, formats) ← Do ctx httpReq (Some formats);
      match err with
      | Some _ => mret (None, resp, err)
      | None => mret (formats, resp, None)
      end
  end.

(** [CertificatesService.Pickup] of certificates.go: retrieves a
    certificate by request ID. *)
Definition CertificatesService_Pickup (ctx : Context) (requestID : string)
    : M (option CertificateResponse * option Response.t * error) :=
  let u := "certificate-pickup/" +:+ requestID in
  r ← NewRequest ctx GoHTTP.MethodPost u nil_interface;
  match r with
  | Err err => mret (None, None, Some err)
  | Ok httpReq =>
      let cert : CertificateResponse := zero in
      '(resp, err, cert) ← Do ctx httpReq (Some cert);
      match err with
      | Some _ => mret (None, resp, err)
      | None => mret (cert, resp, None)
      end
  end.

(** *** business_units.go *)

(** [BusinessUnitsService.Create] of business_units.go: creates a new
    business unit. *)
Definition BusinessUnitsService_Create (ctx : Context) (req : option BusinessUnitRequest)
    : M (option BusinessUnit * option Response.t * error) :=
  let u := "business-unit" in
  r ← NewRequest ctx GoHTTP.MethodPost u (Some req);
  match r with
  | Err err => mret (None, None, Some err)
  | Ok httpReq =>
      let bu : BusinessUnit := zero in
      '(resp, err, bu) ← Do ctx httpReq (Some bu);
      match err with
      | Some _ => mret (None, resp, err)
      | None => mret (bu, resp, None)
      end
  end.

(** [BusinessUnitsService.Get] of business_units.go: retrieves a business
    unit by ID. *)
Definition BusinessUnitsService_Get (ctx : Context) (buID : string)
    : M (option BusinessUnit * option Response.t * error) :=
  let u := "business-unit/" +:+ buID in
  r ← NewRequest ctx GoHTTP.MethodGet u nil_interface;
  match r with
  | Err err => mret (None, None, Some err)
  | Ok httpReq =>
      let bu : BusinessUnit := zero in
      '(resp, err, bu) ← Do ctx httpReq (Some bu);
      match err with
      | Some _ => mret (None, resp, err)
      | None => mret (bu, resp, None)
      end
  end.

(** [BusinessUnitsService.Update] of business_units.go: updates a business
    unit. *)
Definition BusinessUnitsService_Update (ctx : Context) (buID : string) (req : option BusinessUnitRequest)
    : M (option BusinessUnit * option Response.t * error) :=
  let u := "business-unit/" +:+ buID in
  r ← NewRequest ctx GoHTTP.MethodPut u (Some req);
  match r with
  | Err err => mret (None, None, Some err)
  | Ok httpReq =>
      let bu : BusinessUnit := zero in
      '(resp, err, bu) ← Do ctx httpReq (Some bu);
      match err with
      | Some _ => mret (None, resp, err)
      | None => mret (bu, resp, None)
      end
  end.

(** [BusinessUnitsService.Delete] of business_units.go: deletes a business
    unit. *)
Definition BusinessUnitsService_Delete (ctx : Context) (buID : string)
    : M (option Response.t * error) :=
  let u := "business-unit/" +:+ buID in
  r ← NewRequest ctx GoHTTP.MethodDelete u nil_interface;
  match r with
  | Err err => mret (None, Some err)
  | Ok httpReq =>
      '(resp, err, _) ← Do ctx httpReq nil_interface;
      mret (resp, err)
  end.

(** The block of [BusinessUnitsService.List] under [if opts != nil], from the
    values [q] of the request's URL to the values it encodes. *)
Definition BusinessUnitsService_List_query
    (opts : BusinessUnitListOptions.t) (q : GoURL.Values) : GoURL.Values :=
  let q := if negb (String.eqb (BusinessUnitListOptions.Name opts) "")
           then GoURL.Add q "name" (BusinessUnitListOptions.Name opts) else q in
  let q := if negb (String.eqb (BusinessUnitListOptions.ParentID opts) "")
           then GoURL.Add q "parent_id" (BusinessUnitListOptions.ParentID opts) else q in
  let q := match BusinessUnitListOptions.IsActive opts with
           | Some b => GoURL.Add q "is_active" (GoFmt.t b)
           | None => q
           end in
  let q := if (0 <? BusinessUnitListOptions.Offset opts) && (0 <? BusinessUnitListOptions.Limit opts)
           then GoURL.Add (GoURL.Add q "offset" (GoFmt.d (BusinessUnitListOptions.Offset opts)))
                          "limit" (GoFmt.d (BusinessUnitListOptions.Limit opts))
           else q in
  let q := if negb (String.eqb (BusinessUnitListOptions.SortBy opts) "")
           then GoURL.Add q "sort_by" (BusinessUnitListOptions.SortBy opts) else q in
  let q := if negb (String.eqb (BusinessUnitListOptions.SortOrder opts) "")
           then GoURL.Add q "sort_order" (BusinessUnitListOptions.SortOrder opts) else q in
  q.

(** [BusinessUnitsService.List] of business_units.go: lists business units. *)
Definition BusinessUnitsService_List (ctx : Context) (opts : option BusinessUnitListOptions.t)
    : M (option BusinessUnitListResponse * option Response.t * error) :=
  let u := "business-unit" in
  r ← NewRequest ctx GoHTTP.MethodGet u nil_interface;
  match r with
  | Err err => mret (None, None, Some err)
  | Ok httpReq =>
      let httpReq :=
        match opts with
        | Some opts =>
            let q := GoURL.Query (Request.URL httpReq) in
            let q := BusinessUnitsService_List_query opts q in
            Request.with_URL httpReq
              (GoURL.with_RawQuery (Request.URL httpReq) (GoURL.Encode q))
        | None => httpReq
        end in
      let result : BusinessUnitListResponse := zero in
      '(resp, err, result) ← Do ctx httpReq (Some result);
      match err with
      | Some _ => mret (None, resp, err)
      | None => mret (result, resp, None)
      end
  end.

(** [BusinessUnitsService.GetLicensedSeats] of business_units.go:
    retrieves licensed seat information. *)
Definition BusinessUnitsService_GetLicensedSeats (ctx : Context) (buID : string)
    : M (option LicensedSeats * option Response.t * error) :=
  let u := "business-unit/" +:+ buID +:+ "/licensed-seats" in
  r ← NewRequest ctx GoHTTP.MethodGet u nil_interface;
  match r with
  | Err err => mret (None, None, Some err)
  | Ok httpReq =>
      let seats : LicensedSeats := zero in
      '(resp, err, seats) ← Do ctx httpReq (Some seats);
      match err with
      | Some _ => mret (None, resp, err)
      | None => mret (seats, resp, None)
      end
  end.

(** [BusinessUnitsService.AddAdmin] of business_units.go: adds an
    administrator to a business unit. *)
Definition BusinessUnitsService_AddAdmin (ctx : Context) (buID : string) (req : option BusinessUnitAdminRequest)
    : M (option BusinessUnitAdmin * option Response.t * error) :=
  let u := "business-unit/" +:+ buID +:+ "/admin" in
  r ← NewRequest ctx GoHTTP.MethodPost u (Some req);
  match r with
  | Err err => mret (None, None, Some err)
  | Ok httpReq =>
      let admin : BusinessUnitAdmin := zero in
      '(resp, err, admin) ← Do ctx httpReq (Some admin);
      match err with
      | Some _ => mret (None, resp, err)
      | None => mret (admin, resp, None)
      end
  end.

(** [BusinessUnitsService.RemoveAdmin] of business_units.go: removes an
    administrator from a business unit. *)
Definition BusinessUnitsService_RemoveAdmin (ctx : Context) (buID : string) (adminID : string)
    : M (option Response.t * error) :=
  let u := "business-unit/" +:+ buID +:+ "/admin/" +:+ adminID in
  r ← NewRequest ctx GoHTTP.MethodDelete u nil_interface;
  match r with
  | Err err => mret (None, Some err)
  | Ok httpReq =>
      '(resp, err, _) ← Do ctx httpReq nil_interface;
      mret (resp, err)
  end.

(** [BusinessUnitsService.ListAdmins] of business_units.go: lists the administrators of a
    business unit.  The target is a slice, nil when declared, and the
    slice itself is returned. *)
Definition BusinessUnitsService_ListAdmins (ctx : Context) (buID : string)
    : M (list BusinessUnitAdmin * option Response.t * error) :=
  let u := "business-unit/" +:+ buID +:+ "/admin" in
  r ← NewRequest ctx GoHTTP.MethodGet u nil_interface;
  match r with
  | Err err => mret ([], None, Some err)
  | Ok httpReq =>
      let admins : list BusinessUnitAdmin := [] in
      '(resp, err, admins) ← Do ctx httpReq (Some admins);
      match err with
      | Some _ => mret ([], resp, err)
      | None => mret (default [] admins, resp, None)
      end
  end.

(** *** certificate_owners.go *)

(** [CertificateOwnersService.Create] of certificate_owners.go: creates a
    new certificate owner. *)
Definition CertificateOwnersService_Create (ctx : Context) (req : option CertificateOwnerRequest)
    : M (option CertificateOwner * option Response.t * error) :=
  let u := "certificate-owners" in
  r ← NewRequest ctx GoHTTP.MethodPost u (Some req);
  match r with
  | Err err => mret (None, None, Some err)
  | Ok httpReq =>
      let owner : CertificateOwner := zero in
      '(resp, err, owner) ← Do ctx httpReq (Some owner);
      match err with
      | Some _ => mret (None, resp, err)
      | None => mret (owner, resp, None)
      end
  end.

(** [CertificateOwnersService.Get] of certificate_owners.go: retrieves a
    certificate owner by ID. *)
Definition CertificateOwnersService_Get (ctx : Context) (ownerID : string)
    : M (option CertificateOwner * option Response.t * error) :=
  let u := "certificate-owners/" +:+ ownerID in
  r ← NewRequest ctx GoHTTP.MethodGet u nil_interface;
  match r with
  | Err err => mret (None, None, Some err)
  | Ok httpReq =>
      let owner : CertificateOwner := zero in
      '(resp, err, owner) ← Do ctx httpReq (Some owner);
      match err with
      | Some _ => mret (None, resp, err)
      | None => mret (owner, resp, None)
      end
  end.

(** [CertificateOwnersService.Update] of certificate_owners.go: updates a
    certificate owner. *)
Definition CertificateOwnersService_Update (ctx : Context) (ownerID : string) (req : option CertificateOwnerRequest)
    : M (option CertificateOwner * option Response.t * error) :=
  let u := "certificate-owners/" +:+ ownerID in
  r ← NewRequest ctx GoHTTP.MethodPut u (Some req);
  match r with
  | Err err => mret (None, None, Some err)
  | Ok httpReq =>
      let owner : CertificateOwner := zero in
      '(resp, err, owner) ← Do ctx httpReq (Some owner);
      match err with
      | Some _ => mret (None, resp, err)
      | None => mret (owner, resp, None)
      end
  end.

(** [CertificateOwnersService.Delete] of certificate_owners.go: deletes a
    certificate owner. *)
Definition CertificateOwnersService_Delete (ctx : Context) (ownerID : string)
    : M (option Response.t * error) :=
  let u := "certificate-owners/" +:+ ownerID in
  r ← NewRequest ctx GoHTTP.MethodDelete u nil_interface;
  match r with
  | Err err => mret (None, Some err)
  | Ok httpReq =>
      '(resp, err, _) ← Do ctx httpReq nil_interface;
      mret (resp, err)
  end.

(** The block of [CertificateOwnersService.List] under [if opts != nil], from the
    values [q] of the request's URL to the values it encodes. *)
Definition CertificateOwnersService_List_query
    (opts : CertificateOwnerListOptions.t) (q : GoURL.Values) : GoURL.Values :=
  let q := if negb (String.eqb (CertificateOwnerListOptions.Email opts) "")
           then GoURL.Add q "email" (CertificateOwnerListOptions.Email opts) else q in
  let q := if negb (String.eqb (CertificateOwnerListOptions.FirstName opts) "")
           then GoURL.Add q "first_name" (CertificateOwnerListOptions.FirstName opts) else q in
  let q := if negb (String.eqb (CertificateOwnerListOptions.LastName opts) "")
           then GoURL.Add q "last_name" (CertificateOwnerListOptions.LastName opts) else q in
  let q := match CertificateOwnerListOptions.IsActive opts with
           | Some b => GoURL.Add q "is_active" (GoFmt.t b)
           | None => q
           end in
  let q := if 0 <? CertificateOwnerListOptions.Page opts
           then GoURL.Add q "page" (GoFmt.d (CertificateOwnerListOptions.Page opts)) else q in
  let q := if 0 <? CertificateOwnerListOptions.PageSize opts
           then GoURL.Add q "page_size" (GoFmt.d (CertificateOwnerListOptions.PageSize opts)) else q in
  let q := if negb (String.eqb (CertificateOwnerListOptions.SortBy opts) "")
           then GoURL.Add q "sort_by" (CertificateOwnerListOptions.SortBy opts) else q in
  let q := if negb (String.eqb (CertificateOwnerListOptions.SortOrder opts) "")
           then GoURL.Add q "sort_order" (CertificateOwnerListOptions.SortOrder opts) else q in
  q.

(** [CertificateOwnersService.List] of certificate_owners.go: lists
    certificate owners. *)
Definition CertificateOwnersService_List (ctx : Context) (opts : option CertificateOwnerListOptions.t)
    : M (option CertificateOwnerListResponse * option Response.t * error) :=
  let u := "certificate-owners" in
  r ← NewRequest ctx GoHTTP.MethodGet u nil_interface;
  match r with
  | Err err => mret (None, None, Some err)
  | Ok httpReq =>
      let httpReq :=
        match opts with
        | Some opts =>
            let q := GoURL.Query (Request.URL httpReq) in
            let q := CertificateOwnersService_List_query opts q in
            Request.with_URL httpReq
              (GoURL.with_RawQuery (Request.URL httpReq) (GoURL.Encode q))
        | None => httpReq
        end in
      let result : CertificateOwnerListResponse := zero in
      '(resp, err, result) ← Do ctx httpReq (Some result);
      match err with
      | Some _ => mret (None, resp, err)
      | None => mret (result, resp, None)
      end
  end.

(** [CertificateOwnersService.AssignToCertificate] of certificate_owners.go: assigns owners to a
    certificate.  The body is a struct value built on the spot. *)
Definition CertificateOwnersService_AssignToCertificate (ctx : Context)
    (certificateID : string) (ownerIDs : list string)
    : M (option Response.t * error) :=
  let u := "certificate-owners/certificate/" +:+ certificateID in
  let req := OwnerIDsBody.mk ownerIDs in
  r ← NewRequest ctx GoHTTP.MethodPut u (Some req);
  match r with
  | Err err => mret (None, Some err)
  | Ok httpReq =>
      '(resp, err, _) ← Do ctx httpReq nil_interface;
      mret (resp, err)
  end.

(** [CertificateOwnersService.RemoveFromCertificate] of
    certificate_owners.go: removes owners from a certificate. *)
Definition CertificateOwnersService_RemoveFromCertificate (ctx : Context) (certificateID : string)
    : M (option Response.t * error) :=
  let u := "certificate-owners/certificate/" +:+ certificateID in
  r ← NewRequest ctx GoHTTP.MethodDelete u nil_interface;
  match r with
  | Err err => mret (None, Some err)
  | Ok httpReq =>
      '(resp, err, _) ← Do ctx httpReq nil_interface;
      mret (resp, err)
  end.

(** *** enrollments.go *)

(** [EnrollmentsService.Create] of enrollments.go: creates a new
    enrollment. *)
Definition EnrollmentsService_Create (ctx : Context) (req : option EnrollmentRequest)
    : M (option EnrollmentResponse * option Response.t * error) :=
  let u := "enrollment" in
  r ← NewRequest ctx GoHTTP.MethodPost u (Some req);
  match r with
  | Err err => mret (None, None, Some err)
  | Ok httpReq =>
      let enrollment : EnrollmentResponse := zero in
      '(resp, err, enrollment) ← Do ctx httpReq (Some enrollment);
      match err with
      | Some _ => mret (None, resp, err)
      | None => mret (enrollment, resp, None)
      end
  end.

(** [EnrollmentsService.Get] of enrollments.go: retrieves an enrollment by
    enrollment code. *)
Definition EnrollmentsService_Get (ctx : Context) (enrollmentCode : string)
    : M (option Enrollment * option Response.t * error) :=
  let u := "enrollment/" +:+ enrollmentCode in
  r ← NewRequest ctx GoHTTP.MethodGet u nil_interface;
  match r with
  | Err err => mret (None, None, Some err)
  | Ok httpReq =>
      let enrollment : Enrollment := zero in
      '(resp, err, enrollment) ← Do ctx httpReq (Some enrollment);
      match err with
      | Some _ => mret (None, resp, err)
      | None => mret (enrollment, resp, None)
      end
  end.

(** [EnrollmentsService.GetStatus] of enrollments.go: retrieves the status
    of an enrollment. *)
Definition EnrollmentsService_GetStatus (ctx : Context) (enrollmentID : string)
    : M (option EnrollmentStatusResponse * option Response.t * error) :=
  let u := "enrollment/" +:+ enrollmentID +:+ "/status" in
  r ← NewRequest ctx GoHTTP.MethodGet u nil_interface;
  match r with
  | Err err => mret (None, None, Some err)
  | Ok httpReq =>
      let status : EnrollmentStatusResponse := zero in
      '(resp, err, status) ← Do ctx httpReq (Some status);
      match err with
      | Some _ => mret (None, resp, err)
      | None => mret (status, resp, None)
      end
  end.

(** [EnrollmentsService.Redeem] of enrollments.go: redeems an enrollment
    code. *)
Definition EnrollmentsService_Redeem (ctx : Context) (req : option RedeemEnrollmentRequest)
    : M (option CertificateResponse * option Response.t * error) :=
  let u := "enrollment/redeem" in
  r ← NewRequest ctx GoHTTP.MethodPost u (Some req);
  match r with
  | Err err => mret (None, None, Some err)
  | Ok httpReq =>
      let cert : CertificateResponse := zero in
      '(resp, err, cert) ← Do ctx httpReq (Some cert);
      match err with
      | Some _ => mret (None, resp, err)
      | None => mret (cert, resp, None)
      end
  end.

(** [EnrollmentsService.CreateManualEnrollment] of enrollments.go: creates
    a manual enrollment. *)
Definition EnrollmentsService_CreateManualEnrollment (ctx : Context) (req : option ManualEnrollmentRequest)
    : M (option EnrollmentResponse * option Response.t * error) :=
  let u := "manual-enrollment" in
  r ← NewRequest ctx GoHTTP.MethodPost u (Some req);
  match r with
  | Err err => mret (None, None, Some err)
  | Ok httpReq =>
      let enrollment : EnrollmentResponse := zero in
      '(resp, err, enrollment) ← Do ctx httpReq (Some enrollment);
      match err with
      | Some _ => mret (None, resp, err)
      | None => mret (enrollment, resp, None)
      end
  end.

(** [EnrollmentsService.RenewManualEnrollment] of enrollments.go: renews a
    certificate through manual enrollment. *)
Definition EnrollmentsService_RenewManualEnrollment (ctx : Context) (certificateID : string) (req : option ManualEnrollmentRequest)
    : M (option EnrollmentResponse * option Response.t * error) :=
  let u := "manual-enrollment/renew/" +:+ certificateID in
  r ← NewRequest ctx GoHTTP.MethodPost u (Some req);
  match r with
  | Err err => mret (None, None, Some err)
  | Ok httpReq =>
      let enrollment : EnrollmentResponse := zero in
      '(resp, err, enrollment) ← Do ctx httpReq (Some enrollment);
      match err with
      | Some _ => mret (None, resp, err)
      | None => mret (enrollment, resp, None)
      end
  end.

(** The block of [EnrollmentsService.ListDetails] under [if opts != nil], from the
    values [q] of the request's URL to the values it encodes. *)
Definition EnrollmentsService_ListDetails_query
    (opts : EnrollmentDetailsOptions.t) (q : GoURL.Values) : GoURL.Values :=
  let q := if negb (String.eqb (EnrollmentDetailsOptions.Status opts) "")
           then GoURL.Add q "status" (EnrollmentDetailsOptions.Status opts) else q in
  let q := if negb (String.eqb (EnrollmentDetailsOptions.ProfileID opts) "")
           then GoURL.Add q "profile_id" (EnrollmentDetailsOptions.ProfileID opts) else q in
  let q := if 0 <? EnrollmentDetailsOptions.Page opts
           then GoURL.Add q "page" (GoFmt.d (EnrollmentDetailsOptions.Page opts)) else q in
  let q := if 0 <? EnrollmentDetailsOptions.PageSize opts
           then GoURL.Add q "page_size" (GoFmt.d (EnrollmentDetailsOptions.PageSize opts)) else q in
  let q := if negb (String.eqb (EnrollmentDetailsOptions.SortBy opts) "")
           then GoURL.Add q "sort_by" (EnrollmentDetailsOptions.SortBy opts) else q in
  let q := if negb (String.eqb (EnrollmentDetailsOptions.SortOrder opts) "")
           then GoURL.Add q "sort_order" (EnrollmentDetailsOptions.SortOrder opts) else q in
  q.

(** [EnrollmentsService.ListDetails] of enrollments.go: lists enrollment
    details. *)
Definition EnrollmentsService_ListDetails (ctx : Context) (opts : option EnrollmentDetailsOptions.t)
    : M (option EnrollmentDetailsResponse * option Response.t * error) :=
  let u := "enrollment-details" in
  r ← NewRequest ctx GoHTTP.MethodGet u nil_interface;
  match r with
  | Err err => mret (None, None, Some err)
  | Ok httpReq =>
      let httpReq :=
        match opts with
        | Some opts =>
            let q := GoURL.Query (Request.URL httpReq) in
            let q := EnrollmentsService_ListDetails_query opts q in
            Request.with_URL httpReq
              (GoURL.with_RawQuery (Request.URL httpReq) (GoURL.Encode q))
        | None => httpReq
        end in
      let result : EnrollmentDetailsResponse := zero in
      '(resp, err, result) ← Do ctx httpReq (Some result);
      match err with
      | Some _ => mret (None, resp, err)
      | None => mret (result, resp, None)
      end
  end.

(** [EnrollmentsService.GetDetails] of enrollments.go: retrieves
    enrollment details by ID. *)
Definition EnrollmentsService_GetDetails (ctx : Context) (enrollmentID : string)
    : M (option Enrollment * option Response.t * error) :=
  let u := "enrollment-details/" +:+ enrollmentID in
  r ← NewRequest ctx GoHTTP.MethodGet u nil_interface;
  match r with
  | Err err => mret (None, None, Some err)
  | Ok httpReq =>
      let enrollment : Enrollment := zero in
      '(resp, err, enrollment) ← Do ctx httpReq (Some enrollment);
      match err with
      | Some _ => mret (None, resp, err)
      | None => mret (enrollment, resp, None)
      end
  end.

(** [EnrollmentsService.GetByCertificate] of enrollments.go: retrieves the
    enrollment of a certificate. *)
Definition EnrollmentsService_GetByCertificate (ctx : Context) (certificateID : string)
    : M (option Enrollment * option Response.t * error) :=
  let u := "enrollment/certificate/" +:+ certificateID in
  r ← NewRequest ctx GoHTTP.MethodGet u nil_interface;
  match r with
  | Err err => mret (None, None, Some err)
  | Ok httpReq =>
      let enrollment : Enrollment := zero in
      '(resp, err, enrollment) ← Do ctx httpReq (Some enrollment);
      match err with
      | Some _ => mret (None, resp, err)
      | None => mret (enrollment, resp, None)
      end
  end.

(** *** profiles.go *)

(** The block of [ProfilesService.List] under [if opts != nil], from the
    values [q] of the request's URL to the values it encodes. *)
Definition ProfilesService_List_query
    (opts : ProfileListOptions.t) (q : GoURL.Values) : GoURL.Values :=
  let q := if negb (String.eqb (ProfileListOptions.Name opts) "")
           then GoURL.Add q "name" (ProfileListOptions.Name opts) else q in
  let q := if negb (String.eqb (ProfileListOptions.Type_ opts) "")
           then GoURL.Add q "type" (ProfileListOptions.Type_ opts) else q in
  let q := if negb (String.eqb (ProfileListOptions.Status opts) "")
           then GoURL.Add q "status" (ProfileListOptions.Status opts) else q in
  let q := if negb (String.eqb (ProfileListOptions.EnrollmentMethod opts) "")
           then GoURL.Add q "enrollment_method" (ProfileListOptions.EnrollmentMethod opts) else q in
  let q := if 0 <? ProfileListOptions.Page opts
           then GoURL.Add q "page" (GoFmt.d (ProfileListOptions.Page opts)) else q in
  let q := if 0 <? ProfileListOptions.PageSize opts
           then GoURL.Add q "page_size" (GoFmt.d (ProfileListOptions.PageSize opts)) else q in
  let q := if negb (String.eqb (ProfileListOptions.SortBy opts) "")
           then GoURL.Add q "sort_by" (ProfileListOptions.SortBy opts) else q in
  let q := if negb (String.eqb (ProfileListOptions.SortOrder opts) "")
           then GoURL.Add q "sort_order" (ProfileListOptions.SortOrder opts) else q in
  q.

(** [ProfilesService.List] of profiles.go: lists certificate profiles. *)
Definition ProfilesService_List (ctx : Context) (opts : option ProfileListOptions.t)
    : M (option ProfileListResponse * option Response.t * error) :=
  let u := "profiles" in
  r ← NewRequest ctx GoHTTP.MethodGet u nil_interface;
  match r with
  | Err err => mret (None, None, Some err)
  | Ok httpReq =>
      let httpReq :=
        match opts with
        | Some opts =>
            let q := GoURL.Query (Request.URL httpReq) in
            let q := ProfilesService_List_query opts q in
            Request.with_URL httpReq
              (GoURL.with_RawQuery (Request.URL httpReq) (GoURL.Encode q))
        | None => httpReq
        end in
      let result : ProfileListResponse := zero in
      '(resp, err, result) ← Do ctx httpReq (Some result);
      match err with
      | Some _ => mret (None, resp, err)
      | None => mret (result, resp, None)
      end
  end.

(** [ProfilesService.Get] of profiles.go: retrieves a certificate profile
    by ID. *)
Definition ProfilesService_Get (ctx : Context) (profileID : string)
    : M (option Profile * option Response.t * error) :=
  let u := "profiles/" +:+ profileID in
  r ← NewRequest ctx GoHTTP.MethodGet u nil_interface;
  match r with
  | Err err => mret (None, None, Some err)
  | Ok httpReq =>
      let profile : Profile := zero in
      '(resp, err, profile) ← Do ctx httpReq (Some profile);
      match err with
      | Some _ => mret (None, resp, err)
      | None => mret (profile, resp, None)
      end
  end.

(** [ProfilesService.ListPublic] of profiles.go: lists the public
    certificate profiles. *)
Definition ProfilesService_ListPublic (ctx : Context)
    : M (option ProfileListResponse * option Response.t * error) :=
  let u := "profiles/public" in
  r ← NewRequest ctx GoHTTP.MethodGet u nil_interface;
  match r with
  | Err err => mret (None, None, Some err)
  | Ok httpReq =>
      let result : ProfileListResponse := zero in
      '(resp, err, result) ← Do ctx httpReq (Some result);
      match err with
      | Some _ => mret (None, resp, err)
      | None => mret (result, resp, None)
      end
  end.

(** [ProfilesService.ListTemplates] of profiles.go: lists the profile
    templates. *)
Definition ProfilesService_ListTemplates (ctx : Context)
    : M (option ProfileTemplateListResponse * option Response.t * error) :=
  let u := "profiles/templates" in
  r ← NewRequest ctx GoHTTP.MethodGet u nil_interface;
  match r with
  | Err err => mret (None, None, Some err)
  | Ok httpReq =>
      let result : ProfileTemplateListResponse := zero in
      '(resp, err, result) ← Do ctx httpReq (Some result);
      match err with
      | Some _ => mret (None, resp, err)
      | None => mret (result, resp, None)
      end
  end.

End Services.

(** ** The service methods as one family

    [ServiceCall] names a method of a service together with its
    arguments, so that a statement can range over every call. *)

Section Calls.
Context `{StdLib} `{Schema}.
Context `{!JSONDecoder APIError.t}.

Inductive ServiceCall : Type :=
  | Call_CertificatesService_Issue (req : option CertificateRequest)
  | Call_CertificatesService_Get (serialNumber : string)
  | Call_CertificatesService_GetCertificate (certificateID : string)
  | Call_CertificatesService_Search (opts : option CertificateSearchOptions.t)
  | Call_CertificatesService_Revoke (serialNumber : string) (req : option RevokeRequest)
  | Call_CertificatesService_Unrevoke (serialNumber : string)
  | Call_CertificatesService_Renew (serialNumber : string) (req : option RenewRequest)
  | Call_CertificatesService_GetAdditionalFormats (serialNumber : string)
  | Call_CertificatesService_Pickup (requestID : string)
  | Call_BusinessUnitsService_Create (req : option BusinessUnitRequest)
  | Call_BusinessUnitsService_Get (buID : string)
  | Call_BusinessUnitsService_Update (buID : string) (req : option BusinessUnitRequest)
  | Call_BusinessUnitsService_Delete (buID : string)
  | Call_BusinessUnitsService_List (opts : option BusinessUnitListOptions.t)
  | Call_BusinessUnitsService_GetLicensedSeats (buID : string)
  | Call_BusinessUnitsService_AddAdmin (buID : string) (req : option BusinessUnitAdminRequest)
  | Call_BusinessUnitsService_RemoveAdmin (buID : string) (adminID : string)
  | Call_BusinessUnitsService_ListAdmins (buID : string)
  | Call_CertificateOwnersService_Create (req : option CertificateOwnerRequest)
  | Call_CertificateOwnersService_Get (ownerID : string)
  | Call_CertificateOwnersService_Update (ownerID : string) (req : option CertificateOwnerRequest)
  | Call_CertificateOwnersService_Delete (ownerID : string)
  | Call_CertificateOwnersService_List (opts : option CertificateOwnerListOptions.t)
  | Call_CertificateOwnersService_AssignToCertificate (certificateID : string) (ownerIDs : list string)
  | Call_CertificateOwnersService_RemoveFromCertificate (certificateID : string)
  | Call_EnrollmentsService_Create (req : option EnrollmentRequest)
  | Call_EnrollmentsService_Get (enrollmentCode : string)
  | Call_EnrollmentsService_GetStatus (enrollmentID : string)
  | Call_EnrollmentsService_Redeem (req : option RedeemEnrollmentRequest)
  | Call_EnrollmentsService_CreateManualEnrollment (req : option ManualEnrollmentRequest)
  | Call_EnrollmentsService_RenewManualEnrollment (certificateID : string) (req : option ManualEnrollmentRequest)
  | Call_EnrollmentsService_ListDetails (opts : option EnrollmentDetailsOptions.t)
  | Call_EnrollmentsService_GetDetails (enrollmentID : string)
  | Call_EnrollmentsService_GetByCertificate (certificateID : string)
  | Call_ProfilesService_List (opts : option ProfileListOptions.t)
  | Call_ProfilesService_Get (profileID : string)
  | Call_ProfilesService_ListPublic
  | Call_ProfilesService_ListTemplates.

(** The state a call leaves behind. *)
Definition call_run (call : ServiceCall) (ctx : Context) (st : State) : State :=
  match call with
  | Call_CertificatesService_Issue req =>
      (CertificatesService_Issue ctx req st).2
  | Call_CertificatesService_Get serialNumber =>
      (CertificatesService_Get ctx serialNumber st).2
  | Call_CertificatesService_GetCertificate certificateID =>
      (CertificatesService_GetCertificate ctx certificateID st).2
  | Call_CertificatesService_Search opts =>
      (CertificatesService_Search ctx opts st).2
  | Call_CertificatesService_Revoke serialNumber req =>
      (CertificatesService_Revoke ctx serialNumber req st).2
  | Call_CertificatesService_Unrevoke serialNumber =>
      (CertificatesService_Unrevoke ctx serialNumber st).2
  | Call_CertificatesService_Renew serialNumber req =>
      (CertificatesService_Renew ctx serialNumber req st).2
  | Call_CertificatesService_GetAdditionalFormats serialNumber =>
      (CertificatesService_GetAdditionalFormats ctx serialNumber st).2
  | Call_CertificatesService_Pickup requestID =>
      (CertificatesService_Pickup ctx requestID st).2
  | Call_BusinessUnitsService_Create req =>
      (BusinessUnitsService_Create ctx req st).2
  | Call_BusinessUnitsService_Get buID =>
      (BusinessUnitsService_Get ctx buID st).2
  | Call_BusinessUnitsService_Update buID req =>
      (BusinessUnitsService_Update ctx buID req st).2
  | Call_BusinessUnitsService_Delete buID =>
      (BusinessUnitsService_Delete ctx buID st).2
  | Call_BusinessUnitsService_List opts =>
      (BusinessUnitsService_List ctx opts st).2
  | Call_BusinessUnitsService_GetLicensedSeats buID =>
      (BusinessUnitsService_GetLicensedSeats ctx buID st).2
  | Call_BusinessUnitsService_AddAdmin buID req =>
      (BusinessUnitsService_AddAdmin ctx buID req st).2
  | Call_BusinessUnitsService_RemoveAdmin buID adminID =>
      (BusinessUnitsService_RemoveAdmin ctx buID adminID st).2
  | Call_BusinessUnitsService_ListAdmins buID =>
      (BusinessUnitsService_ListAdmins ctx buID st).2
  | Call_CertificateOwnersService_Create req =>
      (CertificateOwnersService_Create ctx req st).2
  | Call_CertificateOwnersService_Get ownerID =>
      (CertificateOwnersService_Get ctx ownerID st).2
  | Call_CertificateOwnersService_Update ownerID req =>
      (CertificateOwnersService_Update ctx ownerID req st).2
  | Call_CertificateOwnersService_Delete ownerID =>
      (CertificateOwnersService_Delete ctx ownerID st).2
  | Call_CertificateOwnersService_List opts =>
      (CertificateOwnersService_List ctx opts st).2
  | Call_CertificateOwnersService_AssignToCertificate certificateID ownerIDs =>
      (CertificateOwnersService_AssignToCertificate ctx certificateID ownerIDs st).2
  | Call_CertificateOwnersService_RemoveFromCertificate certificateID =>
      (CertificateOwnersService_RemoveFromCertificate ctx certificateID st).2
  | Call_EnrollmentsService_Create req =>
      (EnrollmentsService_Create ctx req st).2
  | Call_EnrollmentsService_Get enrollmentCode =>
      (EnrollmentsService_Get ctx enrollmentCode st).2
  | Call_EnrollmentsService_GetStatus enrollmentID =>
      (EnrollmentsService_GetStatus ctx enrollmentID st).2
  | Call_EnrollmentsService_Redeem req =>
      (EnrollmentsService_Redeem ctx req st).2
  | Call_EnrollmentsService_CreateManualEnrollment req =>
      (EnrollmentsService_CreateManualEnrollment ctx req st).2
  | Call_EnrollmentsService_RenewManualEnrollment certificateID req =>
      (EnrollmentsService_RenewManualEnrollment ctx certificateID req st).2
  | Call_EnrollmentsService_ListDetails opts =>
      (EnrollmentsService_ListDetails ctx opts st).2
  | Call_EnrollmentsService_GetDetails enrollmentID =>
      (EnrollmentsService_GetDetails ctx enrollmentID st).2
  | Call_EnrollmentsService_GetByCertificate certificateID =>
      (EnrollmentsService_GetByCertificate ctx certificateID st).2
  | Call_ProfilesService_List opts =>
      (ProfilesService_List ctx opts st).2
  | Call_ProfilesService_Get profileID =>
      (ProfilesService_Get ctx profileID st).2
  | Call_ProfilesService_ListPublic =>
      (ProfilesService_ListPublic ctx st).2
  | Call_ProfilesService_ListTemplates =>
      (ProfilesService_ListTemplates ctx st).2
  end.

(** [httpReq.URL.RawQuery = q.Encode()] *)
Definition with_query (httpReq : Request.t) (q : GoURL.Values) : Request.t :=
  Request.with_URL httpReq
    (GoURL.with_RawQuery (Request.URL httpReq) (GoURL.Encode q)).

(** What a list method does to the request between [NewRequest] and
    [Do]. *)
Definition list_request {O} (query : O → GoURL.Values → GoURL.Values)
    (opts : option O) (r : Result Request.t) : Result Request.t :=
  match r, opts with
  | Ok httpReq, Some o =>
      Ok (with_query httpReq (query o (GoURL.Query (Request.URL httpReq))))
  | _, _ => r
  end.

(** The request a call constructs before it turns to the transport:
    the first statements of each method, up to the call of [Do]. *)
Definition call_request (call : ServiceCall) (ctx : Context)
    : M (Result Request.t) :=
  match call with
  | Call_CertificatesService_Issue req =>
      NewRequest ctx GoHTTP.MethodPost "certificate" (Some req)
  | Call_CertificatesService_Get serialNumber =>
      NewRequest ctx GoHTTP.MethodGet ("certificate/" +:+ serialNumber) nil_interface
  | Call_CertificatesService_GetCertificate certificateID =>
      NewRequest ctx GoHTTP.MethodGet ("certificate-by-id/" +:+ certificateID) nil_interface
  | Call_CertificatesService_Search opts =>
      r ← NewRequest ctx GoHTTP.MethodGet "certificate-search" nil_interface;
      mret (list_request CertificatesService_Search_query opts r)
  | Call_CertificatesService_Revoke serialNumber req =>
      NewRequest ctx GoHTTP.MethodPut ("certificate/" +:+ serialNumber +:+ "/revoke") (Some req)
  | Call_CertificatesService_Unrevoke serialNumber =>
      NewRequest ctx GoHTTP.MethodDelete ("certificate/" +:+ serialNumber +:+ "/revoke") nil_interface
  | Call_CertificatesService_Renew serialNumber req =>
      NewRequest ctx GoHTTP.MethodPost ("certificate/" +:+ serialNumber +:+ "/renew") (Some req)
  | Call_CertificatesService_GetAdditionalFormats serialNumber =>
      NewRequest ctx GoHTTP.MethodGet ("certificate/" +:+ serialNumber +:+ "/additional-formats") nil_interface
  | Call_CertificatesService_Pickup requestID =>
      NewRequest ctx GoHTTP.MethodPost ("certificate-pickup/" +:+ requestID) nil_interface
  | Call_BusinessUnitsService_Create req =>
      NewRequest ctx GoHTTP.MethodPost "business-unit" (Some req)
  | Call_BusinessUnitsService_Get buID =>
      NewRequest ctx GoHTTP.MethodGet ("business-unit/" +:+ buID) nil_interface
  | Call_BusinessUnitsService_Update buID req =>
      NewRequest ctx GoHTTP.MethodPut ("business-unit/" +:+ buID) (Some req)
  | Call_BusinessUnitsService_Delete buID =>
      NewRequest ctx GoHTTP.MethodDelete ("business-unit/" +:+ buID) nil_interface
  | Call_BusinessUnitsService_List opts =>
      r ← NewRequest ctx GoHTTP.MethodGet "business-unit" nil_interface;
      mret (list_request BusinessUnitsService_List_query opts r)
  | Call_BusinessUnitsService_GetLicensedSeats buID =>
      NewRequest ctx GoHTTP.MethodGet ("business-unit/" +:+ buID +:+ "/licensed-seats") nil_interface
  | Call_BusinessUnitsService_AddAdmin buID req =>
      NewRequest ctx GoHTTP.MethodPost ("business-unit/" +:+ buID +:+ "/admin") (Some req)
  | Call_BusinessUnitsService_RemoveAdmin buID adminID =>
      NewRequest ctx GoHTTP.MethodDelete ("business-unit/" +:+ buID +:+ "/admin/" +:+ adminID) nil_interface
  | Call_BusinessUnitsService_ListAdmins buID =>
      NewRequest ctx GoHTTP.MethodGet ("business-unit/" +:+ buID +:+ "/admin") nil_interface
  | Call_CertificateOwnersService_Create req =>
      NewRequest ctx GoHTTP.MethodPost "certificate-owners" (Some req)
  | Call_CertificateOwnersService_Get ownerID =>
      NewRequest ctx GoHTTP.MethodGet ("certificate-owners/" +:+ ownerID) nil_interface
  | Call_CertificateOwnersService_Update ownerID req =>
      NewRequest ctx GoHTTP.MethodPut ("certificate-owners/" +:+ ownerID) (Some req)
  | Call_CertificateOwnersService_Delete ownerID =>
      NewRequest ctx GoHTTP.MethodDelete ("certificate-owners/" +:+ ownerID) nil_interface
  | Call_CertificateOwnersService_List opts =>
      r ← NewRequest ctx GoHTTP.MethodGet "certificate-owners" nil_interface;
      mret (list_request CertificateOwnersService_List_query opts r)
  | Call_CertificateOwnersService_AssignToCertificate certificateID ownerIDs =>
      NewRequest ctx GoHTTP.MethodPut ("certificate-owners/certificate/" +:+ certificateID) (Some (OwnerIDsBody.mk ownerIDs))
  | Call_CertificateOwnersService_RemoveFromCertificate certificateID =>
      NewRequest ctx GoHTTP.MethodDelete ("certificate-owners/certificate/" +:+ certificateID) nil_interface
  | Call_EnrollmentsService_Create req =>
      NewRequest ctx GoHTTP.MethodPost "enrollment" (Some req)
  | Call_EnrollmentsService_Get enrollmentCode =>
      NewRequest ctx GoHTTP.MethodGet ("enrollment/" +:+ enrollmentCode) nil_interface
  | Call_EnrollmentsService_GetStatus enrollmentID =>
      NewRequest ctx GoHTTP.MethodGet ("enrollment/" +:+ enrollmentID +:+ "/status") nil_interface
  | Call_EnrollmentsService_Redeem req =>
      NewRequest ctx GoHTTP.MethodPost "enrollment/redeem" (Some req)
  | Call_EnrollmentsService_CreateManualEnrollment req =>
      NewRequest ctx GoHTTP.MethodPost "manual-enrollment" (Some req)
  | Call_EnrollmentsService_RenewManualEnrollment certificateID req =>
      NewRequest ctx GoHTTP.MethodPost ("manual-enrollment/renew/" +:+ certificateID) (Some req)
  | Call_EnrollmentsService_ListDetails opts =>
      r ← NewRequest ctx GoHTTP.MethodGet "enrollment-details" nil_interface;
      mret (list_request EnrollmentsService_ListDetails_query opts r)
  | Call_EnrollmentsService_GetDetails enrollmentID =>
      NewRequest ctx GoHTTP.MethodGet ("enrollment-details/" +:+ enrollmentID) nil_interface
  | Call_EnrollmentsService_GetByCertificate certificateID =>
      NewRequest ctx GoHTTP.MethodGet ("enrollment/certificate/" +:+ certificateID) nil_interface
  | Call_ProfilesService_List opts =>
      r ← NewRequest ctx GoHTTP.MethodGet "profiles" nil_interface;
      mret (list_request ProfilesService_List_query opts r)
  | Call_ProfilesService_Get profileID =>
      NewRequest ctx GoHTTP.MethodGet ("profiles/" +:+ profileID) nil_interface
  | Call_ProfilesService_ListPublic =>
      NewRequest ctx GoHTTP.MethodGet "profiles/public" nil_interface
  | Call_ProfilesService_ListTemplates =>
      NewRequest ctx GoHTTP.MethodGet "profiles/templates" nil_interface
  end.

(** The client with the path of its base URL closed by a slash, as the
    first statement of [NewRequest] leaves it. *)
Definition normalize (c : Client.t) : Client.t :=
  if GoStrings.HasSuffix (GoURL.Path (Client.BaseURL c)) "/" then c
  else Client.with_BaseURL c
         (GoURL.with_Path (Client.BaseURL c)
            (GoURL.Path (Client.BaseURL c) +:+ "/")).

(** The body [NewRequest] hands to [http.NewRequestWithContext]. *)
Definition encode_body {T} `{!JSONEncoder T} (body : option T)
    : Result (option string) :=
  match body with
  | Some b =>
      match json_Encode b with
      | Ok text => Ok (Some text)
      | Err err => Err err
      end
  | None => Ok None
  end.

(** The four header assignments of [NewRequest], made on the fresh
    header map of the request. *)
Definition stamped {T} (c : Client.t) (body : option T) : GoHTTP.Header :=
  let h := match body with
           | Some _ => GoHTTP.Set_ ∅ "Content-Type" "application/json"
           | None => ∅
           end in
  GoHTTP.Set_ (GoHTTP.Set_ (GoHTTP.Set_ h "Accept" "application/json")
                 "User-Agent" (Client.UserAgent c))
    "X-API-Key" (Client.apiKey c).

End Calls.

(** [err] is a [*APIError] or a [*HTTPError] whose [StatusCode] is
    [code]. *)
Definition carries_status (err : error) (code : Z) : Prop :=
  (∃ e, err = Some (Err_APIError e) ∧ APIError.StatusCode e = code)
  ∨ (∃ e, err = Some (Err_HTTPError e) ∧ HTTPError.StatusCode e = code).

(** The values one option field contributes to the query: a string
    when it is not empty, an integer when it is positive, a pointer to a
    boolean when it is not nil. *)
Definition when (b : bool) (v : string) : list string :=
  if b then [v] else [].

Definition nonempty (s : string) : list string :=
  when (negb (String.eqb s "")) s.

Definition positive_int (n : Z) : list string :=
  when (0 <? n) (GoFmt.d n).

Definition pointed (b : option bool) : list string :=
  match b with Some x => [GoFmt.t x] | None => [] end.

(** The URL of [r] is the base URL of [c] resolved against
    [mpki/api/v1/] followed by [path], printed and parsed again by
    [http.NewRequestWithContext]. *)
Definition targets `{StdLib} (c : Client.t) (r : Request.t) (path : string)
    : Prop :=
  ∃ rel full,
    url_Parse ("mpki/api/" +:+ APIVersion +:+ "/" +:+ path) = Ok rel
    ∧ url_Parse (url_String (url_ResolveReference (Client.BaseURL c) rel))
      = Ok full
    ∧ Request.URL r
      = GoURL.with_Host full (GoHTTP.removeEmptyPort (GoURL.Host full)).

(** [adds q0 q key vs]: from [q0] to [q] the values [vs] were appended
    under [key]. *)
Definition adds (q0 q : GoURL.Values) (key : string) (vs : list string) : Prop :=
  GoURL.values q key = GoURL.values q0 key ++ vs.


(** ** What a call returns

    The results of the methods differ in type; what they share is kept
    here: whether a pointer result is set, the response, the error. *)

(** The result a method has besides the response and the error: none,
    a slice, or a pointer that is nil or set. *)
Inductive ResultKind : Type :=
  | NoResult
  | SliceResult
  | PointerResult (set : bool).

Record Outcome : Type := mkOutcome {
  result_kind : ResultKind;
  response : option Response.t;
  failure : error
}.

Definition is_set {A} (x : option A) : bool :=
  match x with Some _ => true | None => false end.

Definition outcome3 {R} (x : option R * option Response.t * error) : Outcome :=
  mkOutcome (PointerResult (is_set x.1.1)) x.1.2 x.2.

Definition outcome2 (x : option Response.t * error) : Outcome :=
  mkOutcome NoResult x.1 x.2.

Definition outcome_slice {R} (x : list R * option Response.t * error) : Outcome :=
  mkOutcome SliceResult x.1.2 x.2.

(** What [Do] finds when it turns to the transport with a request: no
    response, a response whose body cannot be read, a response with a
    status outside 200..299, or one within. *)
Inductive Answer : Type :=
  | TransportFailed (e : errorValue)
  | ReadFailed (resp : HTTPResponse.t) (e : errorValue)
  | Rejected (resp : HTTPResponse.t) (data : string)
  | Accepted (resp : HTTPResponse.t) (data : string).

Section Outcomes.
Context `{StdLib} `{Schema}.
Context `{!JSONDecoder APIError.t}.

Definition answer (st : State) (req : Request.t) : Answer :=
  match http_Client_Do (Client.client (the_client st)) (wire st) req with
  | Err e => TransportFailed e
  | Ok resp =>
      match io_ReadAll resp with
      | (_, Some e) => ReadFailed resp e
      | (data, None) =>
          if (HTTPResponse.StatusCode resp <? 200)
             || (300 <=? HTTPResponse.StatusCode resp)
          then Rejected resp data
          else Accepted resp data
      end
  end.

(** What a call returns. *)
Definition call_outcome (call : ServiceCall) (ctx : Context) (st : State)
    : Outcome :=
  match call with
  | Call_CertificatesService_Issue req =>
      outcome3 (CertificatesService_Issue ctx req st).1
  | Call_CertificatesService_Get serialNumber =>
      outcome3 (CertificatesService_Get ctx serialNumber st).1
  | Call_CertificatesService_GetCertificate certificateID =>
      outcome3 (CertificatesService_GetCertificate ctx certificateID st).1
  | Call_CertificatesService_Search opts =>
      outcome3 (CertificatesService_Search ctx opts st).1
  | Call_CertificatesService_Revoke serialNumber req =>
      outcome2 (CertificatesService_Revoke ctx serialNumber req st).1
  | Call_CertificatesService_Unrevoke serialNumber =>
      outcome2 (CertificatesService_Unrevoke ctx serialNumber st).1
  | Call_CertificatesService_Renew serialNumber req =>
      outcome3 (CertificatesService_Renew ctx serialNumber req st).1
  | Call_CertificatesService_GetAdditionalFormats serialNumber =>
      outcome3 (CertificatesService_GetAdditionalFormats ctx serialNumber st).1
  | Call_CertificatesService_Pickup requestID =>
      outcome3 (CertificatesService_Pickup ctx requestID st).1
  | Call_BusinessUnitsService_Create req =>
      outcome3 (BusinessUnitsService_Create ctx req st).1
  | Call_BusinessUnitsService_Get buID =>
      outcome3 (BusinessUnitsService_Get ctx buID st).1
  | Call_BusinessUnitsService_Update buID req =>
      outcome3 (BusinessUnitsService_Update ctx buID req st).1
  | Call_BusinessUnitsService_Delete buID =>
      outcome2 (BusinessUnitsService_Delete ctx buID st).1
  | Call_BusinessUnitsService_List opts =>
      outcome3 (BusinessUnitsService_List ctx opts st).1
  | Call_BusinessUnitsService_GetLicensedSeats buID =>
      outcome3 (BusinessUnitsService_GetLicensedSeats ctx buID st).1
  | Call_BusinessUnitsService_AddAdmin buID req =>
      outcome3 (BusinessUnitsService_AddAdmin ctx buID req st).1
  | Call_BusinessUnitsService_RemoveAdmin buID adminID =>
      outcome2 (BusinessUnitsService_RemoveAdmin ctx buID adminID st).1
  | Call_BusinessUnitsService_ListAdmins buID =>
      outcome_slice (BusinessUnitsService_ListAdmins ctx buID st).1
  | Call_CertificateOwnersService_Create req =>
      outcome3 (CertificateOwnersService_Create ctx req st).1
  | Call_CertificateOwnersService_Get ownerID =>
      outcome3 (CertificateOwnersService_Get ctx ownerID st).1
  | Call_CertificateOwnersService_Update ownerID req =>
      outcome3 (CertificateOwnersService_Update ctx ownerID req st).1
  | Call_CertificateOwnersService_Delete ownerID =>
      outcome2 (CertificateOwnersService_Delete ctx ownerID st).1
  | Call_CertificateOwnersService_List opts =>
      outcome3 (CertificateOwnersService_List ctx opts st).1
  | Call_CertificateOwnersService_AssignToCertificate certificateID ownerIDs =>
      outcome2 (CertificateOwnersService_AssignToCertificate ctx certificateID ownerIDs st).1
  | Call_CertificateOwnersService_RemoveFromCertificate certificateID =>
      outcome2 (CertificateOwnersService_RemoveFromCertificate ctx certificateID st).1
  | Call_EnrollmentsService_Create req =>
      outcome3 (EnrollmentsService_Create ctx req st).1
  | Call_EnrollmentsService_Get enrollmentCode =>
      outcome3 (EnrollmentsService_Get ctx enrollmentCode st).1
  | Call_EnrollmentsService_GetStatus enrollmentID =>
      outcome3 (EnrollmentsService_GetStatus ctx enrollmentID st).1
  | Call_EnrollmentsService_Redeem req =>
      outcome3 (EnrollmentsService_Redeem ctx req st).1
  | Call_EnrollmentsService_CreateManualEnrollment req =>
      outcome3 (EnrollmentsService_CreateManualEnrollment ctx req st).1
  | Call_EnrollmentsService_RenewManualEnrollment certificateID req =>
      outcome3 (EnrollmentsService_RenewManualEnrollment ctx certificateID req st).1
  | Call_EnrollmentsService_ListDetails opts =>
      outcome3 (EnrollmentsService_ListDetails ctx opts st).1
  | Call_EnrollmentsService_GetDetails enrollmentID =>
      outcome3 (EnrollmentsService_GetDetails ctx enrollmentID st).1
  | Call_EnrollmentsService_GetByCertificate certificateID =>
      outcome3 (EnrollmentsService_GetByCertificate ctx certificateID st).1
  | Call_ProfilesService_List opts =>
      outcome3 (ProfilesService_List ctx opts st).1
  | Call_ProfilesService_Get profileID =>
      outcome3 (ProfilesService_Get ctx profileID st).1
  | Call_ProfilesService_ListPublic =>
      outcome3 (ProfilesService_ListPublic ctx st).1
  | Call_ProfilesService_ListTemplates =>
      outcome3 (ProfilesService_ListTemplates ctx st).1
  end.

(** The result kind of a call: which of the three shapes its method
    returns. *)
Definition call_kind (call : ServiceCall) (ctx : Context) (st : State)
    : ResultKind :=
  result_kind (call_outcome call ctx st).

End Outcomes.

(** ** The options of [NewClient] as data *)

Inductive OptionSpec : Type :=
  | OptHTTPClient (httpClient : option HTTPClient.t)
  | OptBaseURL (baseURL : string)
  | OptUserAgent (userAgent : string).

Section Options.
Context `{StdLib}.

Definition option_of (o : OptionSpec) : ClientOption :=
  match o with
  | OptHTTPClient h => WithHTTPClient h
  | OptBaseURL s => WithBaseURL s
  | OptUserAgent s => WithUserAgent s
  end.

(** An option that returns no error: an HTTP client that is not nil,
    a base URL that parses, any user agent. *)
Definition valid_option (o : OptionSpec) : bool :=
  match o with
  | OptHTTPClient h => is_set h
  | OptBaseURL s => is_Ok (url_Parse s)
  | OptUserAgent _ => true
  end.

End Options.

Definition user_agents (specs : list OptionSpec) : list string :=
  omap (λ o, match o with OptUserAgent s => Some s | _ => None end) specs.

Definition http_clients (specs : list OptionSpec) : list HTTPClient.t :=
  omap (λ o, match o with OptHTTPClient h => h | _ => None end) specs.

Definition base_urls (specs : list OptionSpec) : list string :=
  omap (λ o, match o with OptBaseURL s => Some s | _ => None end) specs.

(** ** Query values without an empty entry *)

(** Every key present holds at least one value: what [ParseQuery] and
    [Add] build, and what [Encode] writes without loss. *)
Definition no_empty (q : GoURL.Values) : Prop :=
  ∀ k vs, q !! k = Some vs → vs ≠ [].

(** The bytes [QueryEscape] writes: unreserved bytes, the percent sign
    and the plus sign. *)
Definition escaped_byte (c : ascii) : bool :=
  GoByte.isAlnum c || GoStrings.ContainsByte "-_.~%+" c.

(** ** The request [NewRequest] builds for a path *)

Section Builds.
Context `{StdLib}.

(** [NewRequest] on [urlStr] returns a request for [path] under
    [mpki/api/v1/]: whenever that relative URL parses, the body is
    encoded, the method is valid, the context is not nil and the URL
    resolved against the base URL parses when printed, [NewRequest]
    returns a request with that URL, the method and the encoded
    body. *)
Definition builds {T} `{!JSONEncoder T}
    (ctx : Context) (method urlStr : string) (body : option T) (st : State)
    (path : string) : Prop :=
  ∀ rel buf full,
    url_Parse ("mpki/api/" +:+ APIVersion +:+ "/" +:+ path) = Ok rel →
    encode_body body = Ok buf →
    GoHTTP.validMethod (if String.eqb method "" then "GET" else method) = true →
    ctx ≠ ctx_nil →
    url_Parse (url_String
                 (url_ResolveReference
                    (Client.BaseURL (normalize (the_client st))) rel))
      = Ok full →
    ∃ r, (NewRequest ctx method urlStr body st).1 = Ok r
         ∧ Request.URL r
           = GoURL.with_Host full (GoHTTP.removeEmptyPort (GoURL.Host full))
         ∧ Request.Method r = (if String.eqb method "" then "GET" else method)
         ∧ Request.Body r = buf.

End Builds.

(** ** Calls in sequence *)

Section Sequences.
Context `{StdLib} `{Schema}.
Context `{!JSONDecoder APIError.t}.

(** The calls of a program, each with its context, run one after the
    other from [st]. *)
Definition run_calls (calls : list (ServiceCall * Context)) (st : State)
    : State :=
  foldl (λ st c, call_run c.1 c.2 st) st calls.

(** The request a call hands to the transport from [st], if any. *)
Definition sent_by (st : State) (c : ServiceCall * Context) : list Request.t :=
  match (call_request c.1 c.2 st).1 with
  | Ok r => [r]
  | Err _ => []
  end.

(** The line a call prints from [st], if any. *)
Definition printed_by (st : State) (c : ServiceCall * Context) : list string :=
  match c.1, (call_request c.1 c.2 st).1 with
  | Call_CertificatesService_Search _, Ok r => [url_String (Request.URL r)]
  | _, _ => []
  end.

End Sequences.

(** ** A reference implementation of the standard library

    The theorems below hold for every implementation of [StdLib], of
    the codecs and of [Schema].  To run the client on concrete inputs
    the interfaces are implemented here once: a JSON reader and writer,
    a URL parser and resolver for plain URLs, and a transport that
    replays canned responses the way the test servers of the package
    do. *)

Module GoJSON.

(** A JSON document; a number keeps its literal. *)
#[warnings="-register-all"]
Inductive value : Type :=
  | Null
  | Bool (b : bool)
  | Number (literal : string)
  | Str (s : string)
  | Array (elems : list value)
  | Object (members : list (string * value)).

(** The double quote. *)
Definition dquote : ascii := "034"%char.

Definition isSpace (c : ascii) : bool :=
  Ascii.eqb c " " || Ascii.eqb c "009" || Ascii.eqb c "010" || Ascii.eqb c "013".

Fixpoint skip (s : string) : string :=
  match s with
  | String c r => if isSpace c then skip r else s
  | EmptyString => s
  end.

(** UTF-8 encoding of a code point below 0x110000. *)
Definition utf8 (cp : N) : string :=
  let b (n : N) := Ascii.ascii_of_N n in
  (if cp <? 128 then String (b cp) ""
   else if cp <? 2048 then
     String (b (192 + cp / 64)) (String (b (128 + cp mod 64)) "")
   else if cp <? 65536 then
     String (b (224 + cp / 4096))
       (String (b (128 + (cp / 64) mod 64)) (String (b (128 + cp mod 64)) ""))
   else
     String (b (240 + cp / 262144))
       (String (b (128 + (cp / 4096) mod 64))
          (String (b (128 + (cp / 64) mod 64))
             (String (b (128 + cp mod 64)) ""))))%N.

Definition hex4 (a b c d : ascii) : option N :=
  match GoByte.unhex a, GoByte.unhex b, GoByte.unhex c, GoByte.unhex d with
  | Some x, Some y, Some z, Some w => Some (((x * 16 + y) * 16 + z) * 16 + w)%N
  | _, _, _, _ => None
  end.

Definition replacement : N := 65533.

(** The text of a string literal after its opening quote: the decoded
    bytes and the input after the closing quote. *)
Fixpoint string_body (fuel : nat) (s : string) : option (string * string) :=
  match fuel with
  | O => None
  | S fuel =>
      match s with
      | EmptyString => None
      | String c r =>
          if Ascii.eqb c dquote then Some (EmptyString, r)
          else if Ascii.eqb c "\" then
            match r with
            | String e r1 =>
                let simple (x : ascii) :=
                  '(t, rest) ← string_body fuel r1; Some (String x t, rest) in
                if Ascii.eqb e dquote then simple dquote
                else if Ascii.eqb e "\" then simple "\"%char
                else if Ascii.eqb e "/" then simple "/"%char
                else if Ascii.eqb e "b" then simple "008"%char
                else if Ascii.eqb e "f" then simple "012"%char
                else if Ascii.eqb e "n" then simple "010"%char
                else if Ascii.eqb e "r" then simple "013"%char
                else if Ascii.eqb e "t" then simple "009"%char
                else if Ascii.eqb e "u" then
                  match r1 with
                  | String h1 (String h2 (String h3 (String h4 r2))) =>
                      match hex4 h1 h2 h3 h4 with
                      | None => None
                      | Some hi =>
                          let plain (cp : N) (rest : string) :=
                            '(t, rest') ← string_body fuel rest;
                            Some (utf8 cp +:+ t, rest') in
                          if ((55296 <=? hi) && (hi <? 56320))%N then
                            match r2 with
                            | String "\" (String "u"
                                (String l1 (String l2 (String l3 (String l4 r3))))) =>
                                match hex4 l1 l2 l3 l4 with
                                | Some lo =>
                                    if ((56320 <=? lo) && (lo <? 57344))%N then
                                      plain (65536 + (hi - 55296) * 1024
                                               + (lo - 56320))%N r3
                                    else plain replacement r2
                                | None => plain replacement r2
                                end
                            | _ => plain replacement r2
                            end
                          else if ((56320 <=? hi) && (hi <? 57344))%N then
                            plain replacement r2
                          else plain hi r2
                      end
                  | _ => None
                  end
                else None
            | EmptyString => None
            end
          else if (GoByte.code c <? 32)%N then None
          else '(t, rest) ← string_body fuel r; Some (String c t, rest)
      end
  end.

Fixpoint digits (s : string) : string * string :=
  match s with
  | String c r =>
      if GoByte.isDigit c then let '(d, rest) := digits r in (String c d, rest)
      else (EmptyString, s)
  | EmptyString => (EmptyString, EmptyString)
  end.

(** A number literal at the head of [s]: its text and the rest. *)
Definition number (s : string) : option (string * string) :=
  let '(sign, s1) :=
    match s with
    | String "-" r => ("-", r)
    | _ => ("", s)
    end in
  let '(int, s2) := digits s1 in
  match int with
  | EmptyString => None
  | String d more =>
      if Ascii.eqb d "0" && negb (String.eqb more "") then None
      else
        let frac :=
          match s2 with
          | String "." r =>
              let '(f, s3) := digits r in
              if String.eqb f "" then None else Some ("." +:+ f, s3)
          | _ => Some ("", s2)
          end in
        '(f, s3) ← frac;
        let exp :=
          match s3 with
          | String e r =>
              if Ascii.eqb e "e" || Ascii.eqb e "E" then
                let '(sg, r') :=
                  match r with
                  | String "+" r' => ("+", r')
                  | String "-" r' => ("-", r')
                  | _ => ("", r)
                  end in
                let '(x, s4) := digits r' in
                if String.eqb x "" then None
                else Some (String e sg +:+ x, s4)
              else Some ("", s3)
          | EmptyString => Some ("", s3)
          end in
        '(x, s4) ← exp;
        Some (sign +:+ int +:+ f +:+ x, s4)
  end.

(** One value at the head of [s], then the rest of the input.  The
    three functions share the fuel, which every call decreases. *)
Fixpoint parse_value (fuel : nat) (s : string) : option (value * string) :=
  match fuel with
  | O => None
  | S fuel =>
      match skip s with
      | EmptyString => None
      | String c r =>
          if Ascii.eqb c "{" then
            match skip r with
            | String "}" rest => Some (Object [], rest)
            | r' => '(ms, rest) ← parse_members fuel r'; Some (Object ms, rest)
            end
          else if Ascii.eqb c "[" then
            match skip r with
            | String "]" rest => Some (Array [], rest)
            | r' => '(vs, rest) ← parse_elems fuel r'; Some (Array vs, rest)
            end
          else if Ascii.eqb c dquote then
            '(t, rest) ← string_body (String.length r) r; Some (Str t, rest)
          else
            match GoStrings.strip "true" (String c r),
                  GoStrings.strip "false" (String c r),
                  GoStrings.strip "null" (String c r) with
            | Some rest, _, _ => Some (Bool true, rest)
            | _, Some rest, _ => Some (Bool false, rest)
            | _, _, Some rest => Some (Null, rest)
            | _, _, _ =>
                '(n, rest) ← number (String c r); Some (Number n, rest)
            end
      end
  end
with parse_elems (fuel : nat) (s : string) : option (list value * string) :=
  match fuel with
  | O => None
  | S fuel =>
      '(v, rest) ← parse_value fuel s;
      match skip rest with
      | String "," rest' =>
          '(vs, rest'') ← parse_elems fuel rest'; Some (v :: vs, rest'')
      | String "]" rest' => Some ([v], rest')
      | _ => None
      end
  end
with parse_members (fuel : nat) (s : string)
    : option (list (string * value) * string) :=
  match fuel with
  | O => None
  | S fuel =>
      match skip s with
      | String c r =>
          if Ascii.eqb c dquote then
            '(k, rest) ← string_body (String.length r) r;
            match skip rest with
            | String ":" rest1 =>
                '(v, rest2) ← parse_value fuel rest1;
                match skip rest2 with
                | String "," rest3 =>
                    '(ms, rest4) ← parse_members fuel rest3;
                    Some ((k, v) :: ms, rest4)
                | String "}" rest3 => Some ([(k, v)], rest3)
                | _ => None
                end
            | _ => None
            end
          else None
      | EmptyString => None
      end
  end.

(** The whole input is one value between white space; [None] is the
    syntax error of [checkValid]. *)
Definition parse (data : string) : option value :=
  '(v, rest) ← parse_value (2 * String.length data + 2) data;
  if String.eqb (skip rest) "" then Some v else None.

(** Writing: quotes, backslashes and control bytes are escaped. *)
Fixpoint quote_body (s : string) : string :=
  match s with
  | EmptyString => EmptyString
  | String c r =>
      if Ascii.eqb c dquote then String "\" (String dquote (quote_body r))
      else if Ascii.eqb c "\" then String "\" (String "\" (quote_body r))
      else if Ascii.eqb c "010" then String "\" (String "n" (quote_body r))
      else if Ascii.eqb c "013" then String "\" (String "r" (quote_body r))
      else if Ascii.eqb c "009" then String "\" (String "t" (quote_body r))
      else if (GoByte.code c <? 32)%N then
        "\u00" +:+ String (GoByte.toLower (GoByte.hexDigit (GoByte.code c / 16)))
                     (String (GoByte.toLower (GoByte.hexDigit (GoByte.code c mod 16)))
                        (quote_body r))
      else String c (quote_body r)
  end.

Definition quote (s : string) : string :=
  String dquote (quote_body s +:+ String dquote EmptyString).

(** JSON text written with single quotes in place of double quotes. *)
Fixpoint text (s : string) : string :=
  match s with
  | EmptyString => EmptyString
  | String c r => String (if Ascii.eqb c "'" then dquote else c) (text r)
  end.

Fixpoint print (v : value) : string :=
  match v with
  | Null => "null"
  | Bool b => GoFmt.t b
  | Number n => n
  | Str s => quote s
  | Array vs => "[" +:+ GoStrings.Join (print <$> vs) "," +:+ "]"
  | Object ms =>
      "{" +:+ GoStrings.Join
                ((λ kv : string * value, quote kv.1 +:+ ":" +:+ print kv.2) <$> ms) ","
          +:+ "}"
  end.

End GoJSON.

Module Reference.

(** *** encoding/json into [APIError] *)

Definition syntax_error : errorValue :=
  Err_std "encoding/json" "invalid JSON input".

Definition kind (v : GoJSON.value) : string :=
  match v with
  | GoJSON.Null => "null"
  | GoJSON.Bool _ => "bool"
  | GoJSON.Number _ => "number"
  | GoJSON.Str _ => "string"
  | GoJSON.Array _ => "array"
  | GoJSON.Object _ => "object"
  end.

Definition type_error (v : GoJSON.value) (into : string) : errorValue :=
  Err_std "encoding/json"
    ("json: cannot unmarshal " +:+ kind v +:+ " into Go " +:+ into).

(** The decoder keeps the first error and goes on. *)
Definition first_error (e1 e2 : error) : error :=
  match e1 with Some _ => e1 | None => e2 end.

Fixpoint lower (s : string) : string :=
  match s with
  | EmptyString => EmptyString
  | String c r => String (GoByte.toLower c) (lower r)
  end.

Definition decode_string (into : string) (old : string) (v : GoJSON.value)
    : string * error :=
  match v with
  | GoJSON.Str s => (s, None)
  | GoJSON.Null => (old, None)
  | _ => (old, Some (type_error v into))
  end.

Fixpoint decode_elems (into : string) (elems : list GoJSON.value)
    : list string * error :=
  match elems with
  | [] => ([], None)
  | v :: vs =>
      let '(x, e) := decode_string into "" v in
      let '(xs, es) := decode_elems into vs in
      (x :: xs, first_error e es)
  end.

Definition decode_strings (into : string) (old : list string) (v : GoJSON.value)
    : list string * error :=
  match v with
  | GoJSON.Array elems => decode_elems into elems
  | GoJSON.Null => ([], None)
  | _ => (old, Some (type_error v into))
  end.

(** One member of the object, matched to a field by its tag, exactly or
    up to case; [StatusCode] carries the tag [-] and is never matched. *)
Definition decode_member (acc : APIError.t * error) (kv : string * GoJSON.value)
    : APIError.t * error :=
  let '(e, err) := acc in
  let '(k, v) := kv in
  let name := lower k in
  if String.eqb name "code" then
    let '(x, er) := decode_string "struct field APIError.code of type string"
                      (APIError.Code e) v in
    (APIError.mk (APIError.StatusCode e) x (APIError.Message e)
       (APIError.Details e) (APIError.RequestID e), first_error err er)
  else if String.eqb name "message" then
    let '(x, er) := decode_string "struct field APIError.message of type string"
                      (APIError.Message e) v in
    (APIError.mk (APIError.StatusCode e) (APIError.Code e) x
       (APIError.Details e) (APIError.RequestID e), first_error err er)
  else if String.eqb name "details" then
    let '(x, er) := decode_strings "struct field APIError.details of type string"
                      (APIError.Details e) v in
    (APIError.mk (APIError.StatusCode e) (APIError.Code e) (APIError.Message e)
       x (APIError.RequestID e), first_error err er)
  else if String.eqb name "request_id" then
    let '(x, er) := decode_string "struct field APIError.request_id of type string"
                      (APIError.RequestID e) v in
    (APIError.mk (APIError.StatusCode e) (APIError.Code e) (APIError.Message e)
       (APIError.Details e) x, first_error err er)
  else (e, err).

Definition decode_APIError (v : GoJSON.value) (e : APIError.t)
    : APIError.t * error :=
  match v with
  | GoJSON.Null => (e, None)
  | GoJSON.Object members => foldl decode_member (e, None) members
  | _ => (e, Some (type_error v "value of type digicert.APIError"))
  end.

Definition APIError_dec : JSONDecoder APIError.t :=
  λ data e,
    match GoJSON.parse data with
    | None => (e, Some syntax_error)
    | Some v => decode_APIError v e
    end.

(** *** The schema: every vendor record is its JSON document *)

Definition newline : string := String "010" EmptyString.

Definition value_enc : JSONEncoder GoJSON.value :=
  λ v, Ok (GoJSON.print v +:+ newline).

Definition value_dec : JSONDecoder GoJSON.value :=
  λ data old,
    match GoJSON.parse data with
    | None => (old, Some syntax_error)
    | Some v => (v, None)
    end.

Definition strings_enc : JSONEncoder (list string) :=
  λ ids, Ok (GoJSON.print
               (GoJSON.Object [("owner_ids", GoJSON.Array (GoJSON.Str <$> ids))])
             +:+ newline).

Definition values_dec : JSONDecoder (list GoJSON.value) :=
  λ data old,
    match GoJSON.parse data with
    | None => (old, Some syntax_error)
    | Some (GoJSON.Array elems) => (elems, None)
    | Some GoJSON.Null => ([], None)
    | Some v => (old, Some (type_error v "value of type []digicert.BusinessUnitAdmin"))
    end.

Definition schema : Schema := {|
  CertificateRequest := GoJSON.value; CertificateRequest_enc := value_enc;
  RevokeRequest := GoJSON.value; RevokeRequest_enc := value_enc;
  RenewRequest := GoJSON.value; RenewRequest_enc := value_enc;
  BusinessUnitRequest := GoJSON.value; BusinessUnitRequest_enc := value_enc;
  BusinessUnitAdminRequest := GoJSON.value;
  BusinessUnitAdminRequest_enc := value_enc;
  CertificateOwnerRequest := GoJSON.value;
  CertificateOwnerRequest_enc := value_enc;
  EnrollmentRequest := GoJSON.value; EnrollmentRequest_enc := value_enc;
  RedeemEnrollmentRequest := GoJSON.value;
  RedeemEnrollmentRequest_enc := value_enc;
  ManualEnrollmentRequest := GoJSON.value;
  ManualEnrollmentRequest_enc := value_enc;
  OwnerIDs_enc := strings_enc;
  Certificate := GoJSON.value; Certificate_zero := GoJSON.Null;
  Certificate_dec := value_dec;
  CertificateResponse := GoJSON.value; CertificateResponse_zero := GoJSON.Null;
  CertificateResponse_dec := value_dec;
  CertificateSearchResponse := GoJSON.value;
  CertificateSearchResponse_zero := GoJSON.Null;
  CertificateSearchResponse_dec := value_dec;
  AdditionalFormatsResponse := GoJSON.value;
  AdditionalFormatsResponse_zero := GoJSON.Null;
  AdditionalFormatsResponse_dec := value_dec;
  BusinessUnit := GoJSON.value; BusinessUnit_zero := GoJSON.Null;
  BusinessUnit_dec := value_dec;
  BusinessUnitListResponse := GoJSON.value;
  BusinessUnitListResponse_zero := GoJSON.Null;
  BusinessUnitListResponse_dec := value_dec;
  LicensedSeats := GoJSON.value; LicensedSeats_zero := GoJSON.Null;
  LicensedSeats_dec := value_dec;
  BusinessUnitAdmin := GoJSON.value; BusinessUnitAdmin_zero := GoJSON.Null;
  BusinessUnitAdmin_dec := value_dec;
  BusinessUnitAdmins_dec := values_dec;
  CertificateOwner := GoJSON.value; CertificateOwner_zero := GoJSON.Null;
  CertificateOwner_dec := value_dec;
  CertificateOwnerListResponse := GoJSON.value;
  CertificateOwnerListResponse_zero := GoJSON.Null;
  CertificateOwnerListResponse_dec := value_dec;
  Enrollment := GoJSON.value; Enrollment_zero := GoJSON.Null;
  Enrollment_dec := value_dec;
  EnrollmentResponse := GoJSON.value; EnrollmentResponse_zero := GoJSON.Null;
  EnrollmentResponse_dec := value_dec;
  EnrollmentStatusResponse := GoJSON.value;
  EnrollmentStatusResponse_zero := GoJSON.Null;
  EnrollmentStatusResponse_dec := value_dec;
  EnrollmentDetailsResponse := GoJSON.value;
  EnrollmentDetailsResponse_zero := GoJSON.Null;
  EnrollmentDetailsResponse_dec := value_dec;
  Profile := GoJSON.value; Profile_zero := GoJSON.Null;
  Profile_dec := value_dec;
  ProfileListResponse := GoJSON.value; ProfileListResponse_zero := GoJSON.Null;
  ProfileListResponse_dec := value_dec;
  ProfileTemplateListResponse := GoJSON.value;
  ProfileTemplateListResponse_zero := GoJSON.Null;
  ProfileTemplateListResponse_dec := value_dec
|}.

(** *** net/url on plain URLs

    A plain URL has no userinfo, no bracketed host, no percent escape,
    and only bytes that need no escape where they stand; anything else is
    reported as an error here. *)

Definition url_error (msg : string) : errorValue := Err_std "net/url" msg.

Definition isCTL (c : ascii) : bool :=
  ((GoByte.code c <? 32) || (GoByte.code c =? 127))%N.

Fixpoint any (p : ascii → bool) (s : string) : bool :=
  match s with
  | EmptyString => false
  | String a r => p a || any p r
  end.

Definition plain_path_byte (c : ascii) : bool :=
  GoByte.isAlnum c || GoStrings.ContainsByte "-_.~$&+,/:;=@" c.

Definition plain_host_byte (c : ascii) : bool :=
  GoByte.isAlnum c || GoStrings.ContainsByte "-_.~:" c.

(** [getScheme]: the error, no scheme, or the scheme and the rest. *)
Fixpoint getScheme (first : bool) (s : string)
    : option (option (string * string)) :=
  match s with
  | EmptyString => Some None
  | String c r =>
      if GoByte.isLower c || GoByte.isUpper c then
        match getScheme false r with
        | Some (Some (sch, rest)) => Some (Some (String c sch, rest))
        | other => other
        end
      else if GoByte.isDigit c || GoStrings.ContainsByte "+-." c then
        if first then Some None
        else match getScheme false r with
             | Some (Some (sch, rest)) => Some (Some (String c sch, rest))
             | other => other
             end
      else if Ascii.eqb c ":" then
        if first then None else Some (Some (EmptyString, r))
      else Some None
  end.

Fixpoint count (s : string) (c : ascii) : nat :=
  match s with
  | EmptyString => O
  | String a r => (if Ascii.eqb a c then 1 else 0) + count r c
  end.

(** A port, when the host has one, is a colon and digits. *)
Definition validOptionalPort (host : string) : bool :=
  match GoHTTP.lastIndex host ":" O with
  | O => true
  | S i =>
      GoByte.all GoByte.isDigit
        (String.substring (S i) (String.length host - S i) host)
  end.

Definition Parse (rawURL : string) : Result GoURL.URL :=
  let '(u, frag, _) := GoStrings.Cut rawURL "#" in
  if any isCTL u then Err (url_error "invalid control character in URL")
  else if String.eqb u "*" then
    Ok (GoURL.mkURL "" "" None "" "*" "" false false "" "" "")
  else
    match getScheme true u with
    | None => Err (url_error "missing protocol scheme")
    | Some sch =>
        let '(scheme, rest) :=
          match sch with
          | Some (s, r) => (lower s, r)
          | None => ("", u)
          end in
        let '(rest, force, query) :=
          if GoStrings.HasSuffix rest "?" && (count rest "?" =? 1)%nat then
            (String.substring 0 (String.length rest - 1) rest, true, "")
          else
            let '(r, q, _) := GoStrings.Cut rest "?" in (r, false, q) in
        if negb (GoStrings.HasPrefix rest "/") && negb (String.eqb scheme "") then
          Ok (GoURL.mkURL scheme rest None "" "" "" false force query "" "")
        else if negb (GoStrings.HasPrefix rest "/")
                && GoStrings.ContainsByte (GoStrings.Cut rest "/").1.1 ":" then
          Err (url_error "first path segment in URL cannot contain colon")
        else
          let '(host, rest, omit) :=
            if (negb (String.eqb scheme "") || negb (GoStrings.HasPrefix rest "///"))
               && GoStrings.HasPrefix rest "//" then
              let authority := GoStrings.TrimPrefix rest "//" in
              let '(h, p, found) := GoStrings.Cut authority "/" in
              (h, if found then String "/" p else "", false)
            else
              ("", rest,
               negb (String.eqb scheme "") && GoStrings.HasPrefix rest "/") in
          if negb (GoByte.all plain_host_byte host
                   && GoByte.all plain_path_byte rest
                   && GoByte.all plain_path_byte frag) then
            Err (url_error "not a plain URL")
          else if negb (validOptionalPort host) then
            Err (url_error "invalid port after host")
          else
            Ok (GoURL.mkURL scheme "" None host rest "" omit force query frag "")
    end.

(** The loop of [resolvePath] over the elements of the full path:
    [dst] is the text after the leading slash, [first] tells whether
    an element has been written. *)
Fixpoint remove_dots (elems : list string) (first : bool) (dst : string)
    : string * string :=
  match elems with
  | [] => (dst, "")
  | elem :: rest =>
      let '(dst', first') :=
        if String.eqb elem "." then (dst, false)
        else if String.eqb elem ".." then
          match GoHTTP.lastIndex dst "/" O with
          | O => ("", true)
          | S i => (String.substring 0 i dst, first)
          end
        else ((if first then dst else dst +:+ "/") +:+ elem, false) in
      match rest with
      | [] => (dst', elem)
      | _ => remove_dots rest first' dst'
      end
  end.

Definition resolvePath (base ref : string) : string :=
  let full :=
    if String.eqb ref "" then base
    else if negb (GoStrings.HasPrefix ref "/") then
      match GoHTTP.lastIndex base "/" O with
      | O => ref
      | S i => String.substring 0 (S i) base +:+ ref
      end
    else ref in
  if String.eqb full "" then ""
  else
    let '(dst, elem) := remove_dots (GoStrings.Split full "/") true "" in
    let dst := if String.eqb elem "." || String.eqb elem ".."
               then dst +:+ "/" else dst in
    let r := "/" +:+ dst in
    if GoStrings.HasPrefix r "//" then dst else r.

Definition setPath (u : GoURL.URL) (p : string) : GoURL.URL :=
  GoURL.mkURL (GoURL.Scheme u) (GoURL.Opaque u) (GoURL.User u) (GoURL.Host u)
    p "" (GoURL.OmitHost u) (GoURL.ForceQuery u) (GoURL.RawQuery u)
    (GoURL.Fragment u) (GoURL.RawFragment u).

Definition ResolveReference (u ref : GoURL.URL) : GoURL.URL :=
  let scheme := if String.eqb (GoURL.Scheme ref) "" then GoURL.Scheme u
                else GoURL.Scheme ref in
  let url := GoURL.mkURL scheme (GoURL.Opaque ref) (GoURL.User ref)
               (GoURL.Host ref) (GoURL.Path ref) (GoURL.RawPath ref)
               (GoURL.OmitHost ref) (GoURL.ForceQuery ref) (GoURL.RawQuery ref)
               (GoURL.Fragment ref) (GoURL.RawFragment ref) in
  if negb (String.eqb (GoURL.Scheme ref) "")
     || negb (String.eqb (GoURL.Host ref) "")
     || match GoURL.User ref with Some _ => true | None => false end then
    setPath url (resolvePath (GoURL.Path ref) "")
  else if negb (String.eqb (GoURL.Opaque ref) "") then
    GoURL.mkURL scheme (GoURL.Opaque ref) None "" "" (GoURL.RawPath ref)
      (GoURL.OmitHost ref) (GoURL.ForceQuery ref) (GoURL.RawQuery ref)
      (GoURL.Fragment ref) (GoURL.RawFragment ref)
  else
    let inherit := String.eqb (GoURL.Path ref) "" && negb (GoURL.ForceQuery ref)
                   && String.eqb (GoURL.RawQuery ref) "" in
    let query := if inherit then GoURL.RawQuery u else GoURL.RawQuery ref in
    let '(frag, rawfrag) :=
      if inherit && String.eqb (GoURL.Fragment ref) ""
      then (GoURL.Fragment u, GoURL.RawFragment u)
      else (GoURL.Fragment ref, GoURL.RawFragment ref) in
    if String.eqb (GoURL.Path ref) "" && negb (String.eqb (GoURL.Opaque u) "") then
      GoURL.mkURL scheme (GoURL.Opaque u) None "" "" (GoURL.RawPath ref)
        (GoURL.OmitHost ref) (GoURL.ForceQuery ref) query frag rawfrag
    else
      GoURL.mkURL scheme (GoURL.Opaque ref) (GoURL.User u) (GoURL.Host u)
        (resolvePath (GoURL.Path u) (GoURL.Path ref)) ""
        (GoURL.OmitHost ref) (GoURL.ForceQuery ref) query frag rawfrag.

(** [func (u *URL) String() string] *)
Definition String_ (u : GoURL.URL) : string :=
  let scheme := if String.eqb (GoURL.Scheme u) "" then ""
                else GoURL.Scheme u +:+ ":" in
  let body :=
    if negb (String.eqb (GoURL.Opaque u) "") then GoURL.Opaque u
    else
      let authority :=
        if negb (String.eqb (GoURL.Scheme u) "")
           || negb (String.eqb (GoURL.Host u) "") then
          if GoURL.OmitHost u && String.eqb (GoURL.Host u) "" then ""
          else
            (if negb (String.eqb (GoURL.Host u) "")
                || negb (String.eqb (GoURL.Path u) "") then "//" else "")
            +:+ GoURL.Host u
        else "" in
      let path := GoURL.Path u in
      let slash :=
        if negb (String.eqb path "") && negb (GoStrings.HasPrefix path "/")
           && negb (String.eqb (GoURL.Host u) "") then "/" else "" in
      let dot :=
        if String.eqb (scheme +:+ authority) ""
           && GoStrings.ContainsByte (GoStrings.Cut path "/").1.1 ":"
        then "./" else "" in
      authority +:+ slash +:+ dot +:+ path in
  let query :=
    if GoURL.ForceQuery u || negb (String.eqb (GoURL.RawQuery u) "")
    then "?" +:+ GoURL.RawQuery u else "" in
  let frag :=
    if negb (String.eqb (GoURL.Fragment u) "")
    then "#" +:+ GoURL.Fragment u else "" in
  scheme +:+ body +:+ query +:+ frag.

(** *** The transport: canned responses

    The transport of an [http.Client] is identified by a number; the
    reference transport answers every request with the response filed
    under that number, as the test servers of the package answer every
    request the same way. *)

Definition respond (status : Z) (body : string) : Result HTTPResponse.t :=
  Ok (HTTPResponse.mk status ∅ body None).

Definition canned : list (Result HTTPResponse.t) :=
  [ respond 200 "";
    respond 404
      (GoJSON.text "{'code':'NOT_FOUND','message':'Resource not found'}" +:+ newline);
    respond 503 "<html><body>Service Unavailable</body></html>";
    respond 304 "";
    Err (Err_std "net/http" "context deadline exceeded");
    respond 200 (GoJSON.text "{'invalid': json}");
    respond 400 (GoJSON.text "{'code': 5}");
    Ok (HTTPResponse.mk 500 ∅ "" (Some (Err_std "io" "unexpected EOF")));
    respond 200 (GoJSON.text "{'status':'success'}" +:+ newline);
    respond 401 (GoJSON.text "{'message':'bad key','details':['a','b']}")
  ].

Definition Client_Do (c : HTTPClient.t) (sent : list Request.t) (req : Request.t)
    : Result HTTPResponse.t :=
  match canned !! HTTPClient.Transport c with
  | Some r => r
  | None => respond 200 ""
  end.

Definition stdlib : StdLib := {|
  url_Parse := Parse;
  url_ResolveReference := ResolveReference;
  url_String := String_;
  http_Client_Do := Client_Do
|}.

(** The URL [url.Parse] makes of [DefaultBaseURL]. *)
Definition base : GoURL.URL :=
  GoURL.mkURL "https" "" None "one.digicert.com" "" "" false false "" "" "".

(** The client [NewClient] returns for the key [test-key], on
    transport [n]. *)
Definition demo_client (n : nat) : Client.t :=
  Client.mk (HTTPClient.mk n (30 * 1000000000)) base UserAgent "test-key".

(** A client as [NewClient] returns it, on transport [n]. *)
Definition client_on (n : nat) (apiKey : string) : Result Client.t :=
  @NewClient stdlib apiKey
    [@WithHTTPClient (Some (HTTPClient.mk n (30 * 1000000000)))].

Definition start (c : Client.t) : State := mkState c [] [].

(** A fresh world around the demo client on transport [n]. *)
Definition demo (n : nat) : State := start (demo_client n).

(** The requests sent, as method and URL, and their queries alone. *)
Definition lines (st : State) : list string :=
  (λ r, Request.Method r +:+ " " +:+ String_ (Request.URL r)) <$> wire st.

Definition queries (st : State) : list string :=
  (λ r, GoURL.RawQuery (Request.URL r)) <$> wire st.

(** A request as the transport sees it, for running [Do] alone. *)
Definition demo_request : Request.t :=
  Request.mk ctx_Background "GET"
    (GoURL.with_Path base "/mpki/api/v1/test") ∅ None "one.digicert.com".

(** Option structs with only their pagination set. *)
Definition search_page (offset limit : Z) : CertificateSearchOptions.t :=
  CertificateSearchOptions.mk (PaginationParams.mk 0 0 offset limit)
    "" "" "" "" [] "" "".

Definition units_page (offset limit : Z) : BusinessUnitListOptions.t :=
  BusinessUnitListOptions.mk (PaginationParams.mk 0 0 offset limit)
    "" "" None "" "".

(** The options of the test [successful business units listing with
    filters]. *)
Definition units_filtered : BusinessUnitListOptions.t :=
  BusinessUnitListOptions.mk (PaginationParams.mk 0 0 20 10)
    "Engineering" "" (Some true) "" "".

(** Search options that ask for a sort order and nothing else. *)
Definition search_sorted : CertificateSearchOptions.t :=
  CertificateSearchOptions.mk (PaginationParams.mk 0 0 0 0)
    "" "" "" "" [] "name" "asc".

Definition revoke_body : GoJSON.value :=
  GoJSON.Object [("reason", GoJSON.Str "keyCompromise")].

End Reference.

(** * Properties *)

(** ** Strings *)

Lemma strip_app p s : GoStrings.strip p (p +:+ s) = Some s.
Proof.
  induction p as [|a p IH]; simpl; [done|].
  by rewrite Ascii.eqb_refl.
Qed.

Lemma TrimPrefix_app p s : GoStrings.TrimPrefix (p +:+ s) p = s.
Proof. unfold GoStrings.TrimPrefix. by rewrite strip_app. Qed.

Lemma TrimPrefix_no_prefix s p :
  GoStrings.HasPrefix s p = false → GoStrings.TrimPrefix s p = s.
Proof.
  unfold GoStrings.HasPrefix, GoStrings.TrimPrefix.
  by destruct (GoStrings.strip p s).
Qed.

Lemma HasSuffix_app s suffix : GoStrings.HasSuffix (s +:+ suffix) suffix = true.
Proof.
  induction s as [|a s IH]; simpl.
  - destruct suffix; simpl; [done|].
    by rewrite Ascii.eqb_refl, String.eqb_refl.
  - rewrite IH. by rewrite orb_true_r.
Qed.

(** ** Headers and query values *)

Lemma values_Add (q : GoURL.Values) (k v k' : string) :
  GoURL.values (GoURL.Add q k v) k'
  = if decide (k = k') then GoURL.values q k ++ [v] else GoURL.values q k'.
Proof.
  unfold GoURL.Add, GoURL.values at 1.
  case_decide as Hk.
  - subst. by rewrite lookup_insert_eq.
  - by rewrite lookup_insert_ne.
Qed.

Lemma values_foldl_Add (q : GoURL.Values) (k k' : string) (l : list string) :
  GoURL.values (foldl (λ q t, GoURL.Add q k t) q l) k'
  = if decide (k = k') then GoURL.values q k ++ l else GoURL.values q k'.
Proof.
  revert q. induction l as [|x l IH]; intros q; simpl.
  - case_decide; subst; by rewrite ?app_nil_r.
  - rewrite IH, !values_Add. destruct (decide (k = k')) as [->|Hk].
    + rewrite decide_True by done. by rewrite <- app_assoc.
    + done.
Qed.

Section StateLemmas.
Context `{StdLib}.
Context `{!JSONDecoder APIError.t}.

Lemma bind_run {A B} (m : M A) (f : A → M B) st :
  (m ≫= f) st = f (m st).1 (m st).2.
Proof. unfold mbind, M_bind. by destruct (m st). Qed.

Lemma ret_run {A} (a : A) st : (mret a : M A) st = (a, st).
Proof. done. Qed.

(** ** What [NewRequest] and [Do] do to the state *)

Lemma NewRequest_state {T} `{!JSONEncoder T} ctx method urlStr (body : option T) st :
  (NewRequest ctx method urlStr body st).2
  = mkState (normalize (the_client st)) (wire st) (stdout st).
Proof.
  destruct st as [c w o].
  unfold NewRequest, normalize, mbind, M_bind, mret, M_ret, get_client, set_client.
  simpl. destruct (GoStrings.HasSuffix _ _); simpl; repeat case_match; done.
Qed.

Lemma Do_state {T} `{!JSONDecoder T} ctx req (v : option T) st :
  (Do ctx req v st).2 = mkState (the_client st) (wire st ++ [req]) (stdout st).
Proof.
  unfold Do, client_Do, mbind, M_bind, mret, M_ret. simpl.
  repeat case_match; done.
Qed.

End StateLemmas.

(** ** Running a method

    A method is [NewRequest], then possibly a change to the request,
    then [Do]; the tactics below walk through these steps. *)

Ltac unfold_method :=
  unfold CertificatesService_Issue, CertificatesService_Get,
    CertificatesService_GetCertificate, CertificatesService_Search,
    CertificatesService_Revoke, CertificatesService_Unrevoke,
    CertificatesService_Renew, CertificatesService_GetAdditionalFormats,
    CertificatesService_Pickup,
    BusinessUnitsService_Create, BusinessUnitsService_Get,
    BusinessUnitsService_Update, BusinessUnitsService_Delete,
    BusinessUnitsService_List, BusinessUnitsService_GetLicensedSeats,
    BusinessUnitsService_AddAdmin, BusinessUnitsService_RemoveAdmin,
    BusinessUnitsService_ListAdmins,
    CertificateOwnersService_Create, CertificateOwnersService_Get,
    CertificateOwnersService_Update, CertificateOwnersService_Delete,
    CertificateOwnersService_List,
    CertificateOwnersService_AssignToCertificate,
    CertificateOwnersService_RemoveFromCertificate,
    EnrollmentsService_Create, EnrollmentsService_Get,
    EnrollmentsService_GetStatus, EnrollmentsService_Redeem,
    EnrollmentsService_CreateManualEnrollment,
    EnrollmentsService_RenewManualEnrollment,
    EnrollmentsService_ListDetails, EnrollmentsService_GetDetails,
    EnrollmentsService_GetByCertificate,
    ProfilesService_List, ProfilesService_Get, ProfilesService_ListPublic,
    ProfilesService_ListTemplates.

(** Case on the outcome of the [NewRequest] the goal runs from [st]. *)
Ltac step_NewRequest st :=
  match goal with
  | |- context [NewRequest ?ctx ?m ?u ?b st] =>
      let r := fresh "r" in
      let st1 := fresh "st" in
      let HN := fresh "HN" in
      let Hst := fresh "Hst" in
      pose proof (NewRequest_state ctx m u b st) as Hst;
      destruct (NewRequest ctx m u b st) as [r st1] eqn:HN;
      simpl in Hst; subst st1; destruct r; simpl
  end.

(** Case on the outcome of the [Do] in the goal, and finish. *)
Ltac step_Do :=
  rewrite ?bind_run, ?ret_run; simpl;
  try match goal with
  | |- context [Do ?ctx ?req ?v ?st1] =>
      let HD := fresh "HD" in
      pose proof (Do_state ctx req v st1) as HD;
      destruct (Do ctx req v st1) as [[[? [?|]] ?] ?];
      simpl in HD; subst; simpl
  end;
  rewrite ?app_nil_r; try done; try (repeat case_match; done).

Section CallLemmas.
Context `{StdLib} `{Schema}.
Context `{!JSONDecoder APIError.t}.

(** A call hands to the transport exactly the request it constructed,
    and nothing when construction failed. *)
Lemma call_wire call ctx st :
  wire (call_run call ctx st)
  = wire st ++ match (call_request call ctx st).1 with
               | Ok r => [r]
               | Err _ => []
               end.
Proof.
  destruct call; simpl; unfold_method;
    rewrite ?bind_run; step_NewRequest st; step_Do.
Qed.

End CallLemmas.

Section RequestLemmas.
Context `{StdLib}.

Lemma http_NewRequestWithContext_Ok ctx method url body req :
  http_NewRequestWithContext ctx method url body = Ok req →
  Request.Method req = (if String.eqb method "" then "GET" else method)
  ∧ Request.Header req = ∅
  ∧ Request.Body req = body
  ∧ Request.Ctx req = ctx
  ∧ ∃ u, url_Parse url = Ok u
         ∧ Request.URL req
           = GoURL.with_Host u (GoHTTP.removeEmptyPort (GoURL.Host u)).
Proof.
  unfold http_NewRequestWithContext. intros Hreq.
  repeat case_match; simplify_eq/=; eauto 10.
Qed.

(** A request [NewRequest] returns was built in these steps. *)
Lemma NewRequest_Ok {T} `{!JSONEncoder T} ctx method urlStr (body : option T) st req st' :
  NewRequest ctx method urlStr body st = (Ok req, st') →
  let c := normalize (the_client st) in
  ∃ rel buf req0,
    url_Parse ("mpki/api/" +:+ APIVersion +:+ "/" +:+ GoStrings.TrimPrefix urlStr "/")
      = Ok rel
    ∧ encode_body body = Ok buf
    ∧ http_NewRequestWithContext ctx method
        (url_String (url_ResolveReference (Client.BaseURL c) rel)) buf = Ok req0
    ∧ req = Request.with_Header req0 (stamped c body).
Proof.
  destruct st as [c w o].
  unfold NewRequest, normalize, mbind, M_bind, mret, M_ret, get_client, set_client.
  simpl. intros Hreq.
  destruct (GoStrings.HasSuffix _ _); simpl in *.
  all: destruct (url_Parse _) as [rel|]; [|done].
  all: destruct body as [b|]; simpl in *.
  all: try (destruct (json_Encode b) as [text|]; [|done]).
  all: match type of Hreq with
       | context [http_NewRequestWithContext ?a ?b ?c ?d] =>
           destruct (http_NewRequestWithContext a b c d) as [req0|] eqn:Hq;
           [|done]
       end.
  all: simplify_eq/=.
  all: destruct (http_NewRequestWithContext_Ok _ _ _ _ _ Hq) as (_ & Hh & _).
  all: eexists _, _, _; repeat split; eauto.
  all: by rewrite Hh.
Qed.

(** The result of [NewRequest], step by step. *)
Lemma NewRequest_result {T} `{!JSONEncoder T}
    ctx method urlStr (body : option T) st :
  let c := normalize (the_client st) in
  (NewRequest ctx method urlStr body st).1
  = match url_Parse ("mpki/api/" +:+ APIVersion +:+ "/"
                       +:+ GoStrings.TrimPrefix urlStr "/") with
    | Err e => Err e
    | Ok rel =>
        match encode_body body with
        | Err e => Err e
        | Ok buf =>
            match http_NewRequestWithContext ctx method
                    (url_String (url_ResolveReference (Client.BaseURL c) rel))
                    buf with
            | Err e => Err e
            | Ok req => Ok (Request.with_Header req (stamped c body))
            end
        end
    end.
Proof.
  destruct st as [c w o].
  unfold NewRequest, normalize, encode_body, stamped,
    mbind, M_bind, mret, M_ret, get_client, set_client.
  simpl.
  destruct (GoStrings.HasSuffix (GoURL.Path (Client.BaseURL c)) "/"); simpl;
    (destruct (url_Parse _) as [rel|e]; [|done]);
    (destruct body as [b|]; [destruct (json_Encode b)|]; simpl; try done);
    by destruct (http_NewRequestWithContext _ _ _ _) as [req|e]
    eqn:Hreq; [apply http_NewRequestWithContext_Ok in Hreq
                 as (_ & -> & _)|].
Qed.

(** [NewRequest] builds the request for the path it was given with
    one leading slash removed. *)
Lemma NewRequest_builds {T} `{!JSONEncoder T}
    ctx method urlStr (body : option T) st :
  builds ctx method urlStr body st (GoStrings.TrimPrefix urlStr "/").
Proof.
  intros rel buf full Hrel Hbuf Hm Hctx Hfull.
  rewrite NewRequest_result. cbv zeta. rewrite Hrel, Hbuf.
  unfold http_NewRequestWithContext. rewrite Hm, Hfull. simpl.
  destruct ctx; [done| |]; eexists; repeat split; done.
Qed.

End RequestLemmas.

(** ** Frame: what a call leaves of the client *)

Lemma normalize_idem c : normalize (normalize c) = normalize c.
Proof.
  unfold normalize.
  destruct (GoStrings.HasSuffix (GoURL.Path (Client.BaseURL c)) "/") eqn:Hs.
  - by rewrite Hs.
  - simpl. by rewrite HasSuffix_app.
Qed.

Lemma normalize_fields c :
  Client.client (normalize c) = Client.client c
  ∧ Client.UserAgent (normalize c) = Client.UserAgent c
  ∧ Client.apiKey (normalize c) = Client.apiKey c.
Proof. unfold normalize. by case_match. Qed.

Section ClientProperties.
Context `{StdLib} `{Schema}.
Context `{!JSONDecoder APIError.t}.

Lemma call_client call ctx st :
  the_client (call_run call ctx st) = normalize (the_client st).
Proof.
  destruct call; simpl; unfold_method;
    rewrite ?bind_run; step_NewRequest st; step_Do.
Qed.

(** C9. [IsNotFound err] is true exactly when [err] is a [*APIError] or
    a [*HTTPError] whose [StatusCode] is 404, [IsUnauthorized] likewise
    for 401 and [IsForbidden] for 403; on every other error value, the
    nil error and errors of other types included, the three predicates
    are false. *)
Theorem status_predicates (err : error) :
  (IsNotFound err = true ↔ carries_status err 404)
  ∧ (IsUnauthorized err = true ↔ carries_status err 401)
  ∧ (IsForbidden err = true ↔ carries_status err 403)
  ∧ (IsNotFound err = false ↔ ¬ carries_status err 404)
  ∧ (IsUnauthorized err = false ↔ ¬ carries_status err 401)
  ∧ (IsForbidden err = false ↔ ¬ carries_status err 403).
Proof.
  assert (Hiff : ∀ (f : error → bool) code,
    (∀ e, f e = match e with
                | Some (Err_APIError a) => APIError.StatusCode a =? code
                | Some (Err_HTTPError h) => HTTPError.StatusCode h =? code
                | _ => false
                end) →
    f err = true ↔ carries_status err code).
  { intros f code Hf. rewrite Hf. unfold carries_status. split.
    - destruct err as [[a|h|m i|m|p m]|]; try done.
      + intros ?%Z.eqb_eq. left. eauto.
      + intros ?%Z.eqb_eq. right. eauto.
    - intros [(a & -> & <-)|(h & -> & <-)]; apply Z.eqb_refl. }
  assert (H404 := Hiff IsNotFound 404 (λ _, eq_refl)).
  assert (H401 := Hiff IsUnauthorized 401 (λ _, eq_refl)).
  assert (H403 := Hiff IsForbidden 403 (λ _, eq_refl)).
  repeat split; try (apply H404 || apply H401 || apply H403).
  all: rewrite <- ?H404, <- ?H401, <- ?H403.
  all: try (intros ->; discriminate).
  all: apply not_true_is_false.
Qed.

(** C8. For a relative path [p], one that does not itself begin with a
    slash, [NewRequest] does the same for [p] and for [/p]: the two
    calls return the same request (or the same error) and leave the
    same state.  The request is built: whenever a request for [p] under
    [mpki/api/v1/] can be made at all, both calls return it, with the
    URL of [mpki/api/v1/p] resolved against the base URL.  One slash is
    stripped and no more: for every [s], also one that begins with a
    slash, the call on [/s] builds the request for [s]. *)
Theorem NewRequest_leading_slash {T} `{!JSONEncoder T}
    ctx method (body : option T) (p : string) st :
  GoStrings.HasPrefix p "/" = false →
  NewRequest ctx method ("/" +:+ p) body st = NewRequest ctx method p body st
  ∧ builds ctx method p body st p
  ∧ builds ctx method ("/" +:+ p) body st p
  ∧ ∀ s, builds ctx method ("/" +:+ s) body st s.
Proof.
  intros Hp.
  assert (Hslash : ∀ s, builds ctx method ("/" +:+ s) body st s).
  { intros s. pose proof (NewRequest_builds ctx method ("/" +:+ s) body st) as Hb.
    by rewrite (TrimPrefix_app "/" s) in Hb. }
  split; [|split; [|split]]; [| |apply Hslash|apply Hslash].
  - unfold NewRequest.
    by rewrite (TrimPrefix_app "/" p), (TrimPrefix_no_prefix p "/" Hp).
  - pose proof (NewRequest_builds ctx method p body st) as Hb.
    by rewrite (TrimPrefix_no_prefix p "/" Hp) in Hb.
Qed.

Lemma canonical_keys :
  GoHTTP.CanonicalMIMEHeaderKey "X-API-Key" = "X-Api-Key"
  ∧ GoHTTP.CanonicalMIMEHeaderKey "Accept" = "Accept"
  ∧ GoHTTP.CanonicalMIMEHeaderKey "User-Agent" = "User-Agent"
  ∧ GoHTTP.CanonicalMIMEHeaderKey "Content-Type" = "Content-Type".
Proof. by vm_compute. Qed.

(** C4. Every request [NewRequest] builds carries [X-API-Key] equal to
    the client's API key, [Accept] equal to [application/json] and
    [User-Agent] equal to the client's [UserAgent]; [Content-Type] is
    present, and then [application/json], exactly when the body is not
    nil. *)
Theorem NewRequest_headers {T} `{!JSONEncoder T}
    ctx method urlStr (body : option T) st req st' :
  NewRequest ctx method urlStr body st = (Ok req, st') →
  GoHTTP.Get (Request.Header req) "X-API-Key" = Client.apiKey (the_client st)
  ∧ GoHTTP.Get (Request.Header req) "Accept" = "application/json"
  ∧ GoHTTP.Get (Request.Header req) "User-Agent"
    = Client.UserAgent (the_client st)
  ∧ (GoHTTP.Has (Request.Header req) "Content-Type" = true ↔ body ≠ None)
  ∧ GoHTTP.Get (Request.Header req) "Content-Type"
    = match body with Some _ => "application/json" | None => "" end.
Proof.
  intros Hreq. apply NewRequest_Ok in Hreq as (rel & buf & req0 & _ & _ & _ & ->).
  destruct (normalize_fields (the_client st)) as (_ & HUA & Hkey).
  destruct canonical_keys as (Kkey & Kacc & Kua & Kct).
  unfold GoHTTP.Get, GoHTTP.Has, stamped, GoHTTP.Set_. simpl.
  rewrite Kkey, Kacc, Kua, Kct, HUA, Hkey.
  destruct body; simplify_map_eq; naive_solver.
Qed.

(** C5, as the code has it. [NewRequest], and with it every service
    method, never changes the client's [UserAgent], API key or HTTP
    client; it leaves [BaseURL] as it is when the path of [BaseURL]
    already ends in a slash, and otherwise appends a slash to that path
    and changes nothing else of the URL; a further call then changes
    nothing.  [Do] changes no field of the client. *)
Theorem client_frame :
  (∀ T (E : JSONEncoder T) ctx method urlStr (body : option T) st,
     let c := the_client st in
     let c' := the_client (NewRequest ctx method urlStr body st).2 in
     Client.UserAgent c' = Client.UserAgent c
     ∧ Client.apiKey c' = Client.apiKey c
     ∧ Client.client c' = Client.client c
     ∧ Client.BaseURL c'
       = (if GoStrings.HasSuffix (GoURL.Path (Client.BaseURL c)) "/"
          then Client.BaseURL c
          else GoURL.with_Path (Client.BaseURL c)
                 (GoURL.Path (Client.BaseURL c) +:+ "/"))
     ∧ the_client
         (NewRequest ctx method urlStr body
            (NewRequest ctx method urlStr body st).2).2 = c')
  ∧ (∀ T (D : JSONDecoder T) ctx req (v : option T) st,
       the_client (Do ctx req v st).2 = the_client st)
  ∧ (∀ call ctx st,
       let c := the_client st in
       let c' := the_client (call_run call ctx st) in
       Client.UserAgent c' = Client.UserAgent c
       ∧ Client.apiKey c' = Client.apiKey c
       ∧ Client.client c' = Client.client c
       ∧ Client.BaseURL c'
         = (if GoStrings.HasSuffix (GoURL.Path (Client.BaseURL c)) "/"
            then Client.BaseURL c
            else GoURL.with_Path (Client.BaseURL c)
                   (GoURL.Path (Client.BaseURL c) +:+ "/"))).
Proof.
  assert (Hn : ∀ c,
    Client.UserAgent (normalize c) = Client.UserAgent c
    ∧ Client.apiKey (normalize c) = Client.apiKey c
    ∧ Client.client (normalize c) = Client.client c
    ∧ Client.BaseURL (normalize c)
      = (if GoStrings.HasSuffix (GoURL.Path (Client.BaseURL c)) "/"
         then Client.BaseURL c
         else GoURL.with_Path (Client.BaseURL c)
                (GoURL.Path (Client.BaseURL c) +:+ "/"))).
  { intros c. unfold normalize. by case_match. }
  split; [|split].
  - intros T E ctx method urlStr body st. simpl.
    rewrite !NewRequest_state. simpl. rewrite normalize_idem.
    destruct (Hn (the_client st)) as (? & ? & ? & ?). done.
  - intros. by rewrite Do_state.
  - intros call ctx st. simpl. rewrite call_client. apply Hn.
Qed.

End ClientProperties.

(** ** The pieces of an encoded query *)

Lemma elem_of_sorted_keys (q : GoURL.Values) (k : string) :
  k ∈ GoURL.sorted_keys q ↔ is_Some (q !! k).
Proof.
  unfold GoURL.sorted_keys. rewrite merge_sort_Permutation.
  rewrite list_elem_of_fmap. split.
  - intros ([k' vs] & -> & Hin). apply elem_of_map_to_list in Hin. eauto.
  - intros [vs Hvs]. exists (k, vs). split; [done|].
    by apply elem_of_map_to_list.
Qed.

(** [Encode] writes one piece [key=value] for each value filed under
    each key, both escaped, and nothing else. *)
Lemma elem_of_encode_pieces (q : GoURL.Values) (piece : string) :
  piece ∈ GoURL.encode_pieces q
  ↔ ∃ k v, v ∈ GoURL.values q k
           ∧ piece = GoURL.QueryEscape k +:+ "=" +:+ GoURL.QueryEscape v.
Proof.
  unfold GoURL.encode_pieces, GoURL.encode_key.
  rewrite list_elem_of_bind. split.
  - intros (k & Hp & _). apply list_elem_of_fmap in Hp as (v & -> & Hv). eauto.
  - intros (k & v & Hv & ->). exists k. split.
    + apply list_elem_of_fmap. eauto.
    + apply elem_of_sorted_keys. unfold GoURL.values in Hv.
      destruct (q !! k); [eauto|]. by apply elem_of_nil in Hv.
Qed.

Section ResponseProperties.
Context `{StdLib} `{Schema}.
Context `{!JSONDecoder APIError.t}.

(** ** [Do] on a response received *)

Lemma Do_received {T} `{!JSONDecoder T} ctx req (v : option T) st resp data :
  http_Client_Do (Client.client (the_client st)) (wire st) req = Ok resp →
  io_ReadAll resp = (data, None) →
  (Do ctx req v st).1
  = let response := Some (Response.mk resp (Some data)) in
    if (HTTPResponse.StatusCode resp <? 200)
       || (300 <=? HTTPResponse.StatusCode resp) then
      (response, checkError resp data, v)
    else
      match v with
      | Some target =>
          if (0 <? String.length data)%nat then
            (response,
             match (json_Unmarshal data target).2 with
             | Some e => Some (Err_wrap "failed to decode response: " e)
             | None => None
             end,
             Some (json_Unmarshal data target).1)
          else (response, None, v)
      | None => (response, None, v)
      end.
Proof.
  intros Hdo Hread.
  unfold Do, client_Do. rewrite bind_run.
  cbv beta iota delta [fst snd]. rewrite Hdo, Hread.
  destruct (_ || _); [done|].
  destruct v as [target|]; [|done].
  destruct (0 <? String.length data)%nat; [|done].
  by destruct (json_Unmarshal data target) as [t' [e|]].
Qed.

Lemma length_pos_nonempty (s : string) :
  (0 <? String.length s)%nat = true ↔ s ≠ "".
Proof. destruct s; simpl; split; (done || lia || auto). Qed.

(** C1, as the code has it. For a response [Do] receives whose body
    is read to its end without error: when the status is outside
    200..299, which every 4xx and 5xx status is, [Do] returns an error
    of exactly one of two shapes, a [*APIError] carrying the decoded
    code, message, details and request id together with the status
    code when [json.Unmarshal] of the body into an [APIError] succeeds,
    and a [*HTTPError] carrying the status code and the raw body as its
    message when it fails; when the status is within 200..299 the only
    error [Do] returns is the wrapped failure to decode a non-empty
    body into a non-nil target. *)
Theorem Do_error_shapes {T} `{!JSONDecoder T}
    ctx req (v : option T) st resp data :
  http_Client_Do (Client.client (the_client st)) (wire st) req = Ok resp →
  io_ReadAll resp = (data, None) →
  let status := HTTPResponse.StatusCode resp in
  let err := (Do ctx req v st).1.1.2 in
  (status < 200 ∨ 300 ≤ status →
     match json_Unmarshal data APIError.zero with
     | (decoded, None) =>
         ∃ e, err = Some (Err_APIError e)
              ∧ APIError.StatusCode e = status
              ∧ APIError.Code e = APIError.Code decoded
              ∧ APIError.Message e = APIError.Message decoded
              ∧ APIError.Details e = APIError.Details decoded
              ∧ APIError.RequestID e = APIError.RequestID decoded
     | (_, Some _) => err = Some (Err_HTTPError (HTTPError.mk status data))
     end)
  ∧ (400 ≤ status < 600 →
       (∃ e, err = Some (Err_APIError e)) ∨ (∃ e, err = Some (Err_HTTPError e)))
  ∧ (200 ≤ status < 300 →
       err = None
       ∨ ∃ target inner,
           v = Some target ∧ data ≠ ""
           ∧ (json_Unmarshal data target).2 = Some inner
           ∧ err = Some (Err_wrap "failed to decode response: " inner)).
Proof.
  intros Hdo Hread status err.
  assert (Hout : status < 200 ∨ 300 ≤ status →
    err = checkError resp data).
  { intros Hs. unfold err. rewrite (Do_received _ _ _ _ _ _ Hdo Hread). simpl.
    fold status. destruct (status <? 200) eqn:H1; [done|].
    destruct (300 <=? status) eqn:H2; [done|]. lia. }
  split; [|split].
  - intros Hs. rewrite (Hout Hs). unfold checkError.
    destruct (json_Unmarshal data APIError.zero) as [decoded [e|]]; [done|].
    eexists. split; [done|]. by destruct decoded.
  - intros Hs. rewrite Hout by lia. unfold checkError.
    destruct (json_Unmarshal data APIError.zero) as [decoded [e|]]; eauto.
  - intros Hs. unfold err. rewrite (Do_received _ _ _ _ _ _ Hdo Hread). simpl.
    fold status.
    destruct (status <? 200) eqn:H1; [lia|].
    destruct (300 <=? status) eqn:H2; [lia|]. simpl.
    destruct v as [target|]; [|by left].
    destruct (0 <? String.length data)%nat eqn:Hlen; [|by left].
    apply length_pos_nonempty in Hlen. simpl.
    destruct (json_Unmarshal data target) as [t' [e|]] eqn:Hu; [|by left].
    right. exists target, e. by rewrite Hu.
Qed.

(** C3. When [Do] receives a 2xx response, reads its body, and the
    target is not nil: a non-empty body is unmarshaled into the target,
    and a failure to decode is returned wrapped in the error [failed to
    decode response]; on an empty body nothing is decoded, the target
    holds what it held, its zero value in every service method, and no
    error is returned. *)
Theorem Do_decodes_success {T} `{!JSONDecoder T}
    ctx req (target : T) st resp data :
  http_Client_Do (Client.client (the_client st)) (wire st) req = Ok resp →
  io_ReadAll resp = (data, None) →
  200 ≤ HTTPResponse.StatusCode resp < 300 →
  let response := Some (Response.mk resp (Some data)) in
  (data ≠ "" →
     (Do ctx req (Some target) st).1
     = (response,
        match (json_Unmarshal data target).2 with
        | Some e => Some (Err_wrap "failed to decode response: " e)
        | None => None
        end,
        Some (json_Unmarshal data target).1))
  ∧ (data = "" → (Do ctx req (Some target) st).1 = (response, None, Some target)).
Proof.
  intros Hdo Hread Hs response.
  rewrite (Do_received _ _ _ _ _ _ Hdo Hread). simpl.
  destruct (_ <? 200) eqn:H1; [lia|].
  destruct (300 <=? _) eqn:H2; [lia|]. simpl.
  split.
  - intros Hne. apply length_pos_nonempty in Hne. by rewrite Hne.
  - by intros ->.
Qed.

(** C6. A call of a service method hands the transport the request it
    constructed and nothing else: one request when construction
    succeeds, none when it fails, whatever the transport answers, so a
    request that failed is not sent again. *)
Theorem one_request_per_call call ctx st :
  let built := (call_request call ctx st).1 in
  let sent := wire (call_run call ctx st) in
  sent = wire st ++ match built with Ok r => [r] | Err _ => [] end
  ∧ (length sent ≤ length (wire st) + 1)%nat
  ∧ (is_Ok built = true ↔ length sent = (length (wire st) + 1)%nat)
  ∧ (is_Ok built = false ↔ sent = wire st).
Proof.
  simpl. rewrite call_wire.
  destruct (call_request call ctx st).1 as [r|e]; simpl.
  - rewrite length_app. simpl. repeat split; try done; try lia.
    intros Heq. apply (f_equal length) in Heq.
    rewrite length_app in Heq. simpl in Heq. lia.
  - rewrite app_nil_r. repeat split; try done; lia.
Qed.

End ResponseProperties.

(** ** Conditional additions to the query values *)

Lemma values_if_Add (b : bool) (q : GoURL.Values) (k v k' : string) :
  GoURL.values (if b then GoURL.Add q k v else q) k'
  = if decide (k = k') then GoURL.values q k ++ when b v else GoURL.values q k'.
Proof.
  destruct b; simpl; [apply values_Add|].
  case_decide; subst; by rewrite ?app_nil_r.
Qed.

Lemma values_pointer_Add (p : option bool) (q : GoURL.Values) (k k' : string) :
  GoURL.values (match p with
                | Some b => GoURL.Add q k (GoFmt.t b)
                | None => q
                end) k'
  = if decide (k = k') then GoURL.values q k ++ pointed p else GoURL.values q k'.
Proof.
  destruct p; simpl; [apply values_Add|].
  case_decide; subst; by rewrite ?app_nil_r.
Qed.

Lemma values_if_Add2 (b : bool) (q : GoURL.Values) (k1 v1 k2 v2 k' : string) :
  k1 ≠ k2 →
  GoURL.values (if b then GoURL.Add (GoURL.Add q k1 v1) k2 v2 else q) k'
  = if decide (k1 = k') then GoURL.values q k1 ++ when b v1
    else if decide (k2 = k') then GoURL.values q k2 ++ when b v2
    else GoURL.values q k'.
Proof.
  intros Hne. destruct b; simpl.
  - rewrite !values_Add. repeat case_decide; simplify_eq; done.
  - repeat case_decide; subst; by rewrite ?app_nil_r.
Qed.

(** Name the value of the outermost [let] of the goal. *)
Ltac name_let :=
  match goal with
  | |- context G [let x := ?e in @?b x] =>
      let q := fresh "q" in
      pose (q := e);
      let body := eval cbv beta in (b q) in
      let g := context G [body] in
      change g
  end.

(** Undo the last addition to the values the goal looks up. *)
Ltac peel_Add :=
  match goal with
  | |- context [GoURL.values ?q _] => is_var q; unfold q; clear q
  end;
  first [ rewrite values_if_Add
        | rewrite values_pointer_Add
        | rewrite values_foldl_Add
        | rewrite values_if_Add2 by done ];
  repeat case_decide; simplify_eq;
  try (match goal with
       | Hk : _ ∉ _ |- _ =>
           solve [ exfalso; apply Hk;
                   repeat first [ apply list_elem_of_here
                                | apply list_elem_of_further ] ]
       end).

(** Settle a goal [adds q0 q key vs], or the frame of a key outside
    the listed ones, for [q] built by conditional additions. *)
Ltac solve_adds :=
  cbv beta delta [adds nonempty positive_int];
  repeat name_let; repeat peel_Add; done.

Section RequestProperties.
Context `{StdLib} `{Schema}.
Context `{!JSONDecoder APIError.t}.

Lemma NewRequest_targets {T} `{!JSONEncoder T} ctx method path (body : option T) st r st1 :
  GoStrings.HasPrefix path "/" = false →
  NewRequest ctx method path body st = (Ok r, st1) →
  targets (normalize (the_client st)) r path
  ∧ Request.Method r = (if String.eqb method "" then "GET" else method)
  ∧ ∃ buf, encode_body body = Ok buf ∧ Request.Body r = buf.
Proof.
  intros Hp Hreq.
  apply NewRequest_Ok in Hreq as (rel & buf & req0 & Hrel & Hbuf & Hreq0 & ->).
  rewrite (TrimPrefix_no_prefix _ _ Hp) in Hrel.
  apply http_NewRequestWithContext_Ok in Hreq0
    as (Hm & _ & Hb & _ & full & Hfull & Hurl).
  split; [by exists rel, full|]. split; [done|]. by exists buf.
Qed.

(** C7. [Certificates.Revoke] sends a PUT and [Certificates.Unrevoke]
    a DELETE, both to the relative path [certificate/s/revoke] for the
    serial number [s]; a call sends the one request [NewRequest] builds
    for that verb, that path and that body, the JSON encoding of the
    revoke request for [Revoke] and no body for [Unrevoke], and sends
    nothing when [NewRequest] fails. *)
Theorem revoke_unrevoke ctx (serialNumber : string) (req : option RevokeRequest) st :
  let path := "certificate/" +:+ serialNumber +:+ "/revoke" in
  let c := normalize (the_client st) in
  (∀ r st1,
     NewRequest ctx GoHTTP.MethodPut path (Some req) st = (Ok r, st1) →
     wire (CertificatesService_Revoke ctx serialNumber req st).2 = wire st ++ [r]
     ∧ Request.Method r = "PUT"
     ∧ targets c r path
     ∧ ∃ text, json_Encode req = Ok text ∧ Request.Body r = Some text)
  ∧ (∀ r st1,
       NewRequest ctx GoHTTP.MethodDelete path nil_interface st = (Ok r, st1) →
       wire (CertificatesService_Unrevoke ctx serialNumber st).2 = wire st ++ [r]
       ∧ Request.Method r = "DELETE"
       ∧ targets c r path
       ∧ Request.Body r = None)
  ∧ (∀ e st1,
       NewRequest ctx GoHTTP.MethodPut path (Some req) st = (Err e, st1) →
       (CertificatesService_Revoke ctx serialNumber req st).1 = (None, Some e)
       ∧ wire (CertificatesService_Revoke ctx serialNumber req st).2 = wire st)
  ∧ (∀ e st1,
       NewRequest ctx GoHTTP.MethodDelete path nil_interface st = (Err e, st1) →
       (CertificatesService_Unrevoke ctx serialNumber st).1 = (None, Some e)
       ∧ wire (CertificatesService_Unrevoke ctx serialNumber st).2 = wire st).
Proof.
  intros path c.
  assert (Hp : GoStrings.HasPrefix path "/" = false) by done.
  pose proof (call_wire (Call_CertificatesService_Revoke serialNumber req) ctx st)
    as HwR.
  pose proof (call_wire (Call_CertificatesService_Unrevoke serialNumber) ctx st)
    as HwU.
  simpl in HwR, HwU. fold path in HwR, HwU.
  split; [|split; [|split]].
  - intros r st1 Hreq. rewrite Hreq in HwR. split; [done|].
    destruct (NewRequest_targets _ _ _ _ _ _ _ Hp Hreq) as (Ht & Hm & buf & Hb & Hbody).
    split; [done|]. split; [done|].
    unfold encode_body in Hb. destruct (json_Encode req) as [text|]; [|done].
    simplify_eq. eauto.
  - intros r st1 Hreq. rewrite Hreq in HwU. split; [done|].
    destruct (NewRequest_targets _ _ _ _ _ _ _ Hp Hreq) as (Ht & Hm & buf & Hb & Hbody).
    split; [done|]. split; [done|]. simpl in Hb. by simplify_eq.
  - intros e st1 Hreq. rewrite Hreq in HwR. rewrite app_nil_r in HwR.
    split; [|done]. unfold CertificatesService_Revoke. rewrite bind_run.
    fold path. by rewrite Hreq.
  - intros e st1 Hreq. rewrite Hreq in HwU. rewrite app_nil_r in HwU.
    split; [|done]. unfold CertificatesService_Unrevoke. rewrite bind_run.
    fold path. by rewrite Hreq.
Qed.

(** The query blocks of the five list methods, key by key: the values
    each block appends under each key it writes, and the keys it leaves
    alone. *)
Lemma query_blocks (q0 : GoURL.Values) :
  (∀ o : CertificateSearchOptions.t,
     let q := CertificatesService_Search_query o q0 in
     adds q0 q "common_name" (nonempty (CertificateSearchOptions.CommonName o))
     ∧ adds q0 q "serial_number" (nonempty (CertificateSearchOptions.SerialNumber o))
     ∧ adds q0 q "status" (nonempty (CertificateSearchOptions.Status o))
     ∧ adds q0 q "profile_id" (nonempty (CertificateSearchOptions.ProfileID o))
     ∧ adds q0 q "tags" (CertificateSearchOptions.Tags o)
     ∧ adds q0 q "offset" (positive_int (CertificateSearchOptions.Offset o))
     ∧ adds q0 q "limit" (positive_int (CertificateSearchOptions.Limit o))
     ∧ ∀ k, k ∉ ["common_name"; "serial_number"; "status"; "profile_id";
                 "tags"; "offset"; "limit"; "sort_by"; "sort_order"] →
            GoURL.values q k = GoURL.values q0 k)
  ∧ (∀ o : BusinessUnitListOptions.t,
       let q := BusinessUnitsService_List_query o q0 in
       let both := (0 <? BusinessUnitListOptions.Offset o)
                   && (0 <? BusinessUnitListOptions.Limit o) in
       adds q0 q "name" (nonempty (BusinessUnitListOptions.Name o))
       ∧ adds q0 q "parent_id" (nonempty (BusinessUnitListOptions.ParentID o))
       ∧ adds q0 q "is_active" (pointed (BusinessUnitListOptions.IsActive o))
       ∧ adds q0 q "offset" (when both (GoFmt.d (BusinessUnitListOptions.Offset o)))
       ∧ adds q0 q "limit" (when both (GoFmt.d (BusinessUnitListOptions.Limit o)))
       ∧ adds q0 q "sort_by" (nonempty (BusinessUnitListOptions.SortBy o))
       ∧ adds q0 q "sort_order" (nonempty (BusinessUnitListOptions.SortOrder o))
       ∧ ∀ k, k ∉ ["name"; "parent_id"; "is_active"; "offset"; "limit";
                   "sort_by"; "sort_order"] →
              GoURL.values q k = GoURL.values q0 k)
  ∧ (∀ o : CertificateOwnerListOptions.t,
       let q := CertificateOwnersService_List_query o q0 in
       adds q0 q "email" (nonempty (CertificateOwnerListOptions.Email o))
       ∧ adds q0 q "first_name" (nonempty (CertificateOwnerListOptions.FirstName o))
       ∧ adds q0 q "last_name" (nonempty (CertificateOwnerListOptions.LastName o))
       ∧ adds q0 q "is_active" (pointed (CertificateOwnerListOptions.IsActive o))
       ∧ adds q0 q "page" (positive_int (CertificateOwnerListOptions.Page o))
       ∧ adds q0 q "page_size" (positive_int (CertificateOwnerListOptions.PageSize o))
       ∧ adds q0 q "sort_by" (nonempty (CertificateOwnerListOptions.SortBy o))
       ∧ adds q0 q "sort_order" (nonempty (CertificateOwnerListOptions.SortOrder o))
       ∧ ∀ k, k ∉ ["email"; "first_name"; "last_name"; "is_active"; "page";
                   "page_size"; "sort_by"; "sort_order"] →
              GoURL.values q k = GoURL.values q0 k)
  ∧ (∀ o : EnrollmentDetailsOptions.t,
       let q := EnrollmentsService_ListDetails_query o q0 in
       adds q0 q "status" (nonempty (EnrollmentDetailsOptions.Status o))
       ∧ adds q0 q "profile_id" (nonempty (EnrollmentDetailsOptions.ProfileID o))
       ∧ adds q0 q "page" (positive_int (EnrollmentDetailsOptions.Page o))
       ∧ adds q0 q "page_size" (positive_int (EnrollmentDetailsOptions.PageSize o))
       ∧ adds q0 q "sort_by" (nonempty (EnrollmentDetailsOptions.SortBy o))
       ∧ adds q0 q "sort_order" (nonempty (EnrollmentDetailsOptions.SortOrder o))
       ∧ ∀ k, k ∉ ["status"; "profile_id"; "page"; "page_size"; "sort_by";
                   "sort_order"] →
              GoURL.values q k = GoURL.values q0 k)
  ∧ (∀ o : ProfileListOptions.t,
       let q := ProfilesService_List_query o q0 in
       adds q0 q "name" (nonempty (ProfileListOptions.Name o))
       ∧ adds q0 q "type" (nonempty (ProfileListOptions.Type_ o))
       ∧ adds q0 q "status" (nonempty (ProfileListOptions.Status o))
       ∧ adds q0 q "enrollment_method" (nonempty (ProfileListOptions.EnrollmentMethod o))
       ∧ adds q0 q "page" (positive_int (ProfileListOptions.Page o))
       ∧ adds q0 q "page_size" (positive_int (ProfileListOptions.PageSize o))
       ∧ adds q0 q "sort_by" (nonempty (ProfileListOptions.SortBy o))
       ∧ adds q0 q "sort_order" (nonempty (ProfileListOptions.SortOrder o))
       ∧ ∀ k, k ∉ ["name"; "type"; "status"; "enrollment_method"; "page";
                   "page_size"; "sort_by"; "sort_order"] →
              GoURL.values q k = GoURL.values q0 k)
  ∧ (∀ call ctx st r,
       (call_request call ctx st).1 = Ok r →
       wire (call_run call ctx st) = wire st ++ [r])
  ∧ (∀ ctx st httpReq,
       (NewRequest ctx GoHTTP.MethodGet "certificate-search" nil_interface st).1
         = Ok httpReq →
       ∀ o, (call_request (Call_CertificatesService_Search (Some o)) ctx st).1
            = Ok (with_query httpReq
                    (CertificatesService_Search_query o
                       (GoURL.Query (Request.URL httpReq)))))
  ∧ (∀ ctx st httpReq,
       (NewRequest ctx GoHTTP.MethodGet "business-unit" nil_interface st).1
         = Ok httpReq →
       ∀ o, (call_request (Call_BusinessUnitsService_List (Some o)) ctx st).1
            = Ok (with_query httpReq
                    (BusinessUnitsService_List_query o
                       (GoURL.Query (Request.URL httpReq)))))
  ∧ (∀ ctx st httpReq,
       (NewRequest ctx GoHTTP.MethodGet "certificate-owners" nil_interface st).1
         = Ok httpReq →
       ∀ o, (call_request (Call_CertificateOwnersService_List (Some o)) ctx st).1
            = Ok (with_query httpReq
                    (CertificateOwnersService_List_query o
                       (GoURL.Query (Request.URL httpReq)))))
  ∧ (∀ ctx st httpReq,
       (NewRequest ctx GoHTTP.MethodGet "enrollment-details" nil_interface st).1
         = Ok httpReq →
       ∀ o, (call_request (Call_EnrollmentsService_ListDetails (Some o)) ctx st).1
            = Ok (with_query httpReq
                    (EnrollmentsService_ListDetails_query o
                       (GoURL.Query (Request.URL httpReq)))))
  ∧ (∀ ctx st httpReq,
       (NewRequest ctx GoHTTP.MethodGet "profiles" nil_interface st).1
         = Ok httpReq →
       ∀ o, (call_request (Call_ProfilesService_List (Some o)) ctx st).1
            = Ok (with_query httpReq
                    (ProfilesService_List_query o
                       (GoURL.Query (Request.URL httpReq)))))
  ∧ (∀ (q : GoURL.Values) piece,
       piece ∈ GoURL.encode_pieces q
       ↔ ∃ k v, v ∈ GoURL.values q k
                ∧ piece = GoURL.QueryEscape k +:+ "=" +:+ GoURL.QueryEscape v).
Proof.
  split; [|split; [|split; [|split; [|split]]]].
  - intros o q. subst q. cbv beta delta [CertificatesService_Search_query].
    repeat split; try (intros k Hk); solve_adds.
  - intros o q both. subst q both. cbv beta delta [BusinessUnitsService_List_query].
    repeat split; try (intros k Hk); solve_adds.
  - intros o q. subst q. cbv beta delta [CertificateOwnersService_List_query].
    repeat split; try (intros k Hk); solve_adds.
  - intros o q. subst q. cbv beta delta [EnrollmentsService_ListDetails_query].
    repeat split; try (intros k Hk); solve_adds.
  - intros o q. subst q. cbv beta delta [ProfilesService_List_query].
    repeat split; try (intros k Hk); solve_adds.
  - split.
    { intros call ctx st r Hr. by rewrite call_wire, Hr. }
    repeat split; try apply elem_of_encode_pieces.
    all: intros ctx st httpReq Hreq o; simpl; rewrite bind_run, Hreq; done.
Qed.

(** C2, as the code has it by design.  In the query a list method
    encodes, each string filter the method reads is added exactly when
    it is not empty, each [IsActive] pointer exactly when it is not nil,
    each tag of [Search] once, and [sort_by] and [sort_order] of the
    four methods other than [Search] exactly when not empty.  A
    pagination number that is zero or negative is never added.
    [BusinessUnits.List] adds [offset] and [limit] together, exactly
    when both are positive, and [Search] adds both when both are
    positive.  No key changes other than the filter keys of the method
    and the pagination and sort keys [offset], [limit], [page],
    [page_size], [sort_by] and [sort_order].  The request sent is the
    one [NewRequest] built with these values encoded as its query. *)
Theorem list_options_query (q0 : GoURL.Values) :
  (∀ o : CertificateSearchOptions.t,
     let q := CertificatesService_Search_query o q0 in
     adds q0 q "common_name" (nonempty (CertificateSearchOptions.CommonName o))
     ∧ adds q0 q "serial_number" (nonempty (CertificateSearchOptions.SerialNumber o))
     ∧ adds q0 q "status" (nonempty (CertificateSearchOptions.Status o))
     ∧ adds q0 q "profile_id" (nonempty (CertificateSearchOptions.ProfileID o))
     ∧ adds q0 q "tags" (CertificateSearchOptions.Tags o)
     ∧ (0 < CertificateSearchOptions.Offset o
        ∧ 0 < CertificateSearchOptions.Limit o →
        adds q0 q "offset" [GoFmt.d (CertificateSearchOptions.Offset o)]
        ∧ adds q0 q "limit" [GoFmt.d (CertificateSearchOptions.Limit o)])
     ∧ (CertificateSearchOptions.Offset o ≤ 0 → adds q0 q "offset" [])
     ∧ (CertificateSearchOptions.Limit o ≤ 0 → adds q0 q "limit" [])
     ∧ ∀ k, k ∉ ["common_name"; "serial_number"; "status"; "profile_id";
                 "tags"; "offset"; "limit"; "page"; "page_size";
                 "sort_by"; "sort_order"] →
            GoURL.values q k = GoURL.values q0 k)
  ∧ (∀ o : BusinessUnitListOptions.t,
       let q := BusinessUnitsService_List_query o q0 in
       let both := (0 <? BusinessUnitListOptions.Offset o)
                   && (0 <? BusinessUnitListOptions.Limit o) in
       adds q0 q "name" (nonempty (BusinessUnitListOptions.Name o))
       ∧ adds q0 q "parent_id" (nonempty (BusinessUnitListOptions.ParentID o))
       ∧ adds q0 q "is_active" (pointed (BusinessUnitListOptions.IsActive o))
       ∧ adds q0 q "offset" (when both (GoFmt.d (BusinessUnitListOptions.Offset o)))
       ∧ adds q0 q "limit" (when both (GoFmt.d (BusinessUnitListOptions.Limit o)))
       ∧ adds q0 q "sort_by" (nonempty (BusinessUnitListOptions.SortBy o))
       ∧ adds q0 q "sort_order" (nonempty (BusinessUnitListOptions.SortOrder o))
       ∧ ∀ k, k ∉ ["name"; "parent_id"; "is_active"; "offset"; "limit";
                   "page"; "page_size"; "sort_by"; "sort_order"] →
              GoURL.values q k = GoURL.values q0 k)
  ∧ (∀ o : CertificateOwnerListOptions.t,
       let q := CertificateOwnersService_List_query o q0 in
       let p := CertificateOwnerListOptions.Pagination o in
       adds q0 q "email" (nonempty (CertificateOwnerListOptions.Email o))
       ∧ adds q0 q "first_name" (nonempty (CertificateOwnerListOptions.FirstName o))
       ∧ adds q0 q "last_name" (nonempty (CertificateOwnerListOptions.LastName o))
       ∧ adds q0 q "is_active" (pointed (CertificateOwnerListOptions.IsActive o))
       ∧ adds q0 q "sort_by" (nonempty (CertificateOwnerListOptions.SortBy o))
       ∧ adds q0 q "sort_order" (nonempty (CertificateOwnerListOptions.SortOrder o))
       ∧ (PaginationParams.Offset p ≤ 0 → adds q0 q "offset" [])
       ∧ (PaginationParams.Limit p ≤ 0 → adds q0 q "limit" [])
       ∧ (PaginationParams.Page p ≤ 0 → adds q0 q "page" [])
       ∧ (PaginationParams.PageSize p ≤ 0 → adds q0 q "page_size" [])
       ∧ ∀ k, k ∉ ["email"; "first_name"; "last_name"; "is_active";
                   "offset"; "limit"; "page"; "page_size";
                   "sort_by"; "sort_order"] →
              GoURL.values q k = GoURL.values q0 k)
  ∧ (∀ o : EnrollmentDetailsOptions.t,
       let q := EnrollmentsService_ListDetails_query o q0 in
       let p := EnrollmentDetailsOptions.Pagination o in
       adds q0 q "status" (nonempty (EnrollmentDetailsOptions.Status o))
       ∧ adds q0 q "profile_id" (nonempty (EnrollmentDetailsOptions.ProfileID o))
       ∧ adds q0 q "sort_by" (nonempty (EnrollmentDetailsOptions.SortBy o))
       ∧ adds q0 q "sort_order" (nonempty (EnrollmentDetailsOptions.SortOrder o))
       ∧ (PaginationParams.Offset p ≤ 0 → adds q0 q "offset" [])
       ∧ (PaginationParams.Limit p ≤ 0 → adds q0 q "limit" [])
       ∧ (PaginationParams.Page p ≤ 0 → adds q0 q "page" [])
       ∧ (PaginationParams.PageSize p ≤ 0 → adds q0 q "page_size" [])
       ∧ ∀ k, k ∉ ["status"; "profile_id"; "offset"; "limit"; "page";
                   "page_size"; "sort_by"; "sort_order"] →
              GoURL.values q k = GoURL.values q0 k)
  ∧ (∀ o : ProfileListOptions.t,
       let q := ProfilesService_List_query o q0 in
       let p := ProfileListOptions.Pagination o in
       adds q0 q "name" (nonempty (ProfileListOptions.Name o))
       ∧ adds q0 q "type" (nonempty (ProfileListOptions.Type_ o))
       ∧ adds q0 q "status" (nonempty (ProfileListOptions.Status o))
       ∧ adds q0 q "enrollment_method" (nonempty (ProfileListOptions.EnrollmentMethod o))
       ∧ adds q0 q "sort_by" (nonempty (ProfileListOptions.SortBy o))
       ∧ adds q0 q "sort_order" (nonempty (ProfileListOptions.SortOrder o))
       ∧ (PaginationParams.Offset p ≤ 0 → adds q0 q "offset" [])
       ∧ (PaginationParams.Limit p ≤ 0 → adds q0 q "limit" [])
       ∧ (PaginationParams.Page p ≤ 0 → adds q0 q "page" [])
       ∧ (PaginationParams.PageSize p ≤ 0 → adds q0 q "page_size" [])
       ∧ ∀ k, k ∉ ["name"; "type"; "status"; "enrollment_method"; "offset";
                   "limit"; "page"; "page_size"; "sort_by"; "sort_order"] →
              GoURL.values q k = GoURL.values q0 k)
  ∧ (∀ call ctx st r,
       (call_request call ctx st).1 = Ok r →
       wire (call_run call ctx st) = wire st ++ [r])
  ∧ (∀ ctx st httpReq,
       (NewRequest ctx GoHTTP.MethodGet "certificate-search" nil_interface st).1
         = Ok httpReq →
       ∀ o, (call_request (Call_CertificatesService_Search (Some o)) ctx st).1
            = Ok (with_query httpReq
                    (CertificatesService_Search_query o
                       (GoURL.Query (Request.URL httpReq)))))
  ∧ (∀ ctx st httpReq,
       (NewRequest ctx GoHTTP.MethodGet "business-unit" nil_interface st).1
         = Ok httpReq →
       ∀ o, (call_request (Call_BusinessUnitsService_List (Some o)) ctx st).1
            = Ok (with_query httpReq
                    (BusinessUnitsService_List_query o
                       (GoURL.Query (Request.URL httpReq)))))
  ∧ (∀ ctx st httpReq,
       (NewRequest ctx GoHTTP.MethodGet "certificate-owners" nil_interface st).1
         = Ok httpReq →
       ∀ o, (call_request (Call_CertificateOwnersService_List (Some o)) ctx st).1
            = Ok (with_query httpReq
                    (CertificateOwnersService_List_query o
                       (GoURL.Query (Request.URL httpReq)))))
  ∧ (∀ ctx st httpReq,
       (NewRequest ctx GoHTTP.MethodGet "enrollment-details" nil_interface st).1
         = Ok httpReq →
       ∀ o, (call_request (Call_EnrollmentsService_ListDetails (Some o)) ctx st).1
            = Ok (with_query httpReq
                    (EnrollmentsService_ListDetails_query o
                       (GoURL.Query (Request.URL httpReq)))))
  ∧ (∀ ctx st httpReq,
       (NewRequest ctx GoHTTP.MethodGet "profiles" nil_interface st).1
         = Ok httpReq →
       ∀ o, (call_request (Call_ProfilesService_List (Some o)) ctx st).1
            = Ok (with_query httpReq
                    (ProfilesService_List_query o
                       (GoURL.Query (Request.URL httpReq)))))
  ∧ (∀ (q : GoURL.Values) piece,
       piece ∈ GoURL.encode_pieces q
       ↔ ∃ k v, v ∈ GoURL.values q k
                ∧ piece = GoURL.QueryEscape k +:+ "=" +:+ GoURL.QueryEscape v).
Proof.
  assert (Hpos : ∀ n, 0 < n → positive_int n = [GoFmt.d n]).
  { intros n Hn. unfold positive_int, when.
    by destruct (0 <? n) eqn:E; [|apply Z.ltb_ge in E; lia]. }
  assert (Hneg : ∀ n, n ≤ 0 → positive_int n = []).
  { intros n Hn. unfold positive_int, when.
    by destruct (0 <? n) eqn:E; [apply Z.ltb_lt in E; lia|]. }
  destruct (query_blocks q0) as (HS & HB & HO & HE & HP & Hrest).
  split; [|split; [|split; [|split; [|split]]]]; [| | | | |exact Hrest].
  - intros o q. subst q.
    destruct (HS o) as (H1 & H2 & H3 & H4 & H5 & Hoff & Hlim & Hfr).
    repeat (split; [done|]).
    split; [intros [Ho Hl]; by rewrite <- (Hpos _ Ho), <- (Hpos _ Hl)|].
    split; [intros Ho; by rewrite <- (Hneg _ Ho)|].
    split; [intros Hl; by rewrite <- (Hneg _ Hl)|].
    intros k Hk. apply Hfr. intros Hin. apply Hk. revert Hin.
    rewrite !elem_of_cons, !elem_of_nil. tauto.
  - intros o q both. subst q both.
    destruct (HB o) as (H1 & H2 & H3 & H4 & H5 & H6 & H7 & Hfr).
    repeat (split; [done|]).
    intros k Hk. apply Hfr. intros Hin. apply Hk. revert Hin.
    rewrite !elem_of_cons, !elem_of_nil. tauto.
  - intros o q p. subst q p.
    destruct (HO o) as (H1 & H2 & H3 & H4 & Hpg & Hps & H7 & H8 & Hfr).
    repeat (split; [done|]).
    split; [intros _; unfold adds; rewrite app_nil_r; apply Hfr;
            rewrite !elem_of_cons, elem_of_nil; intros Hin;
            repeat (destruct Hin as [Hin|Hin]; [discriminate Hin|]); done|].
    split; [intros _; unfold adds; rewrite app_nil_r; apply Hfr;
            rewrite !elem_of_cons, elem_of_nil; intros Hin;
            repeat (destruct Hin as [Hin|Hin]; [discriminate Hin|]); done|].
    split; [intros Hn; unfold CertificateOwnerListOptions.Page in Hpg;
            by rewrite <- (Hneg _ Hn)|].
    split; [intros Hn; unfold CertificateOwnerListOptions.PageSize in Hps;
            by rewrite <- (Hneg _ Hn)|].
    intros k Hk. apply Hfr. intros Hin. apply Hk. revert Hin.
    rewrite !elem_of_cons, !elem_of_nil. tauto.
  - intros o q p. subst q p.
    destruct (HE o) as (H1 & H2 & Hpg & Hps & H5 & H6 & Hfr).
    repeat (split; [done|]).
    split; [intros _; unfold adds; rewrite app_nil_r; apply Hfr;
            rewrite !elem_of_cons, elem_of_nil; intros Hin;
            repeat (destruct Hin as [Hin|Hin]; [discriminate Hin|]); done|].
    split; [intros _; unfold adds; rewrite app_nil_r; apply Hfr;
            rewrite !elem_of_cons, elem_of_nil; intros Hin;
            repeat (destruct Hin as [Hin|Hin]; [discriminate Hin|]); done|].
    split; [intros Hn; unfold EnrollmentDetailsOptions.Page in Hpg;
            by rewrite <- (Hneg _ Hn)|].
    split; [intros Hn; unfold EnrollmentDetailsOptions.PageSize in Hps;
            by rewrite <- (Hneg _ Hn)|].
    intros k Hk. apply Hfr. intros Hin. apply Hk. revert Hin.
    rewrite !elem_of_cons, !elem_of_nil. tauto.
  - intros o q p. subst q p.
    destruct (HP o) as (H1 & H2 & H3 & H4 & Hpg & Hps & H7 & H8 & Hfr).
    repeat (split; [done|]).
    split; [intros _; unfold adds; rewrite app_nil_r; apply Hfr;
            rewrite !elem_of_cons, elem_of_nil; intros Hin;
            repeat (destruct Hin as [Hin|Hin]; [discriminate Hin|]); done|].
    split; [intros _; unfold adds; rewrite app_nil_r; apply Hfr;
            rewrite !elem_of_cons, elem_of_nil; intros Hin;
            repeat (destruct Hin as [Hin|Hin]; [discriminate Hin|]); done|].
    split; [intros Hn; unfold ProfileListOptions.Page in Hpg;
            by rewrite <- (Hneg _ Hn)|].
    split; [intros Hn; unfold ProfileListOptions.PageSize in Hps;
            by rewrite <- (Hneg _ Hn)|].
    intros k Hk. apply Hfr. intros Hin. apply Hk. revert Hin.
    rewrite !elem_of_cons, !elem_of_nil. tauto.
Qed.

End RequestProperties.

(** * The client at work on the reference library *)

Section Running.
#[local] Existing Instance Reference.stdlib.
#[local] Existing Instance Reference.schema.
#[local] Existing Instance Reference.APIError_dec.
#[local] Existing Instance Reference.value_dec.
#[local] Existing Instance Reference.value_enc.

(** [NewClient] on the key [test-key] returns the demo client. *)
Example NewClient_default :
  NewClient "test-key" [] = Ok (Reference.demo_client 0).
Proof. reflexivity. Qed.

Example NewClient_needs_key : is_Ok (NewClient "" []) = false.
Proof. reflexivity. Qed.

(** The request of the test [TestClient_NewRequest]. *)
Example NewRequest_test_URL :
  Reference.lines
    (mkState (Reference.demo_client 0)
       match (NewRequest ctx_Background "GET" "test" nil_interface
                (Reference.demo 0)).1 with
       | Ok r => [r]
       | Err _ => []
       end [])
  = ["GET https://one.digicert.com/mpki/api/v1/test"].
Proof. by vm_compute. Qed.

(** Only one leading slash is stripped: a path that begins with two
    keeps one of them. *)
Example NewRequest_two_slashes :
  Reference.lines
    (mkState (Reference.demo_client 0)
       match (NewRequest ctx_Background "GET" "//test" nil_interface
                (Reference.demo 0)).1 with
       | Ok r => [r]
       | Err _ => []
       end [])
  = ["GET https://one.digicert.com/mpki/api/v1//test"].
Proof. by vm_compute. Qed.

(** The test [successful business units listing with filters]. *)
Example BusinessUnits_List_filtered :
  Reference.lines
    (BusinessUnitsService_List ctx_Background (Some Reference.units_filtered)
       (Reference.demo 0)).2
  = ["GET https://one.digicert.com/mpki/api/v1/business-unit?is_active=true&limit=10&name=Engineering&offset=20"].
Proof. by vm_compute. Qed.

(** [Certificates.Search] never reads [SortBy] and [SortOrder], which
    the other four list methods send as [sort_by] and [sort_order]. *)
Example Search_drops_sort :
  Reference.queries
    (CertificatesService_Search ctx_Background (Some Reference.search_sorted)
       (Reference.demo 0)).2
  = [""].
Proof. by vm_compute. Qed.

(** The test [empty response body]: the result is the zero value and
    there is no error. *)
Example Search_empty_body :
  (CertificatesService_Search ctx_Background None (Reference.demo 0)).1.1.1
    = Some (zero : CertificateSearchResponse)
  ∧ (CertificatesService_Search ctx_Background None (Reference.demo 0)).1.2
    = None.
Proof. by vm_compute. Qed.

(** A transport error is returned as it is, after one request. *)
Example transport_error_once :
  (CertificatesService_Get ctx_Background "ABC123" (Reference.demo 4)).1
    = (None, None, Some (Err_std "net/http" "context deadline exceeded"))
  ∧ length (wire (CertificatesService_Get ctx_Background "ABC123"
                    (Reference.demo 4)).2) = 1%nat.
Proof. by vm_compute. Qed.

(** ** Witnesses *)

Lemma NewRequest_headers_witness :
  ∃ req st',
    NewRequest ctx_Background "POST" "test" (Some Reference.revoke_body)
      (Reference.demo 0) = (Ok req, st')
    ∧ GoHTTP.Get (Request.Header req) "X-API-Key" = "test-key"
    ∧ GoHTTP.Get (Request.Header req) "Accept" = "application/json"
    ∧ GoHTTP.Get (Request.Header req) "User-Agent" = "go-digicert/1.0"
    ∧ GoHTTP.Get (Request.Header req) "Content-Type" = "application/json".
Proof.
  destruct (NewRequest ctx_Background "POST" "test" (Some Reference.revoke_body)
              (Reference.demo 0)) as [[req|e] st'] eqn:E.
  - exists req, st'. split; [reflexivity|].
    destruct (NewRequest_headers _ _ _ _ _ _ _ E) as (Hk & Ha & Hu & _ & Hc).
    repeat split; assumption.
  - vm_compute in E. discriminate E.
Defined.

Lemma NewRequest_leading_slash_witness :
  GoStrings.HasPrefix "certificate/123" "/" = false
  ∧ (∃ r,
       (NewRequest ctx_Background "GET" "/certificate/123" nil_interface
          (Reference.demo 0)).1 = Ok r
       ∧ (NewRequest ctx_Background "GET" "certificate/123" nil_interface
            (Reference.demo 0)).1 = Ok r
       ∧ Reference.String_ (Request.URL r)
         = "https://one.digicert.com/mpki/api/v1/certificate/123")
  ∧ (∃ r,
       (NewRequest ctx_Background "GET" "//certificate/123" nil_interface
          (Reference.demo 0)).1 = Ok r
       ∧ Reference.String_ (Request.URL r)
         = "https://one.digicert.com/mpki/api/v1//certificate/123").
Proof.
  split; [reflexivity|].
  destruct (NewRequest_leading_slash ctx_Background "GET" nil_interface
              "certificate/123" (Reference.demo 0) eq_refl)
    as (Heq & _ & Hone & Hslash).
  split.
  - edestruct Hone as (r & Hr & Hurl & _);
      [vm_compute; reflexivity | reflexivity | reflexivity | discriminate
      | vm_compute; reflexivity |].
    exists r. split; [exact Hr|]. split; [by rewrite <- Heq|].
    rewrite Hurl. by vm_compute.
  - edestruct (Hslash "/certificate/123") as (r & Hr & Hurl & _);
      [vm_compute; reflexivity | reflexivity | reflexivity | discriminate
      | vm_compute; reflexivity |].
    exists r. split; [exact Hr|]. rewrite Hurl. by vm_compute.
Defined.

Lemma Do_error_shapes_witness :
  ∃ resp data,
    http_Client_Do (Client.client (the_client (Reference.demo 1)))
      (wire (Reference.demo 1)) Reference.demo_request = Ok resp
    ∧ io_ReadAll resp = (data, None)
    ∧ HTTPResponse.StatusCode resp = 404
    ∧ (Do ctx_Background Reference.demo_request nil_interface
         (Reference.demo 1)).1.1.2
      = Some (Err_APIError
                (APIError.mk 404 "NOT_FOUND" "Resource not found" [] "")).
Proof.
  destruct (http_Client_Do (Client.client (the_client (Reference.demo 1)))
              (wire (Reference.demo 1)) Reference.demo_request)
    as [resp|e] eqn:Hdo; [|vm_compute in Hdo; discriminate Hdo].
  exists resp, (HTTPResponse.Content resp).
  assert (Hread : io_ReadAll resp = (HTTPResponse.Content resp, None)).
  { vm_compute in Hdo. injection Hdo as <-. reflexivity. }
  assert (Hs : HTTPResponse.StatusCode resp = 404).
  { vm_compute in Hdo. injection Hdo as <-. reflexivity. }
  split; [reflexivity|]. split; [exact Hread|]. split; [exact Hs|].
  destruct (Do_error_shapes ctx_Background Reference.demo_request
              nil_interface (Reference.demo 1) resp _ Hdo Hread)
    as (Hout & _ & _).
  rewrite Hs in Hout.
  assert (Hle : 300 ≤ 404) by (vm_compute; discriminate).
  specialize (Hout (or_intror Hle)).
  revert Hout. vm_compute in Hdo. injection Hdo as <-. intros Hout.
  change (json_Unmarshal
            (HTTPResponse.Content
               (HTTPResponse.mk 404 ∅
                  (GoJSON.text
                     "{'code':'NOT_FOUND','message':'Resource not found'}"
                   +:+ Reference.newline) None)) APIError.zero)
    with (APIError.mk 0 "NOT_FOUND" "Resource not found" [] "", None : error)
    in Hout.
  destruct Hout as ([sc code msg det rid] & -> & Hsc & Hcode & Hmsg & Hdet & Hrid).
  simpl in Hsc, Hcode, Hmsg, Hdet, Hrid. by subst.
Defined.

Lemma Do_decodes_success_witness :
  ∃ resp data,
    http_Client_Do (Client.client (the_client (Reference.demo 8)))
      (wire (Reference.demo 8)) Reference.demo_request = Ok resp
    ∧ io_ReadAll resp = (data, None)
    ∧ 200 ≤ HTTPResponse.StatusCode resp < 300
    ∧ data ≠ ""
    ∧ (Do ctx_Background Reference.demo_request (Some GoJSON.Null)
         (Reference.demo 8)).1
      = (Some (Response.mk resp (Some data)), None,
         Some (GoJSON.Object [("status", GoJSON.Str "success")])).
Proof.
  destruct (http_Client_Do (Client.client (the_client (Reference.demo 8)))
              (wire (Reference.demo 8)) Reference.demo_request)
    as [resp|e] eqn:Hdo; [|vm_compute in Hdo; discriminate Hdo].
  exists resp, (HTTPResponse.Content resp).
  assert (Hread : io_ReadAll resp = (HTTPResponse.Content resp, None)).
  { vm_compute in Hdo. injection Hdo as <-. reflexivity. }
  assert (Hs : 200 ≤ HTTPResponse.StatusCode resp < 300).
  { vm_compute in Hdo. injection Hdo as <-. by vm_compute. }
  assert (Hne : HTTPResponse.Content resp ≠ "").
  { vm_compute in Hdo. injection Hdo as <-. by vm_compute. }
  split; [reflexivity|]. split; [exact Hread|]. split; [exact Hs|].
  split; [exact Hne|].
  destruct (Do_decodes_success ctx_Background Reference.demo_request
              GoJSON.Null (Reference.demo 8) resp _ Hdo Hread Hs)
    as (Hfull & _).
  rewrite (Hfull Hne).
  vm_compute in Hdo. injection Hdo as <-. reflexivity.
Defined.

Lemma revoke_unrevoke_witness :
  Reference.lines
    (CertificatesService_Revoke ctx_Background "ABC123"
       (Some Reference.revoke_body) (Reference.demo 0)).2
  = ["PUT https://one.digicert.com/mpki/api/v1/certificate/ABC123/revoke"]
  ∧ Reference.lines
      (CertificatesService_Unrevoke ctx_Background "ABC123" (Reference.demo 0)).2
    = ["DELETE https://one.digicert.com/mpki/api/v1/certificate/ABC123/revoke"].
Proof.
  split.
  - destruct (NewRequest ctx_Background GoHTTP.MethodPut
                ("certificate/" +:+ "ABC123" +:+ "/revoke")
                (Some (Some Reference.revoke_body)) (Reference.demo 0))
      as [[r|e] st1] eqn:E; [|vm_compute in E; discriminate E].
    destruct (@revoke_unrevoke Reference.stdlib Reference.schema
                Reference.APIError_dec ctx_Background "ABC123"
                (Some Reference.revoke_body) (Reference.demo 0))
      as (Hput & _).
    destruct (Hput r st1 E) as (Hwire & _).
    unfold Reference.lines. rewrite Hwire.
    vm_compute in E. injection E as <- _. reflexivity.
  - destruct (NewRequest ctx_Background GoHTTP.MethodDelete
                ("certificate/" +:+ "ABC123" +:+ "/revoke")
                nil_interface (Reference.demo 0))
      as [[r|e] st1] eqn:E; [|vm_compute in E; discriminate E].
    destruct (@revoke_unrevoke Reference.stdlib Reference.schema
                Reference.APIError_dec ctx_Background "ABC123"
                (Some Reference.revoke_body) (Reference.demo 0))
      as (_ & Hdelete & _).
    destruct (Hdelete r st1 E) as (Hwire & _).
    unfold Reference.lines. rewrite Hwire.
    vm_compute in E. injection E as <- _. reflexivity.
Defined.

(** ** Where the code departs from the recorded claims *)

(** C1 as recorded fails on four inputs: a 304 response yields an
    error though its status is neither 4xx nor 5xx; a 200 response
    whose body does not decode yields an error; a 400 response whose
    body is JSON of the wrong shape yields a [*HTTPError]; and a 500
    response whose body cannot be read yields the read error, which is
    of neither shape. *)
Lemma Do_errors_beyond_4xx_5xx :
  (Do ctx_Background Reference.demo_request nil_interface
     (Reference.demo 3)).1.1.2
  = Some (Err_HTTPError (HTTPError.mk 304 ""))
  ∧ (Do ctx_Background Reference.demo_request (Some GoJSON.Null)
       (Reference.demo 5)).1.1.2
    = Some (Err_wrap "failed to decode response: " Reference.syntax_error)
  ∧ (GoJSON.parse (GoJSON.text "{'code': 5}")
       = Some (GoJSON.Object [("code", GoJSON.Number "5")])
     ∧ (Do ctx_Background Reference.demo_request nil_interface
          (Reference.demo 6)).1.1.2
       = Some (Err_HTTPError (HTTPError.mk 400 (GoJSON.text "{'code': 5}"))))
  ∧ (Do ctx_Background Reference.demo_request nil_interface
       (Reference.demo 7)).1.1.2
    = Some (Err_std "io" "unexpected EOF").
Proof. by vm_compute. Qed.

(** C2 as recorded fails on pagination: [Search] omits a negative
    [Offset] and [Limit] though they are not zero, and
    [BusinessUnits.List] omits a positive [Offset] when [Limit] is zero
    and sends it when [Limit] is positive. *)
Lemma pagination_not_by_zero_alone :
  Reference.queries
    (CertificatesService_Search ctx_Background
       (Some (Reference.search_page (-10) (-5))) (Reference.demo 0)).2
  = [""]
  ∧ Reference.queries
      (BusinessUnitsService_List ctx_Background
         (Some (Reference.units_page 10 0)) (Reference.demo 0)).2
    = [""]
  ∧ Reference.queries
      (BusinessUnitsService_List ctx_Background
         (Some (Reference.units_page 10 5)) (Reference.demo 0)).2
    = ["limit=5&offset=10"].
Proof. by vm_compute. Qed.

(** C5 as recorded fails on the client [NewClient] returns: the path
    of its base URL is empty before the first [NewRequest] and a slash
    after it, and the URL prints differently. *)
Lemma NewRequest_writes_BaseURL :
  NewClient "test-key" [] = Ok (Reference.demo_client 0)
  ∧ GoURL.Path (Client.BaseURL (Reference.demo_client 0)) = ""
  ∧ Reference.String_ (Client.BaseURL (Reference.demo_client 0))
    = "https://one.digicert.com"
  ∧ GoURL.Path
      (Client.BaseURL
         (the_client
            (NewRequest ctx_Background "GET" "test" nil_interface
               (Reference.demo 0)).2))
    = "/"
  ∧ Reference.String_
      (Client.BaseURL
         (the_client
            (NewRequest ctx_Background "GET" "test" nil_interface
               (Reference.demo 0)).2))
    = "https://one.digicert.com/".
Proof. by vm_compute. Qed.

End Running.

(** * Further properties of the client *)

Section DoProperties.
Context `{StdLib}.
Context `{!JSONDecoder APIError.t}.

(** ** [Do] by what the transport answered *)

Lemma Do_answer {T} `{!JSONDecoder T} ctx req (v : option T) st :
  (Do ctx req v st).1
  = match answer st req with
    | TransportFailed e => (None, Some e, v)
    | ReadFailed resp e => (Some (Response.mk resp None), Some e, v)
    | Rejected resp data =>
        (Some (Response.mk resp (Some data)), checkError resp data, v)
    | Accepted resp data =>
        let response := Some (Response.mk resp (Some data)) in
        match v with
        | Some target =>
            if (0 <? String.length data)%nat then
              (response,
               match (json_Unmarshal data target).2 with
               | Some e => Some (Err_wrap "failed to decode response: " e)
               | None => None
               end,
               Some (json_Unmarshal data target).1)
            else (response, None, v)
        | None => (response, None, v)
        end
    end.
Proof.
  unfold answer.
  destruct (http_Client_Do _ _ _) as [resp|e] eqn:Hdo.
  - destruct (io_ReadAll resp) as [data [e|]] eqn:Hread.
    + unfold Do, client_Do. rewrite bind_run.
      cbv beta iota delta [fst snd]. by rewrite Hdo, Hread.
    + rewrite (Do_received ctx req v st resp data Hdo Hread).
      by destruct (_ || _).
  - unfold Do, client_Do. rewrite bind_run.
    cbv beta iota delta [fst snd]. by rewrite Hdo.
Qed.

Lemma checkError_cases resp data :
  (∃ e, checkError resp data = Some (Err_APIError e)
        ∧ APIError.StatusCode e = HTTPResponse.StatusCode resp)
  ∨ checkError resp data
    = Some (Err_HTTPError (HTTPError.mk (HTTPResponse.StatusCode resp) data)).
Proof.
  unfold checkError.
  destruct (json_Unmarshal data APIError.zero) as [a [e|]]; [by right|].
  left. eexists. split; [done|]. by destruct a.
Qed.

(** X1.  The response [Do] returns.  It is nil exactly when the HTTP
    client returned an error, which [Do] returns as it is; when the
    body cannot be read the response comes back with a nil [Body] and
    the read error as it is; otherwise [Body] holds the bytes read,
    whatever the status.  In the first two cases the target is not
    touched. *)
Theorem Do_response {T} `{!JSONDecoder T} ctx req (v : option T) st :
  let out := (Do ctx req v st).1 in
  let sent := http_Client_Do (Client.client (the_client st)) (wire st) req in
  (out.1.1 = None ↔ is_Ok sent = false)
  ∧ (∀ e, sent = Err e → out = (None, Some e, v))
  ∧ (∀ resp e,
       sent = Ok resp → HTTPResponse.ReadErr resp = Some e →
       out = (Some (Response.mk resp None), Some e, v))
  ∧ (∀ resp,
       sent = Ok resp → HTTPResponse.ReadErr resp = None →
       out.1.1 = Some (Response.mk resp (Some (HTTPResponse.Content resp)))).
Proof.
  intros out sent. subst out. rewrite Do_answer. unfold answer.
  fold sent. destruct sent as [resp|e]; simpl.
  - unfold io_ReadAll. destruct (HTTPResponse.ReadErr resp) as [e|] eqn:Hr.
    + simpl. repeat split; try done.
      * intros resp' e' [= <-]. rewrite Hr. by intros [= <-].
      * intros resp' [= <-]. by rewrite Hr.
    + destruct (_ || _); simpl.
      * repeat split; try done.
        -- intros resp' e' [= <-]. by rewrite Hr.
        -- by intros resp' [= <-] _.
      * destruct v as [target|]; [destruct (0 <? _)%nat|]; simpl;
          (repeat split; try done;
           [ intros resp' e' [= <-]; by rewrite Hr
           | by intros resp' [= <-] _ ]).
  - repeat split; try done. by intros e' [= <-].
Qed.

(** X2.  [Do] writes to the target in one case only: the response was
    received and read, its status is within 200..299, its body is not
    empty and the target is not nil.  In every other case, error or
    not, the target is as it was. *)
Theorem Do_target {T} `{!JSONDecoder T} ctx req (v : option T) st :
  let out := (Do ctx req v st).1 in
  let sent := http_Client_Do (Client.client (the_client st)) (wire st) req in
  out.2 = v
  ∨ ∃ resp target,
      sent = Ok resp
      ∧ HTTPResponse.ReadErr resp = None
      ∧ 200 ≤ HTTPResponse.StatusCode resp < 300
      ∧ HTTPResponse.Content resp ≠ ""
      ∧ v = Some target
      ∧ out.2 = Some (json_Unmarshal (HTTPResponse.Content resp) target).1.
Proof.
  intros out sent. subst out. rewrite Do_answer. unfold answer. fold sent.
  destruct sent as [resp|e]; [|by left].
  unfold io_ReadAll. destruct (HTTPResponse.ReadErr resp) as [e|] eqn:Hr;
    [by left|].
  destruct (_ || _) eqn:Hs; [by left|].
  destruct v as [target|]; [|by left]. simpl.
  destruct (0 <? _)%nat eqn:Hlen; [|by left].
  right. exists resp, target.
  apply orb_false_iff in Hs as [?%Z.ltb_ge ?%Z.leb_gt].
  apply length_pos_nonempty in Hlen. done.
Qed.

(** X3.  On a response received and read, the three predicates of
    errors.go applied to the error of [Do] tell the status of the
    response, whatever its body holds and whatever the target is:
    [IsNotFound] exactly on 404, [IsUnauthorized] exactly on 401,
    [IsForbidden] exactly on 403. *)
Theorem Do_status_predicates {T} `{!JSONDecoder T}
    ctx req (v : option T) st resp :
  http_Client_Do (Client.client (the_client st)) (wire st) req = Ok resp →
  HTTPResponse.ReadErr resp = None →
  let err := (Do ctx req v st).1.1.2 in
  (IsNotFound err = true ↔ HTTPResponse.StatusCode resp = 404)
  ∧ (IsUnauthorized err = true ↔ HTTPResponse.StatusCode resp = 401)
  ∧ (IsForbidden err = true ↔ HTTPResponse.StatusCode resp = 403).
Proof.
  intros Hdo Hr err. subst err. rewrite Do_answer. unfold answer.
  rewrite Hdo. unfold io_ReadAll. rewrite Hr.
  destruct (_ || _) eqn:Hs; simpl.
  - destruct (checkError_cases resp (HTTPResponse.Content resp))
      as [(e & -> & He)| ->]; simpl; rewrite ?He, !Z.eqb_eq; done.
  - apply orb_false_iff in Hs as [?%Z.ltb_ge ?%Z.leb_gt].
    destruct v as [target|]; [destruct (0 <? _)%nat|]; simpl;
      try destruct ((json_Unmarshal _ target).2); simpl;
      repeat split; try done; lia.
Qed.

End DoProperties.

Section CallProperties.
Context `{StdLib} `{Schema}.
Context `{!JSONDecoder APIError.t}.

(** The first statement of [NewRequest] does not change what the
    transport answers, and neither does a line printed. *)
Lemma answer_normalize st req out :
  answer (mkState (normalize (the_client st)) (wire st) out) req
  = answer st req.
Proof.
  unfold answer. simpl.
  by destruct (normalize_fields (the_client st)) as (-> & _ & _).
Qed.

(** A call returns what [NewRequest] and [Do] give it: the error of
    the construction without a response, or the response and the error
    of [Do]; a pointer result is set exactly when there is no error. *)
Lemma call_outcome_cases call ctx st :
  let out := call_outcome call ctx st in
  (result_kind out = NoResult
   ∨ result_kind out = SliceResult
   ∨ result_kind out = PointerResult (bool_decide (failure out = None)))
  ∧ match (call_request call ctx st).1 with
    | Err e => response out = None ∧ failure out = Some e
    | Ok r =>
        match answer st r with
        | TransportFailed e => response out = None ∧ failure out = Some e
        | ReadFailed resp e =>
            response out = Some (Response.mk resp None)
            ∧ failure out = Some e
        | Rejected resp data =>
            response out = Some (Response.mk resp (Some data))
            ∧ failure out = checkError resp data
        | Accepted resp data =>
            response out = Some (Response.mk resp (Some data))
            ∧ (failure out = None
               ∨ ∃ inner,
                   data ≠ "" ∧ result_kind out ≠ NoResult
                   ∧ failure out
                     = Some (Err_wrap "failed to decode response: " inner))
        end
    end.
Proof.
  destruct call; simpl; unfold_method; unfold outcome3, outcome2, outcome_slice;
    rewrite ?bind_run; step_NewRequest st;
    rewrite ?bind_run, ?ret_run; simpl; try (by auto);
    try match goal with
        | opts : option _ |- context [with_query] => destruct opts; simpl
        end;
    rewrite ?bind_run, ?ret_run; simpl;
    match goal with
    | |- context [Do ?ctx ?req ?v ?st1] =>
        let HA := fresh "HA" in
        pose proof (Do_answer ctx req v st1) as HA;
        rewrite answer_normalize in HA;
        destruct (Do ctx req v st1) as [[[resp err] v'] st2];
        cbv beta iota delta [fst] in HA; simpl
    end;
    match type of HA with
    | context [answer ?s ?r] =>
        match goal with
        | |- context [answer ?s' ?r'] => change (answer s' r') with (answer s r)
        end;
        destruct (answer s r) as [e|resp0 e|resp0 data|resp0 data]
    end;
    cbv zeta in HA;
    try match type of HA with
        | context [checkError ?r ?d] =>
            destruct (checkError_cases r d) as [(? & HC & _)|HC];
            rewrite HC in *
        end;
    try match type of HA with
        | context [(0 <? String.length ?d)%nat] =>
            let Hlen := fresh "Hlen" in
            destruct (0 <? String.length d)%nat eqn:Hlen;
            [apply length_pos_nonempty in Hlen|]
        end;
    try match type of HA with
        | context [json_Unmarshal ?d ?t] =>
            destruct (json_Unmarshal d t) as [? [?|]]
        end;
    simpl in HA; simplify_eq/=;
    (split; [by auto|]); split; try done; eauto 10.
Qed.

(** The predicates of errors.go on the error of a response that was
    received and read. *)
Lemma predicates_by_status (err : error) resp data :
  match (HTTPResponse.StatusCode resp <? 200)
        || (300 <=? HTTPResponse.StatusCode resp) with
  | true => err = checkError resp data
  | false => err = None ∨ ∃ m inner, err = Some (Err_wrap m inner)
  end →
  (IsNotFound err = true ↔ HTTPResponse.StatusCode resp = 404)
  ∧ (IsUnauthorized err = true ↔ HTTPResponse.StatusCode resp = 401)
  ∧ (IsForbidden err = true ↔ HTTPResponse.StatusCode resp = 403).
Proof.
  destruct (_ || _) eqn:Hs.
  - intros ->. destruct (checkError_cases resp data) as [(e & -> & He)| ->];
      simpl; rewrite ?He, !Z.eqb_eq; done.
  - apply orb_false_iff in Hs as [?%Z.ltb_ge ?%Z.leb_gt].
    intros [->|(m & inner & ->)]; simpl; repeat split; try done; lia.
Qed.

(** X4.  What a service method returns, for each of the 38 methods: a
    nil error comes with a response that is not nil, and a pointer
    result is not nil exactly when the error is nil. *)
Theorem call_result_contract call ctx st :
  let out := call_outcome call ctx st in
  (failure out = None → is_set (response out) = true)
  ∧ (∀ b, result_kind out = PointerResult b → (b = true ↔ failure out = None)).
Proof.
  intros out. destruct (call_outcome_cases call ctx st) as [Hkind Hcases].
  fold out in Hkind, Hcases. split.
  - intros Hnil. destruct ((call_request call ctx st).1) as [r|e].
    + destruct (answer st r) as [e|resp e|resp data|resp data];
        destruct Hcases as [Hresp Herr]; rewrite ?Hresp; try done;
        congruence.
    + destruct Hcases as [_ Herr]. congruence.
  - intros b Hb. rewrite Hb in Hkind.
    destruct Hkind as [?|[?|[= ->]]]; [done..|].
    by rewrite bool_decide_eq_true.
Qed.

(** X5.  Where the error and the response of a service method come
    from, for each of the 38 methods.  An error of [NewRequest] is
    returned as it is with a nil response and nothing is sent.
    Otherwise the response is the one of [Do]; an error of the HTTP
    client or of reading the body is returned as it is; a status
    outside 200..299 gives the error of [checkError]; a status within
    gives no error, or the wrapped decoding error, and the latter only on
    a body that is not empty and from a method that has a result. *)
Theorem call_errors call ctx st :
  let out := call_outcome call ctx st in
  match (call_request call ctx st).1 with
  | Err e => response out = None ∧ failure out = Some e
  | Ok r =>
      match answer st r with
      | TransportFailed e => response out = None ∧ failure out = Some e
      | ReadFailed resp e =>
          response out = Some (Response.mk resp None) ∧ failure out = Some e
      | Rejected resp data =>
          response out = Some (Response.mk resp (Some data))
          ∧ failure out = checkError resp data
      | Accepted resp data =>
          response out = Some (Response.mk resp (Some data))
          ∧ (failure out = None
             ∨ ∃ inner,
                 data ≠ "" ∧ result_kind out ≠ NoResult
                 ∧ failure out
                   = Some (Err_wrap "failed to decode response: " inner))
      end
  end.
Proof. apply call_outcome_cases. Qed.

(** X6.  For each of the 38 methods, when the response to the request
    it built was received and read, the predicates of errors.go on the
    error the method returns tell the status of that response:
    [IsNotFound] exactly on 404, [IsUnauthorized] exactly on 401,
    [IsForbidden] exactly on 403. *)
Theorem call_status_predicates call ctx st r resp :
  (call_request call ctx st).1 = Ok r →
  http_Client_Do (Client.client (the_client st)) (wire st) r = Ok resp →
  HTTPResponse.ReadErr resp = None →
  let err := failure (call_outcome call ctx st) in
  (IsNotFound err = true ↔ HTTPResponse.StatusCode resp = 404)
  ∧ (IsUnauthorized err = true ↔ HTTPResponse.StatusCode resp = 401)
  ∧ (IsForbidden err = true ↔ HTTPResponse.StatusCode resp = 403).
Proof.
  intros Hr Hdo Hread err.
  destruct (call_outcome_cases call ctx st) as [_ Hcases].
  rewrite Hr in Hcases. unfold answer in Hcases.
  rewrite Hdo in Hcases. unfold io_ReadAll in Hcases. rewrite Hread in Hcases.
  apply (predicates_by_status err resp (HTTPResponse.Content resp)).
  destruct (_ || _); destruct Hcases as [_ Herr]; [done|].
  destruct Herr as [?|(inner & _ & _ & ?)]; eauto.
Qed.

Lemma call_stdout call ctx st :
  stdout (call_run call ctx st) = stdout st ++ printed_by st (call, ctx).
Proof.
  unfold printed_by.
  destruct call; simpl; unfold_method;
    rewrite ?bind_run; step_NewRequest st;
    rewrite ?bind_run, ?ret_run, ?app_nil_r; simpl; try done;
    try match goal with
        | opts : option _ |- context [with_query] => destruct opts; simpl
        end;
    rewrite ?bind_run, ?ret_run; simpl;
    match goal with
    | |- context [Do ?ctx ?req ?v ?st1] =>
        let HD := fresh "HD" in
        pose proof (Do_state ctx req v st1) as HD;
        destruct (Do ctx req v st1) as [[[? [?|]] ?] ?];
        simpl in HD; subst; simpl
    end;
    rewrite ?app_nil_r; done.
Qed.


(** X7.  Of the 38 methods only [Certificates.Search] writes to
    standard output: one line, the URL of the request it is about to
    send, and none when the request could not be built.  Every other
    method leaves standard output as it was. *)
Theorem only_Search_prints call ctx st :
  stdout (call_run call ctx st)
  = stdout st ++ match call, (call_request call ctx st).1 with
                 | Call_CertificatesService_Search _, Ok r =>
                     [url_String (Request.URL r)]
                 | _, _ => []
                 end.
Proof. rewrite call_stdout. unfold printed_by. by destruct call. Qed.

(** X16.  Seven methods have no result besides the response and the
    error: [Certificates.Revoke] and [Unrevoke], [BusinessUnits.Delete]
    and [RemoveAdmin], [CertificateOwners.Delete],
    [AssignToCertificate] and [RemoveFromCertificate].  They hand [Do]
    a nil target, so on a response received and read with a status
    within 200..299 they return a nil error whatever the body holds,
    also when it is not JSON. *)
Theorem no_result_calls_accept_any_body call ctx st r resp :
  (call_request call ctx st).1 = Ok r →
  http_Client_Do (Client.client (the_client st)) (wire st) r = Ok resp →
  HTTPResponse.ReadErr resp = None →
  200 ≤ HTTPResponse.StatusCode resp < 300 →
  (call_kind call ctx st = NoResult
   ↔ match call with
     | Call_CertificatesService_Revoke _ _
     | Call_CertificatesService_Unrevoke _
     | Call_BusinessUnitsService_Delete _
     | Call_BusinessUnitsService_RemoveAdmin _ _
     | Call_CertificateOwnersService_Delete _
     | Call_CertificateOwnersService_AssignToCertificate _ _
     | Call_CertificateOwnersService_RemoveFromCertificate _ => True
     | _ => False
     end)
  ∧ (call_kind call ctx st = NoResult →
     call_outcome call ctx st
     = mkOutcome NoResult
         (Some (Response.mk resp (Some (HTTPResponse.Content resp)))) None).
Proof.
  intros Hr Hdo Hread [Hlo Hhi]. split.
  - unfold call_kind. destruct call; simpl; split; done.
  - intros Hkind.
    destruct (call_outcome_cases call ctx st) as [_ Hcases].
    rewrite Hr in Hcases. unfold answer in Hcases.
    rewrite Hdo in Hcases. unfold io_ReadAll in Hcases.
    rewrite Hread in Hcases.
    assert ((HTTPResponse.StatusCode resp <? 200)
            || (300 <=? HTTPResponse.StatusCode resp) = false) as Hs.
    { apply orb_false_iff. split; [apply Z.ltb_ge|apply Z.leb_gt]; lia. }
    rewrite Hs in Hcases. destruct Hcases as [Hresp Herr].
    unfold call_kind in Hkind.
    destruct (call_outcome call ctx st) as [kind response failure].
    simpl in *. subst kind response.
    destruct Herr as [->|(inner & _ & Hne & _)]; done.
Qed.

End CallProperties.

Section SentRequests.
Context `{StdLib} `{Schema}.
Context `{!JSONDecoder APIError.t}.

(** ** The requests the methods build *)

Lemma stamped_lookup {T} (c : Client.t) (body : option T) (k : string) :
  stamped c body !! k
  = if decide (k = "X-Api-Key") then Some [Client.apiKey c]
    else if decide (k = "User-Agent") then Some [Client.UserAgent c]
    else if decide (k = "Accept") then Some ["application/json"]
    else if decide (k = "Content-Type")
         then match body with Some _ => Some ["application/json"] | None => None end
    else None.
Proof.
  unfold stamped, GoHTTP.Set_.
  destruct canonical_keys as (-> & -> & -> & ->).
  repeat case_decide; subst; simplify_map_eq; try done;
    destruct body; by simplify_map_eq.
Qed.

Lemma NewRequest_shape {T} `{!JSONEncoder T}
    ctx method urlStr (body : option T) st req :
  (NewRequest ctx method urlStr body st).1 = Ok req →
  Request.Header req = stamped (normalize (the_client st)) body
  ∧ Request.Method req = (if String.eqb method "" then "GET" else method)
  ∧ is_set (Request.Body req) = is_set body
  ∧ Request.Ctx req = ctx.
Proof.
  destruct (NewRequest ctx method urlStr body st) as [r st'] eqn:HN.
  simpl. intros ->.
  destruct (NewRequest_Ok _ _ _ _ _ _ _ HN) as (rel & buf & req0 & _ & Hb & Hq & ->).
  destruct (http_NewRequestWithContext_Ok _ _ _ _ _ Hq) as (Hm & _ & Hbody & Hc & _).
  simpl. repeat split; try done.
  rewrite Hbody. unfold encode_body in Hb.
  destruct body as [b|]; [destruct (json_Encode b)|]; by inversion Hb.
Qed.

(** The result of [NewRequest] is read off the client as the first
    statement leaves it. *)
Lemma NewRequest_on_normalized {T} `{!JSONEncoder T}
    ctx method urlStr (body : option T) st :
  (NewRequest ctx method urlStr body st).1
  = (NewRequest ctx method urlStr body
       (mkState (normalize (the_client st)) [] [])).1.
Proof.
  destruct st as [c w o].
  unfold NewRequest, normalize, mbind, M_bind, mret, M_ret, get_client, set_client.
  simpl.
  destruct (GoStrings.HasSuffix (GoURL.Path (Client.BaseURL c)) "/") eqn:Hs;
    simpl.
  - rewrite Hs. simpl. repeat case_match; simplify_eq; done.
  - rewrite HasSuffix_app. simpl. repeat case_match; simplify_eq; done.
Qed.

Lemma NewRequest_normalized {T} `{!JSONEncoder T}
    ctx method urlStr (body : option T) st st' :
  normalize (the_client st) = normalize (the_client st') →
  (NewRequest ctx method urlStr body st).1
  = (NewRequest ctx method urlStr body st').1.
Proof.
  intros Hn.
  rewrite (NewRequest_on_normalized _ _ _ _ st),
    (NewRequest_on_normalized _ _ _ _ st').
  by rewrite Hn.
Qed.

(** Every call builds its request by one call of [NewRequest]; a list
    method then changes the URL only. *)
Lemma call_request_NewRequest call ctx st r :
  (call_request call ctx st).1 = Ok r →
  ∃ T (E : JSONEncoder T) method urlStr (body : option T) r0,
    (NewRequest ctx method urlStr body st).1 = Ok r0
    ∧ Request.Header r = Request.Header r0
    ∧ Request.Method r = Request.Method r0
    ∧ Request.Body r = Request.Body r0
    ∧ Request.Ctx r = Request.Ctx r0
    ∧ method ∈ ["GET"; "POST"; "PUT"; "DELETE"]
    ∧ (method = "GET" ∨ method = "DELETE" → body = None).
Proof.
  intros Hr.
  destruct call; simpl in Hr; rewrite ?bind_run, ?ret_run in Hr;
    simpl in Hr;
    lazymatch type of Hr with
    | (@NewRequest _ ?T ?E ?c ?m ?u ?b ?s).1 = _ =>
        exists T, E, m, u, b, r; repeat split; try done;
        first [by rewrite !elem_of_cons; auto 10 | by intros [?|?]]
    | context [(@NewRequest _ ?T ?E ?c ?m ?u ?b ?s).1] =>
        let HN := fresh "HN" in
        destruct ((@NewRequest _ T E c m u b s).1) as [r0|e0] eqn:HN;
        [|by destruct opts];
        exists T, E, m, u, b, r0;
        destruct opts; simpl in Hr; injection Hr as <-;
        (repeat split; try done;
         first [by rewrite !elem_of_cons; auto 10 | by intros [?|?]])
    end.
Qed.

(** X8.  Every request a service method builds, for each of the 38
    methods: it carries the API key of the client under [X-API-Key],
    [Accept: application/json] and the user agent of the client; it
    has a [Content-Type] header exactly when it has a body; it has no
    other header; it carries the context of the call; its method is
    GET, POST, PUT or DELETE, and a GET or DELETE request has no
    body. *)
Theorem call_request_headers call ctx st r :
  (call_request call ctx st).1 = Ok r →
  GoHTTP.Get (Request.Header r) "X-API-Key" = Client.apiKey (the_client st)
  ∧ GoHTTP.Get (Request.Header r) "Accept" = "application/json"
  ∧ GoHTTP.Get (Request.Header r) "User-Agent"
    = Client.UserAgent (the_client st)
  ∧ GoHTTP.Has (Request.Header r) "Content-Type" = is_set (Request.Body r)
  ∧ (∀ k, is_Some (Request.Header r !! k) →
          k ∈ ["X-Api-Key"; "Accept"; "User-Agent"; "Content-Type"])
  ∧ Request.Ctx r = ctx
  ∧ Request.Method r ∈ ["GET"; "POST"; "PUT"; "DELETE"]
  ∧ (Request.Method r = "GET" ∨ Request.Method r = "DELETE" →
     Request.Body r = None).
Proof.
  intros Hr.
  destruct (call_request_NewRequest call ctx st r Hr)
    as (T & E & method & urlStr & body & r0 & HN & -> & -> & -> & -> & Hm & Hb).
  destruct (NewRequest_shape _ _ _ _ _ _ HN) as (Hh & Hmeth & Hbody & Hctx).
  destruct (normalize_fields (the_client st)) as (_ & Hua & Hkey).
  assert (Hne : method ≠ "").
  { intros ->. rewrite !elem_of_cons, elem_of_nil in Hm.
    by destruct Hm as [?|[?|[?|[?|[]]]]]. }
  apply String.eqb_neq in Hne. rewrite Hne in Hmeth.
  unfold GoHTTP.Get, GoHTTP.Has.
  destruct canonical_keys as (-> & -> & -> & ->).
  rewrite Hh, !stamped_lookup, Hua, Hkey, Hmeth, Hctx.
  repeat split; try done.
  - destruct (Request.Body r0), body; done.
  - intros k [x Hk]. rewrite stamped_lookup in Hk.
    rewrite !elem_of_cons. repeat case_decide; subst; try done; auto 10.
  - intros Hgd. specialize (Hb Hgd). subst body.
    by destruct (Request.Body r0).
Qed.

Lemma call_request_normalized call ctx st st' :
  normalize (the_client st) = normalize (the_client st') →
  (call_request call ctx st).1 = (call_request call ctx st').1.
Proof.
  intros Hn.
  destruct call; simpl; rewrite ?bind_run, ?ret_run; simpl;
    by rewrite (NewRequest_normalized _ _ _ _ _ _ Hn).
Qed.

(** X9.  The request a method builds does not depend on the calls made
    before it, nor on what they returned: after any call, any call
    builds the request it would have built without it.  In particular
    a call repeated builds the same request again. *)
Theorem call_request_independent call1 ctx1 call2 ctx2 st :
  (call_request call2 ctx2 (call_run call1 ctx1 st)).1
  = (call_request call2 ctx2 st).1.
Proof.
  apply call_request_normalized.
  rewrite call_client. apply normalize_idem.
Qed.

(** X13.  A program of calls, run in sequence.  The requests handed
    to the transport are those the calls build, in the order of the
    calls, each being the request its call would have built as the
    first call of the program; the lines printed are those of the
    [Certificates.Search] calls, in order; and the client is left as
    the first call leaves it. *)
Theorem run_calls_trace (calls : list (ServiceCall * Context)) st :
  wire (run_calls calls st) = wire st ++ (calls ≫= sent_by st)
  ∧ stdout (run_calls calls st) = stdout st ++ (calls ≫= printed_by st)
  ∧ the_client (run_calls calls st)
    = match calls with
      | [] => the_client st
      | _ :: _ => normalize (the_client st)
      end.
Proof.
  assert (Hgen : ∀ st0,
            normalize (the_client st0) = normalize (the_client st) →
            wire (run_calls calls st0) = wire st0 ++ (calls ≫= sent_by st)
            ∧ stdout (run_calls calls st0)
              = stdout st0 ++ (calls ≫= printed_by st)
            ∧ normalize (the_client (run_calls calls st0))
              = normalize (the_client st)
            ∧ (calls ≠ [] →
               the_client (run_calls calls st0) = normalize (the_client st))).
  { induction calls as [|[call ctx] calls IH]; intros st0 Hn.
    - simpl. by rewrite !app_nil_r.
    - cbn [run_calls foldl fst snd]. fold (run_calls calls (call_run call ctx st0)).
      assert (Hn' : normalize (the_client (call_run call ctx st0))
                    = normalize (the_client st))
        by (by rewrite call_client, normalize_idem).
      destruct (IH _ Hn') as (Hw & Ho & Hc & Hne).
      rewrite Hw, Ho, call_wire, call_stdout.
      cbn [mbind list_bind]. rewrite <- !app_assoc.
      rewrite (call_request_normalized call ctx st0 st Hn).
      assert (printed_by st0 (call, ctx) = printed_by st (call, ctx)) as ->.
      { unfold printed_by. cbn [fst snd].
        by rewrite (call_request_normalized call ctx st0 st Hn). }
      repeat split; try done.
      intros _. destruct calls as [|c calls]; [|by apply Hne].
      simpl. by rewrite call_client. }
  destruct (Hgen st eq_refl) as (Hw & Ho & _ & Hc).
  repeat split; try done. destruct calls; [done|]. by apply Hc.
Qed.

End SentRequests.

Section Construction.
Context `{StdLib}.

(** ** [NewClient] and its options *)

Lemma default_last_cons {A} (d x : A) (l : list A) :
  default d (last (x :: l)) = default x (last l).
Proof. rewrite last_cons. by destruct (last l). Qed.

(** The options applied in order to [c]: every one of them is valid
    and the last of each kind is what the client holds, or the first
    that is not valid gives the error and the rest is not applied. *)
Lemma apply_options_cases specs c :
  match apply_options (option_of <$> specs) c with
  | Ok c' =>
      forallb valid_option specs = true
      ∧ Client.apiKey c' = Client.apiKey c
      ∧ Client.UserAgent c' = default (Client.UserAgent c) (last (user_agents specs))
      ∧ Client.client c' = default (Client.client c) (last (http_clients specs))
      ∧ match last (base_urls specs) with
        | Some s => url_Parse s = Ok (Client.BaseURL c')
        | None => Client.BaseURL c' = Client.BaseURL c
        end
  | Err e =>
      ∃ pre o post,
        specs = pre ++ o :: post
        ∧ forallb valid_option pre = true
        ∧ match o with
          | OptHTTPClient h =>
              h = None ∧ e = Err_fmt "HTTP client cannot be nil"
          | OptBaseURL s =>
              ∃ inner, url_Parse s = Err inner
                       ∧ e = Err_wrap "invalid base URL: " inner
          | OptUserAgent _ => False
          end
  end.
Proof.
  revert c. induction specs as [|o specs IH]; intros c; [done|].
  cbn [fmap list_fmap apply_options].
  assert (Hstep : ∀ c1,
            match apply_options (option_of <$> specs) c1 with
            | Ok c' => True
            | Err e =>
                valid_option o = true →
                ∃ pre o' post,
                  o :: specs = pre ++ o' :: post
                  ∧ forallb valid_option pre = true
                  ∧ match o' with
                    | OptHTTPClient h =>
                        h = None ∧ e = Err_fmt "HTTP client cannot be nil"
                    | OptBaseURL s =>
                        ∃ inner, url_Parse s = Err inner
                                 ∧ e = Err_wrap "invalid base URL: " inner
                    | OptUserAgent _ => False
                    end
            end).
  { intros c1. specialize (IH c1).
    destruct (apply_options (option_of <$> specs) c1) as [c'|e]; [done|].
    intros Hv. destruct IH as (pre & o' & post & -> & Hpre & Ho').
    exists (o :: pre), o', post. simpl. by rewrite Hv, Hpre. }
  destruct o as [[h|]|s|s]; simpl;
    unfold WithHTTPClient, WithBaseURL, WithUserAgent.
  - specialize (IH (Client.with_client c h)).
    specialize (Hstep (Client.with_client c h)).
    destruct (apply_options _ _) as [c'|e]; [|by apply Hstep].
    destruct IH as (Hv & Hk & Hu & Hc & Hb).
    rewrite default_last_cons. by destruct c.
  - by exists [], (OptHTTPClient None), specs.
  - destruct (url_Parse s) as [u|inner] eqn:Hp; simpl.
    + specialize (IH (Client.with_BaseURL c u)).
      specialize (Hstep (Client.with_BaseURL c u)).
      destruct (apply_options _ _) as [c'|e];
        [|apply Hstep; simpl; by rewrite Hp].
      destruct IH as (Hv & Hk & Hu & Hc & Hb).
      rewrite last_cons. destruct c. simpl in *.
      repeat split; try done.
      destruct (last (base_urls specs)); [done|]. by rewrite Hb.
    + exists [], (OptBaseURL s), specs. repeat split; eauto.
  - specialize (IH (Client.with_UserAgent c s)).
    specialize (Hstep (Client.with_UserAgent c s)).
    destruct (apply_options _ _) as [c'|e]; [|by apply Hstep].
    destruct IH as (Hv & Hk & Hu & Hc & Hb).
    rewrite default_last_cons. by destruct c.
Qed.

(** The client [NewClient] returns. *)
Lemma NewClient_Ok (apiKey : string) (specs : list OptionSpec) c :
  NewClient apiKey (option_of <$> specs) = Ok c →
  apiKey ≠ ""
  ∧ Client.apiKey c = apiKey
  ∧ Client.UserAgent c = default UserAgent (last (user_agents specs))
  ∧ Client.client c = default default_http_Client (last (http_clients specs))
  ∧ url_Parse (default DefaultBaseURL (last (base_urls specs)))
    = Ok (Client.BaseURL c).
Proof.
  unfold NewClient.
  destruct (String.eqb apiKey "") eqn:Hk; [done|].
  apply String.eqb_neq in Hk.
  destruct (url_Parse DefaultBaseURL) as [u|e] eqn:Hu; [|done].
  pose proof (apply_options_cases specs
                (Client.mk default_http_Client u UserAgent apiKey)) as Hc.
  destruct (apply_options _ _) as [c'|e]; [|done].
  intros [= ->]. destruct Hc as (Hv & Hkey & Hua & Hcl & Hb). simpl in *.
  repeat split; try done.
  destruct (last (base_urls specs)); simpl; [done|]. by rewrite Hb.
Qed.

(** X10.  [NewClient] with options made by [WithHTTPClient],
    [WithBaseURL] and [WithUserAgent].  It returns a client exactly
    when the key is not empty, the default base URL parses and every
    option is valid: no HTTP client is nil and every base URL parses.
    The client then holds the key, and for each kind of option what
    the last option of that kind gave, or the default when there is
    none: the user agent, the HTTP client, and the parsed base URL.
    An empty user agent is accepted as it is. *)
Theorem NewClient_options (apiKey : string) (specs : list OptionSpec) :
  (is_Ok (NewClient apiKey (option_of <$> specs)) = true
   ↔ apiKey ≠ ""
     ∧ is_Ok (url_Parse DefaultBaseURL) = true
     ∧ forallb valid_option specs = true)
  ∧ ∀ c, NewClient apiKey (option_of <$> specs) = Ok c →
         Client.apiKey c = apiKey
         ∧ Client.UserAgent c = default UserAgent (last (user_agents specs))
         ∧ Client.client c
           = default default_http_Client (last (http_clients specs))
         ∧ url_Parse (default DefaultBaseURL (last (base_urls specs)))
           = Ok (Client.BaseURL c).
Proof.
  unfold NewClient.
  destruct (String.eqb apiKey "") eqn:Hk.
  { apply String.eqb_eq in Hk. split; [|done]. split; [done|]. by intros [? _]. }
  apply String.eqb_neq in Hk.
  destruct (url_Parse DefaultBaseURL) as [u|e] eqn:Hu.
  2:{ split; [|done]. split; [done|]. by intros (_ & ? & _). }
  pose proof (apply_options_cases specs
                (Client.mk default_http_Client u UserAgent apiKey)) as Hc.
  destruct (apply_options _ _) as [c|e]; simpl.
  - destruct Hc as (Hv & Hkey & Hua & Hcl & Hb). simpl in *.
    split; [done|]. intros c' [= <-]. repeat split; try done.
    destruct (last (base_urls specs)); simpl; [done|]. by rewrite Hb.
  - split; [|done]. split; [done|]. intros (_ & _ & Hv).
    destruct Hc as (pre & o & post & -> & _ & Ho).
    rewrite forallb_app in Hv. apply andb_true_iff in Hv as [_ Hv].
    simpl in Hv. apply andb_true_iff in Hv as [Hv _].
    destruct o as [h|s|s]; simpl in Hv.
    + destruct Ho as [-> _]. done.
    + destruct Ho as (inner & Hp & _). by rewrite Hp in Hv.
    + done.
Qed.

(** X11.  The errors of [NewClient] with such options, in the order
    the code meets them: an empty key gives [API key is required]
    whatever the options are; otherwise the error of parsing the
    default base URL; otherwise the error of the first option that is
    not valid, [HTTP client cannot be nil] or the parsing error
    wrapped as [invalid base URL: ...], the options before it being
    valid. *)
Theorem NewClient_errors (apiKey : string) (specs : list OptionSpec) e :
  NewClient apiKey (option_of <$> specs) = Err e →
  (apiKey = "" ∧ e = Err_fmt "API key is required")
  ∨ (apiKey ≠ "" ∧ url_Parse DefaultBaseURL = Err e)
  ∨ (apiKey ≠ ""
     ∧ ∃ pre o post,
         specs = pre ++ o :: post
         ∧ forallb valid_option pre = true
         ∧ match o with
           | OptHTTPClient h =>
               h = None ∧ e = Err_fmt "HTTP client cannot be nil"
           | OptBaseURL s =>
               ∃ inner, url_Parse s = Err inner
                        ∧ e = Err_wrap "invalid base URL: " inner
           | OptUserAgent _ => False
           end).
Proof.
  unfold NewClient.
  destruct (String.eqb apiKey "") eqn:Hk.
  { apply String.eqb_eq in Hk. intros [= <-]. by left. }
  apply String.eqb_neq in Hk.
  destruct (url_Parse DefaultBaseURL) as [u|e0] eqn:Hu.
  2:{ intros [= <-]. right. by left. }
  pose proof (apply_options_cases specs
                (Client.mk default_http_Client u UserAgent apiKey)) as Hc.
  destruct (apply_options _ _) as [c|e0]; [done|].
  intros [= <-]. right. right. done.
Qed.

End Construction.

(** * The query string, written and read back *)

Lemma QueryEscape_cons (c : ascii) (r : string) :
  GoURL.QueryEscape (String c r)
  = if Ascii.eqb c " " then String "+" (GoURL.QueryEscape r)
    else if GoURL.shouldEscape c then
      String "%" (String (GoByte.hexDigit (GoByte.code c / 16))
                 (String (GoByte.hexDigit (GoByte.code c mod 16))
                         (GoURL.QueryEscape r)))
    else String c (GoURL.QueryEscape r).
Proof. done. Qed.

Lemma QueryUnescape_percent (h l : ascii) (r : string) :
  GoURL.QueryUnescape (String "%" (String h (String l r)))
  = match GoByte.unhex h, GoByte.unhex l, GoURL.QueryUnescape r with
    | Some hi, Some lo, Some t =>
        Some (String (Ascii.ascii_of_N (hi * 16 + lo)) t)
    | _, _, _ => None
    end.
Proof. done. Qed.

Lemma QueryUnescape_plus (r : string) :
  GoURL.QueryUnescape (String "+" r) = String " " <$> GoURL.QueryUnescape r.
Proof. done. Qed.

Lemma QueryUnescape_plain (c : ascii) (r : string) :
  Ascii.eqb c "%" = false → Ascii.eqb c "+" = false →
  GoURL.QueryUnescape (String c r) = String c <$> GoURL.QueryUnescape r.
Proof. intros H1 H2. simpl. by rewrite H1, H2. Qed.

(** What [QueryEscape] writes for one byte, [QueryUnescape] reads back
    as that byte. *)
Lemma QueryUnescape_QueryEscape_byte (c : ascii) (r : string) :
  GoURL.QueryUnescape (GoURL.QueryEscape r) = Some r →
  GoURL.QueryUnescape (GoURL.QueryEscape (String c r)) = Some (String c r).
Proof.
  intros IH. rewrite QueryEscape_cons.
  destruct c as [b0 b1 b2 b3 b4 b5 b6 b7];
    destruct b0, b1, b2, b3, b4, b5, b6, b7;
    vm_compute (Ascii.eqb _ " "); cbv iota;
    try (vm_compute (GoURL.shouldEscape _); cbv iota);
    try (vm_compute (GoByte.hexDigit _); vm_compute (GoByte.hexDigit _));
    first [ rewrite QueryUnescape_percent, IH; by vm_compute
          | rewrite QueryUnescape_plus, IH; done
          | rewrite QueryUnescape_plain, IH by done; done ].
Qed.

Lemma QueryUnescape_QueryEscape (s : string) :
  GoURL.QueryUnescape (GoURL.QueryEscape s) = Some s.
Proof.
  induction s as [|c r IH]; [done|].
  by apply QueryUnescape_QueryEscape_byte.
Qed.

(** [QueryEscape] writes unreserved bytes, percent signs and plus
    signs only. *)
Lemma QueryEscape_bytes (s : string) :
  GoByte.all escaped_byte (GoURL.QueryEscape s) = true.
Proof.
  induction s as [|c r IH]; [done|].
  rewrite QueryEscape_cons.
  destruct c as [b0 b1 b2 b3 b4 b5 b6 b7];
    destruct b0, b1, b2, b3, b4, b5, b6, b7;
    vm_compute (Ascii.eqb _ " "); cbv iota;
    try (vm_compute (GoURL.shouldEscape _); cbv iota);
    try (vm_compute (GoByte.hexDigit _); vm_compute (GoByte.hexDigit _));
    cbn [GoByte.all]; rewrite IH;
    repeat (match goal with
            | |- context [escaped_byte ?c] =>
                let b := eval vm_compute in (escaped_byte c) in
                change (escaped_byte c) with b
            end);
    done.
Qed.

Lemma escaped_ContainsByte (s : string) (c : ascii) :
  escaped_byte c = false →
  GoByte.all escaped_byte s = true →
  GoStrings.ContainsByte s c = false.
Proof.
  intros Hc. induction s as [|a r IH]; [done|]. simpl.
  intros [Ha Hr]%andb_true_iff. rewrite (IH Hr), orb_false_r.
  apply Ascii.eqb_neq. intros ->. congruence.
Qed.

Lemma ContainsByte_app (a b : string) (c : ascii) :
  GoStrings.ContainsByte (a +:+ b) c
  = GoStrings.ContainsByte a c || GoStrings.ContainsByte b c.
Proof.
  induction a as [|x a IH]; [done|]. simpl. by rewrite IH, orb_assoc.
Qed.

Lemma Cut_app (a b : string) (sep : ascii) :
  GoStrings.ContainsByte a sep = false →
  GoStrings.Cut (a +:+ String sep b) sep = (a, b, true).
Proof.
  induction a as [|x a IH]; simpl.
  - by rewrite Ascii.eqb_refl.
  - intros [Hx Ha]%orb_false_iff. rewrite Hx. by rewrite (IH Ha).
Qed.

Lemma Split_app (p r : string) (sep : ascii) :
  GoStrings.ContainsByte p sep = false →
  GoStrings.Split (p +:+ String sep r) sep = p :: GoStrings.Split r sep.
Proof.
  induction p as [|x p IH]; simpl.
  - by rewrite Ascii.eqb_refl.
  - intros [Hx Hp]%orb_false_iff. rewrite Hx. by rewrite (IH Hp).
Qed.

Lemma Split_plain (p : string) (sep : ascii) :
  GoStrings.ContainsByte p sep = false → GoStrings.Split p sep = [p].
Proof.
  induction p as [|x p IH]; simpl; [done|].
  intros [Hx Hp]%orb_false_iff. rewrite Hx. by rewrite (IH Hp).
Qed.

Lemma Split_Join (pieces : list string) (sep : ascii) :
  pieces ≠ [] →
  Forall (λ p, GoStrings.ContainsByte p sep = false) pieces →
  GoStrings.Split (GoStrings.Join pieces (String sep "")) sep = pieces.
Proof.
  induction pieces as [|p [|p' rest] IH]; [done| |].
  - intros _ Hp. apply Forall_cons in Hp as [Hp _]. simpl.
    by apply Split_plain.
  - intros _ Hp. apply Forall_cons in Hp as [Hp Hrest].
    change (GoStrings.Join (p :: p' :: rest) (String sep ""))
      with (p +:+ String sep (GoStrings.Join (p' :: rest) (String sep ""))).
    rewrite (Split_app _ _ _ Hp). by rewrite IH.
Qed.

(** ** What [ParseQuery] reads from what [Encode] wrote *)

Lemma parseQuery_step_piece (m : GoURL.Values) (k v : string) :
  GoURL.parseQuery_step m
    (GoURL.QueryEscape k +:+ "=" +:+ GoURL.QueryEscape v)
  = GoURL.Add m k v.
Proof.
  change (GoURL.QueryEscape k +:+ "=" +:+ GoURL.QueryEscape v)
    with (GoURL.QueryEscape k +:+ String "=" (GoURL.QueryEscape v)).
  assert (Hsemi : GoStrings.ContainsByte
                    (GoURL.QueryEscape k +:+ String "=" (GoURL.QueryEscape v))
                    ";" = false).
  { rewrite ContainsByte_app. cbn [GoStrings.ContainsByte].
    by rewrite !(escaped_ContainsByte _ ";")
      by (done || apply QueryEscape_bytes). }
  assert (Hne : String.eqb
                  (GoURL.QueryEscape k +:+ String "=" (GoURL.QueryEscape v)) ""
                = false).
  { by destruct (GoURL.QueryEscape k). }
  unfold GoURL.parseQuery_step. rewrite Hsemi, Hne.
  rewrite Cut_app
    by (apply escaped_ContainsByte; [done | apply QueryEscape_bytes]).
  by rewrite !QueryUnescape_QueryEscape.
Qed.

Lemma piece_no_ampersand (k v : string) :
  GoStrings.ContainsByte
    (GoURL.QueryEscape k +:+ "=" +:+ GoURL.QueryEscape v) "&" = false.
Proof.
  change (GoURL.QueryEscape k +:+ "=" +:+ GoURL.QueryEscape v)
    with (GoURL.QueryEscape k +:+ String "=" (GoURL.QueryEscape v)).
  rewrite ContainsByte_app. cbn [GoStrings.ContainsByte].
  by rewrite !(escaped_ContainsByte _ "&") by (done || apply QueryEscape_bytes).
Qed.

(** Every key present holds a value. *)
Lemma no_empty_empty : no_empty ∅.
Proof. intros k vs. by rewrite lookup_empty. Qed.

Lemma no_empty_Add (q : GoURL.Values) (k v : string) :
  no_empty q → no_empty (GoURL.Add q k v).
Proof.
  intros Hq k' vs. unfold GoURL.Add.
  destruct (decide (k = k')) as [->|Hk].
  - rewrite lookup_insert_eq. intros [= <-]. by destruct (GoURL.values q k').
  - rewrite lookup_insert_ne by done. apply Hq.
Qed.

Lemma no_empty_parseQuery_step (m : GoURL.Values) (piece : string) :
  no_empty m → no_empty (GoURL.parseQuery_step m piece).
Proof.
  intros Hm. unfold GoURL.parseQuery_step.
  repeat case_match; try done. by apply no_empty_Add.
Qed.

Lemma no_empty_ParseQuery (query : string) : no_empty (GoURL.ParseQuery query).
Proof.
  unfold GoURL.ParseQuery. generalize (GoStrings.Split query "&").
  intros pieces. generalize no_empty_empty. generalize (∅ : GoURL.Values).
  induction pieces as [|p pieces IH]; intros m Hm; [done|].
  simpl. apply IH. by apply no_empty_parseQuery_step.
Qed.

Lemma no_empty_values_eq (m1 m2 : GoURL.Values) :
  no_empty m1 → no_empty m2 →
  (∀ k, GoURL.values m1 k = GoURL.values m2 k) → m1 = m2.
Proof.
  intros H1 H2 Hv. apply map_eq. intros k. specialize (Hv k).
  unfold GoURL.values in Hv.
  destruct (m1 !! k) as [l1|] eqn:E1, (m2 !! k) as [l2|] eqn:E2;
    simpl in Hv; subst; try done.
  - by destruct (H1 k [] E1).
  - by destruct (H2 k [] E2).
Qed.

(** The pairs [Encode] writes, in its order. *)
Lemma encode_pieces_pairs (q : GoURL.Values) (ks : list string) :
  ks ≫= GoURL.encode_key q
  = (λ kv : string * string,
       GoURL.QueryEscape kv.1 +:+ "=" +:+ GoURL.QueryEscape kv.2)
    <$> (ks ≫= λ k, pair k <$> GoURL.values q k).
Proof.
  induction ks as [|k ks IH]; [done|].
  cbn [mbind list_bind]. rewrite fmap_app, <- IH. f_equal.
  unfold GoURL.encode_key. by rewrite <- list_fmap_compose.
Qed.

Lemma foldl_parseQuery_step_pairs (m : GoURL.Values)
    (pairs : list (string * string)) :
  foldl GoURL.parseQuery_step m
    ((λ kv : string * string,
        GoURL.QueryEscape kv.1 +:+ "=" +:+ GoURL.QueryEscape kv.2) <$> pairs)
  = foldl (λ m kv, GoURL.Add m kv.1 kv.2) m pairs.
Proof.
  revert m. induction pairs as [|[k v] pairs IH]; intros m; [done|].
  cbn [fmap list_fmap foldl]. cbn [fst snd].
  by rewrite parseQuery_step_piece, IH.
Qed.

Lemma values_foldl_pairs (m : GoURL.Values) (pairs : list (string * string))
    (k : string) :
  GoURL.values (foldl (λ m kv, GoURL.Add m kv.1 kv.2) m pairs) k
  = GoURL.values m k ++ (filter (λ kv, kv.1 = k) pairs).*2.
Proof.
  revert m. induction pairs as [|[k' v] pairs IH]; intros m.
  - by rewrite app_nil_r.
  - cbn [foldl fst snd]. rewrite IH, values_Add, filter_cons. cbn [fst].
    destruct (decide (k' = k)) as [->|Hk].
    + by rewrite <- app_assoc.
    + done.
Qed.

Lemma pairs_of_key (q : GoURL.Values) (ks : list string) (k : string) :
  NoDup ks →
  (filter (λ kv : string * string, kv.1 = k)
     (ks ≫= λ k', pair k' <$> GoURL.values q k')).*2
  = if decide (k ∈ ks) then GoURL.values q k else [].
Proof.
  induction ks as [|k' ks IH]; intros Hnd; [done|].
  apply NoDup_cons in Hnd as [Hk' Hnd].
  cbn [mbind list_bind]. rewrite filter_app, fmap_app, (IH Hnd).
  destruct (decide (k' = k)) as [->|Hne].
  - destruct (decide (k ∈ k :: ks)) as [_|Hn];
      [|exfalso; apply Hn, list_elem_of_here].
    destruct (decide (k ∈ ks)); [done|]. rewrite app_nil_r.
    induction (GoURL.values q k) as [|v vs IHv]; [done|].
    cbn [fmap list_fmap]. rewrite filter_cons, decide_True by done.
    cbn [fmap list_fmap snd]. by rewrite IHv.
  - assert ((filter (λ kv : string * string, kv.1 = k)
               (pair k' <$> GoURL.values q k')).*2 = []) as ->.
    { induction (GoURL.values q k') as [|v vs IHv]; [done|].
      cbn [fmap list_fmap]. by rewrite filter_cons, decide_False by done. }
    simpl. destruct (decide (k ∈ ks)) as [Hin|Hin];
      destruct (decide (k ∈ k' :: ks)) as [Hin'|Hin']; try done.
    + exfalso. by apply Hin', list_elem_of_further.
    + by apply elem_of_cons in Hin' as [?|?].
Qed.

Lemma NoDup_sorted_keys (q : GoURL.Values) : NoDup (GoURL.sorted_keys q).
Proof.
  unfold GoURL.sorted_keys. rewrite merge_sort_Permutation.
  apply NoDup_fst_map_to_list.
Qed.

Lemma foldl_parseQuery_step_Join (m : GoURL.Values) (pieces : list string) :
  Forall (λ p, GoStrings.ContainsByte p "&" = false) pieces →
  foldl GoURL.parseQuery_step m
    (GoStrings.Split (GoStrings.Join pieces "&") "&")
  = foldl GoURL.parseQuery_step m pieces.
Proof.
  intros Hp. destruct pieces as [|p pieces]; [done|].
  by rewrite Split_Join.
Qed.

(** [ParseQuery] reads from [Encode q] the values of [q], for every
    [q] without a key that holds no value. *)
Lemma ParseQuery_Encode (q : GoURL.Values) :
  no_empty q → GoURL.ParseQuery (GoURL.Encode q) = q.
Proof.
  intros Hq. apply no_empty_values_eq; [apply no_empty_ParseQuery|done|].
  intros k. unfold GoURL.ParseQuery, GoURL.Encode, GoURL.encode_pieces.
  rewrite encode_pieces_pairs.
  rewrite foldl_parseQuery_step_Join.
  2:{ apply Forall_fmap, Forall_forall. intros [k' v] _.
      apply piece_no_ampersand. }
  rewrite foldl_parseQuery_step_pairs, values_foldl_pairs.
  rewrite pairs_of_key by apply NoDup_sorted_keys.
  unfold GoURL.values at 1. rewrite lookup_empty. simpl.
  case_decide as Hin; [done|].
  rewrite elem_of_sorted_keys in Hin. unfold GoURL.values.
  destruct (q !! k); [|done]. by destruct Hin.
Qed.

Lemma no_empty_if_Add (b : bool) (q : GoURL.Values) (k v : string) :
  no_empty q → no_empty (if b then GoURL.Add q k v else q).
Proof. destruct b; [apply no_empty_Add|done]. Qed.

Lemma no_empty_pointer_Add (p : option bool) (q : GoURL.Values) (k : string) :
  no_empty q →
  no_empty (match p with
            | Some b => GoURL.Add q k (GoFmt.t b)
            | None => q
            end).
Proof. destruct p; [apply no_empty_Add|done]. Qed.

Lemma no_empty_foldl_Add (q : GoURL.Values) (k : string) (l : list string) :
  no_empty q → no_empty (foldl (λ q t, GoURL.Add q k t) q l).
Proof.
  revert q. induction l as [|x l IH]; intros q Hq; [done|].
  simpl. by apply IH, no_empty_Add.
Qed.

Lemma no_empty_if_Add2 (b : bool) (q : GoURL.Values) (k1 v1 k2 v2 : string) :
  no_empty q →
  no_empty (if b then GoURL.Add (GoURL.Add q k1 v1) k2 v2 else q).
Proof. destruct b; [intros; by do 2 apply no_empty_Add|done]. Qed.

(** Settle [no_empty q] for [q] built by conditional additions. *)
Ltac solve_no_empty :=
  repeat name_let;
  repeat (match goal with
          | |- no_empty ?q => is_var q; unfold q; clear q
          end;
          first [ apply no_empty_if_Add
                | apply no_empty_pointer_Add
                | apply no_empty_foldl_Add
                | apply no_empty_if_Add2 ]);
  done.

Lemma no_empty_queries (q0 : GoURL.Values) :
  no_empty q0 →
  (∀ o, no_empty (CertificatesService_Search_query o q0))
  ∧ (∀ o, no_empty (BusinessUnitsService_List_query o q0))
  ∧ (∀ o, no_empty (CertificateOwnersService_List_query o q0))
  ∧ (∀ o, no_empty (EnrollmentsService_ListDetails_query o q0))
  ∧ (∀ o, no_empty (ProfilesService_List_query o q0)).
Proof.
  intros Hq. repeat split; intros o.
  - cbv beta delta [CertificatesService_Search_query]. solve_no_empty.
  - cbv beta delta [BusinessUnitsService_List_query]. solve_no_empty.
  - cbv beta delta [CertificateOwnersService_List_query]. solve_no_empty.
  - cbv beta delta [EnrollmentsService_ListDetails_query]. solve_no_empty.
  - cbv beta delta [ProfilesService_List_query]. solve_no_empty.
Qed.

(** X12.  The query a list method writes is read back without loss.
    For each of the five list methods and every options value, parsing
    the [RawQuery] the method put on the request, as [URL.Query] does,
    gives exactly the values the method built from the options, whatever
    bytes the filters hold; the same is true of every set of values in
    which each key present holds at least one value. *)
Theorem list_query_read_back (httpReq : Request.t) :
  let q0 := GoURL.Query (Request.URL httpReq) in
  let sent q := GoURL.Query (Request.URL (with_query httpReq q)) in
  (∀ o, sent (CertificatesService_Search_query o q0)
        = CertificatesService_Search_query o q0)
  ∧ (∀ o, sent (BusinessUnitsService_List_query o q0)
          = BusinessUnitsService_List_query o q0)
  ∧ (∀ o, sent (CertificateOwnersService_List_query o q0)
          = CertificateOwnersService_List_query o q0)
  ∧ (∀ o, sent (EnrollmentsService_ListDetails_query o q0)
          = EnrollmentsService_ListDetails_query o q0)
  ∧ (∀ o, sent (ProfilesService_List_query o q0)
          = ProfilesService_List_query o q0)
  ∧ (∀ q, no_empty q → sent q = q).
Proof.
  intros q0 sent.
  assert (Hsent : ∀ q, no_empty q → sent q = q).
  { intros q Hq. unfold sent, with_query, GoURL.Query. simpl.
    by apply ParseQuery_Encode. }
  destruct (no_empty_queries q0) as (H1 & H2 & H3 & H4 & H5).
  { apply no_empty_ParseQuery. }
  repeat split; intros; apply Hsent; auto.
Qed.

Section FurtherClientProperties.
Context `{StdLib} `{Schema}.
Context `{!JSONDecoder APIError.t}.

(** X14.  The predicates of errors.go exclude each other: of
    [IsNotFound], [IsUnauthorized] and [IsForbidden] at most one is
    true of an error. *)
Theorem status_predicates_exclusive (err : error) :
  (IsNotFound err = true →
   IsUnauthorized err = false ∧ IsForbidden err = false)
  ∧ (IsUnauthorized err = true →
     IsNotFound err = false ∧ IsForbidden err = false)
  ∧ (IsForbidden err = true →
     IsNotFound err = false ∧ IsUnauthorized err = false).
Proof.
  destruct err as [[e|e| | |]|]; simpl; try done;
    rewrite !Z.eqb_eq, !Z.eqb_neq; lia.
Qed.

(** X15.  When [NewRequest] returns a request.  It does exactly when
    the path under [mpki/api/v1/] parses, the body, if there is one,
    is encoded without error, the method is empty or made of token
    bytes, the context is not nil, and the URL resolved against the
    base URL parses when printed.  Whether it does or not, it sends
    nothing and prints nothing. *)
Theorem NewRequest_is_Ok {T} `{!JSONEncoder T}
    ctx method urlStr (body : option T) st :
  let c := normalize (the_client st) in
  let out := NewRequest ctx method urlStr body st in
  (is_Ok out.1 = true
   ↔ ∃ rel,
       url_Parse ("mpki/api/" +:+ APIVersion +:+ "/"
                    +:+ GoStrings.TrimPrefix urlStr "/") = Ok rel
       ∧ is_Ok (encode_body body) = true
       ∧ GoHTTP.validMethod (if String.eqb method "" then "GET" else method)
         = true
       ∧ ctx ≠ ctx_nil
       ∧ is_Ok (url_Parse
                  (url_String (url_ResolveReference (Client.BaseURL c) rel)))
         = true)
  ∧ wire out.2 = wire st
  ∧ stdout out.2 = stdout st.
Proof.
  intros c out. subst out. rewrite NewRequest_state. simpl.
  split; [|done]. rewrite NewRequest_result. fold c.
  destruct (url_Parse _) as [rel|e] eqn:Hrel;
    [|split; [done|by intros (? & ? & _)]].
  assert (Hreq : ∀ buf,
            is_Ok (http_NewRequestWithContext ctx method
                     (url_String (url_ResolveReference (Client.BaseURL c) rel))
                     buf) = true
            ↔ GoHTTP.validMethod (if String.eqb method "" then "GET" else method)
              = true
              ∧ ctx ≠ ctx_nil
              ∧ is_Ok (url_Parse
                         (url_String
                            (url_ResolveReference (Client.BaseURL c) rel)))
                = true).
  { intros buf. unfold http_NewRequestWithContext.
    destruct (GoHTTP.validMethod _); simpl;
      [|split; [done|by intros (? & _)]].
    destruct ctx; simpl; [split; [done|by intros (_ & ? & _)]| |];
      (destruct (url_Parse (url_String _)); simpl;
       (split; [intros ?|intros (? & ? & ?)]; try done)). }
  split.
  - intros Hok. exists rel. split; [done|].
    destruct (encode_body body) as [buf|e]; [|done].
    split; [done|]. apply (Hreq buf).
    by destruct (http_NewRequestWithContext _ _ _ _).
  - intros (rel' & [= <-] & Hb & Hrest).
    destruct (encode_body body) as [buf|e]; [|done].
    apply (Hreq buf) in Hrest.
    by destruct (http_NewRequestWithContext _ _ _ _).
Qed.

(** X17.  From [NewClient] to the wire.  Every request a service
    method builds on a client that [NewClient] returned carries under
    [X-API-Key] the key given to [NewClient], which is not empty, and
    as its user agent the one of the last [WithUserAgent] option, or
    the default [go-digicert/1.0] when there is none. *)
Theorem NewClient_requests_carry_key
    (apiKey : string) (specs : list OptionSpec) c call ctx sent out r :
  NewClient apiKey (option_of <$> specs) = Ok c →
  (call_request call ctx (mkState c sent out)).1 = Ok r →
  apiKey ≠ ""
  ∧ GoHTTP.Get (Request.Header r) "X-API-Key" = apiKey
  ∧ GoHTTP.Get (Request.Header r) "User-Agent"
    = default "go-digicert/1.0" (last (user_agents specs)).
Proof.
  intros Hc Hr.
  destruct (NewClient_Ok apiKey specs c Hc) as (Hne & Hkey & Hua & _).
  destruct (call_request_NewRequest call ctx _ r Hr)
    as (T & E & method & urlStr & body & r0 & HN & Hh & _).
  destruct (NewRequest_shape _ _ _ _ _ _ HN) as (Hs & _).
  destruct (normalize_fields c) as (_ & Hnua & Hnkey).
  split; [done|].
  unfold GoHTTP.Get. destruct canonical_keys as (-> & _ & -> & _).
  rewrite Hh, Hs, !stamped_lookup. simpl. by rewrite Hnua, Hnkey, Hkey, Hua.
Qed.

End FurtherClientProperties.

(** * The further properties on the reference library *)

Section RunningFurther.
#[local] Existing Instance Reference.stdlib.
#[local] Existing Instance Reference.schema.
#[local] Existing Instance Reference.APIError_dec.
#[local] Existing Instance Reference.value_dec.
#[local] Existing Instance Reference.value_enc.

(** The test [404 error]: the predicates on the error of [Do]. *)
Lemma Do_status_predicates_witness :
  ∃ resp,
    http_Client_Do (Client.client (the_client (Reference.demo 1)))
      (wire (Reference.demo 1)) Reference.demo_request = Ok resp
    ∧ HTTPResponse.ReadErr resp = None
    ∧ HTTPResponse.StatusCode resp = 404
    ∧ IsNotFound
        (Do ctx_Background Reference.demo_request nil_interface
           (Reference.demo 1)).1.1.2 = true.
Proof.
  destruct (http_Client_Do (Client.client (the_client (Reference.demo 1)))
              (wire (Reference.demo 1)) Reference.demo_request)
    as [resp|e] eqn:Hdo; [|vm_compute in Hdo; discriminate Hdo].
  exists resp.
  assert (Hread : HTTPResponse.ReadErr resp = None).
  { vm_compute in Hdo. injection Hdo as <-. reflexivity. }
  assert (Hs : HTTPResponse.StatusCode resp = 404).
  { vm_compute in Hdo. injection Hdo as <-. reflexivity. }
  split; [reflexivity|]. split; [exact Hread|]. split; [exact Hs|].
  destruct (Do_status_predicates ctx_Background Reference.demo_request
              nil_interface (Reference.demo 1) resp Hdo Hread)
    as (Hnf & _ & _).
  apply Hnf. exact Hs.
Defined.

(** The same through a service method: [Certificates.Get] on a server
    that answers 401. *)
Lemma call_status_predicates_witness :
  ∃ r resp,
    (call_request (Call_CertificatesService_Get "ABC123") ctx_Background
       (Reference.demo 9)).1 = Ok r
    ∧ http_Client_Do (Client.client (the_client (Reference.demo 9)))
        (wire (Reference.demo 9)) r = Ok resp
    ∧ HTTPResponse.ReadErr resp = None
    ∧ HTTPResponse.StatusCode resp = 401
    ∧ IsUnauthorized
        (failure (call_outcome (Call_CertificatesService_Get "ABC123")
                    ctx_Background (Reference.demo 9))) = true.
Proof.
  destruct ((call_request (Call_CertificatesService_Get "ABC123")
               ctx_Background (Reference.demo 9)).1)
    as [r|e] eqn:Hr; [|vm_compute in Hr; discriminate Hr].
  destruct (http_Client_Do (Client.client (the_client (Reference.demo 9)))
              (wire (Reference.demo 9)) r)
    as [resp|e] eqn:Hdo; [|vm_compute in Hdo; discriminate Hdo].
  exists r, resp.
  assert (Hread : HTTPResponse.ReadErr resp = None).
  { vm_compute in Hdo. injection Hdo as <-. reflexivity. }
  assert (Hs : HTTPResponse.StatusCode resp = 401).
  { vm_compute in Hdo. injection Hdo as <-. reflexivity. }
  split; [reflexivity|]. split; [exact Hdo|]. split; [exact Hread|].
  split; [exact Hs|].
  destruct (call_status_predicates (Call_CertificatesService_Get "ABC123")
              ctx_Background (Reference.demo 9) r resp Hr Hdo Hread)
    as (_ & Hua & _).
  apply Hua. exact Hs.
Defined.

(** The request of [Certificates.Revoke] on the demo client. *)
Lemma call_request_headers_witness :
  ∃ r,
    (call_request
       (@Call_CertificatesService_Revoke Reference.schema "ABC123"
          (Some Reference.revoke_body))
       ctx_Background (Reference.demo 0)).1 = Ok r
    ∧ GoHTTP.Get (Request.Header r) "X-API-Key" = "test-key"
    ∧ GoHTTP.Get (Request.Header r) "Accept" = "application/json"
    ∧ GoHTTP.Get (Request.Header r) "User-Agent" = "go-digicert/1.0"
    ∧ Request.Ctx r = ctx_Background.
Proof.
  destruct ((call_request
               (@Call_CertificatesService_Revoke Reference.schema "ABC123"
                  (Some Reference.revoke_body))
               ctx_Background (Reference.demo 0)).1)
    as [r|e] eqn:Hr; [|vm_compute in Hr; discriminate Hr].
  exists r. split; [reflexivity|].
  destruct (call_request_headers
              (@Call_CertificatesService_Revoke Reference.schema "ABC123"
                 (Some Reference.revoke_body))
              ctx_Background (Reference.demo 0) r Hr)
    as (Hk & Ha & Hu & _ & _ & Hc & _).
  repeat split; assumption.
Defined.

(** The test [nil HTTP client], after a valid option and before one
    that is not applied. *)
Lemma NewClient_errors_witness :
  NewClient "test-key"
    (option_of <$> [OptUserAgent "custom/1.0"; OptHTTPClient None;
                    OptBaseURL "://invalid-url"])
  = Err (Err_fmt "HTTP client cannot be nil")
  ∧ ∃ pre o post,
      [OptUserAgent "custom/1.0"; OptHTTPClient None;
       OptBaseURL "://invalid-url"] = pre ++ o :: post
      ∧ forallb valid_option pre = true.
Proof.
  assert (Hn : NewClient "test-key"
                 (option_of <$> [OptUserAgent "custom/1.0"; OptHTTPClient None;
                                 OptBaseURL "://invalid-url"])
               = Err (Err_fmt "HTTP client cannot be nil"))
    by reflexivity.
  split; [exact Hn|].
  destruct (NewClient_errors "test-key"
              [OptUserAgent "custom/1.0"; OptHTTPClient None;
               OptBaseURL "://invalid-url"]
              (Err_fmt "HTTP client cannot be nil") Hn)
    as [[Hk _]|[[_ Hp]|[_ (pre & o & post & Hs & Hv & _)]]].
  - discriminate Hk.
  - vm_compute in Hp. discriminate Hp.
  - exists pre, o, post. split; assumption.
Defined.

(** The test server answers 200 with a body that is not JSON:
    [Certificates.Revoke] returns no error. *)
Lemma no_result_calls_accept_any_body_witness :
  ∃ r resp,
    (call_request
       (@Call_CertificatesService_Revoke Reference.schema "ABC123"
          (Some Reference.revoke_body))
       ctx_Background (Reference.demo 5)).1 = Ok r
    ∧ http_Client_Do (Client.client (the_client (Reference.demo 5)))
        (wire (Reference.demo 5)) r = Ok resp
    ∧ HTTPResponse.Content resp = GoJSON.text "{'invalid': json}"
    ∧ call_outcome
        (@Call_CertificatesService_Revoke Reference.schema "ABC123"
           (Some Reference.revoke_body))
        ctx_Background (Reference.demo 5)
      = mkOutcome NoResult
          (Some (Response.mk resp (Some (HTTPResponse.Content resp)))) None.
Proof.
  destruct ((call_request
               (@Call_CertificatesService_Revoke Reference.schema "ABC123"
                  (Some Reference.revoke_body))
               ctx_Background (Reference.demo 5)).1)
    as [r|e] eqn:Hr; [|vm_compute in Hr; discriminate Hr].
  destruct (http_Client_Do (Client.client (the_client (Reference.demo 5)))
              (wire (Reference.demo 5)) r)
    as [resp|e] eqn:Hdo; [|vm_compute in Hdo; discriminate Hdo].
  exists r, resp.
  assert (Hread : HTTPResponse.ReadErr resp = None).
  { vm_compute in Hdo. injection Hdo as <-. reflexivity. }
  assert (Hs : 200 ≤ HTTPResponse.StatusCode resp < 300).
  { vm_compute in Hdo. injection Hdo as <-. by vm_compute. }
  assert (Hc : HTTPResponse.Content resp = GoJSON.text "{'invalid': json}").
  { vm_compute in Hdo. injection Hdo as <-. reflexivity. }
  split; [reflexivity|]. split; [exact Hdo|]. split; [exact Hc|].
  destruct (no_result_calls_accept_any_body
              (@Call_CertificatesService_Revoke Reference.schema "ABC123"
                 (Some Reference.revoke_body))
              ctx_Background (Reference.demo 5) r resp Hr Hdo Hread Hs)
    as (_ & Hout).
  apply Hout. reflexivity.
Defined.

(** The test [WithUserAgent], followed by a call. *)
Lemma NewClient_requests_carry_key_witness :
  ∃ c r,
    NewClient "test-key" (option_of <$> [OptUserAgent "custom-agent/1.0"])
      = Ok c
    ∧ (call_request (Call_CertificatesService_Get "ABC123") ctx_Background
         (mkState c [] [])).1 = Ok r
    ∧ GoHTTP.Get (Request.Header r) "X-API-Key" = "test-key"
    ∧ GoHTTP.Get (Request.Header r) "User-Agent" = "custom-agent/1.0".
Proof.
  destruct (NewClient "test-key"
              (option_of <$> [OptUserAgent "custom-agent/1.0"]))
    as [c|e] eqn:Hc; [|vm_compute in Hc; discriminate Hc].
  destruct ((call_request (Call_CertificatesService_Get "ABC123")
               ctx_Background (mkState c [] [])).1)
    as [r|e] eqn:Hr.
  2:{ vm_compute in Hc. injection Hc as <-. vm_compute in Hr. discriminate Hr. }
  exists c, r. split; [reflexivity|]. split; [exact Hr|].
  destruct (NewClient_requests_carry_key "test-key"
              [OptUserAgent "custom-agent/1.0"] c
              (Call_CertificatesService_Get "ABC123") ctx_Background [] [] r
              Hc Hr)
    as (_ & Hk & Hu).
  split; assumption.
Defined.

End RunningFurther.
